(** * Order lifecycle and role-scoped authorization of the e-commerce backend

    A shallow embedding of the Express/Mongoose backend:
    - [backend/middleware/auth.js]       ([protect], [verifyToken], [getUser],
                                          [isAuthenticated], [isNotAuthenticated])
    - [backend/middleware/roleCheck.js]  ([requireRole], [checkOrderAccess],
                                          [checkOwnership], [canManageOrders],
                                          [canManageProducts], [canViewAnalytics])
    - [backend/models/Product.js], [backend/models/Order.js]
    - [backend/routes/orderRoutes.js], [backend/routes/deliveryRoutes.js],
      [backend/routes/sellerRoutes.js], and the routes of
      [backend/routes/productRoutes.js] and [backend/routes/adminRoutes.js]
      that delete a product or a user
    and of the parts of the React front end that decide what is sent: the
    status buttons of [OrderCard.jsx] and [DeliveryDashboard.jsx], and the
    state updates of [CartContext.jsx].

    The document store is a record of three finite maps; the key of a
    document is its [_id], and a document in flight ([req.user],
    [req.order]) is the pair of its key and its fields.  A middleware either
    hands over to the next one, sends a reply, or throws into the enclosing
    [try]/[catch]; each may write to the store, so handlers live in a state
    monad over the store whose result is [Next a], [Respond r] or [Throw].

    The request validators of express-validator and the schemas' pre-save
    hooks are modelled; the schema validators that Mongoose runs on its own
    are modelled where a route asks for them ([runValidators]).  The
    timestamps that Mongoose keeps on every document are left out: no
    handler reads them, and the sort that uses them is the store's.

    JavaScript numbers that hold money are IEEE binary64 floats
    ([PrimFloat.float]); counters (stock, sales, quantities) are integers
    ([Z]).  What the file takes from outside the repository (token
    verification of jsonwebtoken, the sort of a Mongoose query) is the
    interface [External]. *)

From Stdlib Require Import ZArith List String Ascii Lia.
From Stdlib Require Import Floats.PrimFloat Floats.SpecFloat Floats.FloatOps.
From Stdlib Require Import Sorting.Permutation.
From stdpp Require Import base option list gmap strings pretty.

Set Warnings "-inexact-float".

Local Open Scope Z_scope.
Local Open Scope string_scope.

(** ** Data model *)

(** Object identifiers, abstractly: natural numbers. *)
Abbreviation ObjectId := N (only parsing).

Inductive Role := admin | seller | customer | delivery.

Inductive OrderStatus := pending | confirmed | shipped | delivered | cancelled.

Inductive PaymentStatus :=
  pay_pending | pay_completed | pay_failed | pay_refunded.

#[global] Instance Role_eq_dec : EqDecision Role.
Proof. solve_decision. Defined.

#[global] Instance OrderStatus_eq_dec : EqDecision OrderStatus.
Proof. solve_decision. Defined.

(** Modelled from the spec: models/User.js is not among the sources.
    The user record of the data model (section 3), with the fields that the
    middleware reads or writes: name, email, role, active flag, last-login
    time. *)
Record User := mkUser {
  user_name : string;
  user_email : string;
  user_role : Role;
  user_isActive : bool;
  user_lastLogin : option Z
}.

(** models/Product.js: the fields read or written by the order routes and
    by the model's own methods. *)
Record Product := mkProduct {
  product_name : string;
  product_price : float;
  product_stock : Z;
  product_seller : ObjectId;
  product_sku : string;
  product_isActive : bool;
  product_sales : Z
}.

(** models/Order.js, [orderItemSchema]. *)
Record OrderItem := mkOrderItem {
  item_product : ObjectId;
  item_quantity : Z;
  item_price : float;
  item_total : float
}.

Record Address := mkAddress {
  street : string;
  city : string;
  state : string;
  zipCode : string
}.

Record Payment := mkPayment {
  payment_method : string;
  payment_status : PaymentStatus
}.

Record Delivery := mkDelivery {
  trackingNumber : option string;
  estimatedDelivery : option Z;
  actualDelivery : option Z;
  deliveryAgent : option ObjectId
}.

(** models/Order.js, [orderSchema]. *)
Record Order := mkOrder {
  orderNumber : string;
  order_customer : ObjectId;
  order_items : list OrderItem;
  order_status : OrderStatus;
  order_subtotal : float;
  order_tax : float;
  order_shippingCost : float;
  order_total : float;
  shippingAddress : Address;
  billingAddress : Address;
  order_payment : Payment;
  order_delivery : Delivery;
  order_notes : option string;
  order_isActive : bool
}.

(** A document together with its [_id]. *)
Definition Doc (A : Type) : Type := ObjectId * A.

(** The three collections. *)
Record DB := mkDB {
  users : gmap ObjectId User;
  products : gmap ObjectId Product;
  orders : gmap ObjectId Order
}.

Definition set_users (f : gmap ObjectId User -> gmap ObjectId User) (db : DB) : DB :=
  {| users := f (users db); products := products db; orders := orders db |}.

Definition set_products (f : gmap ObjectId Product -> gmap ObjectId Product) (db : DB) : DB :=
  {| users := users db; products := f (products db); orders := orders db |}.

Definition set_orders (f : gmap ObjectId Order -> gmap ObjectId Order) (db : DB) : DB :=
  {| users := users db; products := products db; orders := f (orders db) |}.

(** ** Replies

    A reply that carries orders carries them as they are stored; the
    [populate] calls that dress a reply replace references by a few fields
    of the referenced documents and decide nothing. *)

Inductive Data :=
| DNone
| DOrder (o : Doc Order)
| DOrders (os : list (Doc Order)) (page limit : Z) (total : nat).

(** The uniform envelope [{ success, data | error, message?, details? }]. *)
Inductive Body :=
| Failure (error : string)
| Invalid (error : string) (details : list string)
| Success (message : option string) (data : Data).

Record Response := mkResponse { code : Z; body : Body }.

Definition fail (c : Z) (msg : string) : Response :=
  {| code := c; body := Failure msg |}.

(** ** The middleware monad *)

Inductive Step (A : Type) :=
| Next (a : A)
| Respond (r : Response)
| Throw.
Arguments Next {A} a.
Arguments Respond {A} r.
Arguments Throw {A}.

Definition Handler (A : Type) : Type := DB -> Step A * DB.

Definition ret {A} (a : A) : Handler A := fun db => (Next a, db).

Definition bind {A B} (m : Handler A) (k : A -> Handler B) : Handler B :=
  fun db =>
    match m db with
    | (Next a, db') => k a db'
    | (Respond r, db') => (Respond r, db')
    | (Throw, db') => (Throw, db')
    end.

Definition throw {A} : Handler A := fun db => (Throw, db).

(** [try { m } catch (error) { return res.status(..).json(..) }]. *)
Definition try_catch {A} (m : Handler A) (r : Response) : Handler A :=
  fun db =>
    match m db with
    | (Throw, db') => (Respond r, db')
    | other => other
    end.

Definition respond {A} (r : Response) : Handler A := fun db => (Respond r, db).

Definition get_db : Handler DB := fun db => (Next db, db).

Definition modify_db (f : DB -> DB) : Handler unit := fun db => (Next tt, f db).

Notation "'let*' x := m 'in' k" := (bind m (fun x => k))
  (at level 10, x name, m at level 100, k at level 200).
Notation "'run' m 'then' k" := (bind m (fun _ => k))
  (at level 10, m at level 100, k at level 200).

(** What one request draws from its environment: the clock ([Date.now()],
    [new Date()]), the identifier the driver gives a new document, and the
    string [Math.random().toString(36)]. *)
Record Env := mkEnv {
  now : Z;
  fresh_id : ObjectId;
  random36 : string
}.

(** ** String helpers of the JavaScript code *)

(** [s.split(sep)] for a one-character separator. *)
Fixpoint split_from (sep : ascii) (cur : string) (s : string) : list string :=
  match s with
  | EmptyString => [cur]
  | String c s' =>
      if Ascii.eqb c sep then cur :: split_from sep EmptyString s'
      else split_from sep (cur ++ String c EmptyString) s'
  end.

Definition split (sep : ascii) (s : string) : list string :=
  split_from sep EmptyString s.

Definition is_empty (s : string) : bool :=
  match s with EmptyString => true | _ => false end.

(** [s.slice(-n)]: the last [n] characters, all of [s] when it is shorter. *)
Definition slice_last (n : nat) (s : string) : string :=
  substring (String.length s - n) n s.

(** [s.substr(start, len)]. *)
Definition substr (start len : nat) (s : string) : string :=
  substring start len s.

Definition upper_char (c : ascii) : ascii :=
  let n := nat_of_ascii c in
  if ((97 <=? n) && (n <=? 122))%nat then ascii_of_nat (n - 32) else c.

(** [s.toUpperCase()] on ASCII text. *)
Fixpoint toUpperCase (s : string) : string :=
  match s with
  | EmptyString => EmptyString
  | String c s' => String (upper_char c) (toUpperCase s')
  end.

Definition is_space (c : ascii) : bool :=
  let n := nat_of_ascii c in
  ((n =? 32) || ((9 <=? n) && (n <=? 13)))%nat.

Fixpoint trim_left (s : string) : string :=
  match s with
  | EmptyString => EmptyString
  | String c s' => if is_space c then trim_left s' else s
  end.

(** Drops trailing white space: the result of folding from the right. *)
Fixpoint trim_right (s : string) : string :=
  match s with
  | EmptyString => EmptyString
  | String c s' =>
      match trim_right s' with
      | EmptyString => if is_space c then EmptyString else String c EmptyString
      | rest => String c rest
      end
  end.

(** The [trim()] sanitizer. *)
Definition trim (s : string) : string := trim_right (trim_left s).

(** ** Numbers *)

(** The binary64 value of an integer, rounded to nearest even as the
    JavaScript number of that integer is. *)
Definition float_of_Z (z : Z) : float :=
  SF2Prim (binary_normalize prec emax z 0 false).

(** ** External interface *)

Class External := {
  (** [jwt.verify(token, secret)]: the [id] of the decoded payload, or
      [None] where the library throws (bad signature, expired, malformed). *)
  jwt_verify : string -> option ObjectId;
  (** [Query.sort(key)] of the store. *)
  query_sort : string -> list (Doc Order) -> list (Doc Order);
  query_sort_perm : forall key l, Permutation (query_sort key l) l
}.

Section Backend.
Context `{External}.

(** ** middleware/auth.js *)

(** The request headers: only [authorization] is read. *)
Record Headers := mkHeaders { authorization : option string }.

(** [token = req.headers.authorization.split(' ')[1]], [undefined] when
    the header has no second part. *)
Definition bearer_token (h : string) : option string :=
  split " "%char h !! 1%nat.

(** [jwt.verify] on the value read from the header: jsonwebtoken throws
    "jwt must be provided" on [undefined] and on the empty string. *)
Definition verify_token (t : option string) : Handler ObjectId :=
  match t with
  | None => throw
  | Some tok =>
      if is_empty tok then throw
      else match jwt_verify tok with
           | Some uid => ret uid
           | None => throw
           end
  end.

Definition touch_login (t : Z) (u : User) : User :=
  {| user_name := user_name u; user_email := user_email u;
     user_role := user_role u; user_isActive := user_isActive u;
     user_lastLogin := Some t |}.

(** [user.save()]. *)
Definition save_user (u : Doc User) : Handler unit :=
  modify_db (set_users (insert (fst u) (snd u))).

(** [User.findById(id)]. *)
Definition User_findById (uid : ObjectId) : Handler (option (Doc User)) :=
  let* db := get_db in
  ret (pair uid <$> users db !! uid).

(** [protect]: on success the continuation receives [req.user]. *)
Definition protect (hd : Headers) (env : Env) : Handler (Doc User) :=
  match authorization hd with
  | Some h =>
      if String.prefix "Bearer" h then
        try_catch
          (let* uid := verify_token (bearer_token h) in
           let* found := User_findById uid in
           match found with
           | None => respond (fail 401 "User not found")
           | Some (uid, user) =>
               if negb (user_isActive user) then
                 respond (fail 401 "User account is deactivated")
               else
                 let user' := (uid, touch_login (now env) user) in
                 run save_user user' then
                 ret user'
           end)
          (fail 401 "Not authorized, token failed")
      else respond (fail 401 "Not authorized, no token")
  | None => respond (fail 401 "Not authorized, no token")
  end.

(** ** middleware/roleCheck.js *)

Definition role_name (r : Role) : string :=
  match r with
  | admin => "admin"
  | seller => "seller"
  | customer => "customer"
  | delivery => "delivery"
  end.

(** [names.join(' or ')]. *)
Fixpoint join_or (names : list string) : string :=
  match names with
  | [] => ""
  | [n] => n
  | n :: rest => n ++ " or " ++ join_or rest
  end.

Definition includes_role (roles : list Role) (r : Role) : bool :=
  bool_decide (r ∈ roles).

(** [requireRole(roles)]: it runs [protect] once more on the request
    before it looks at the role. *)
Definition requireRole (roles : list Role) (hd : Headers) (env : Env)
  : Handler (Doc User) :=
  let* user := protect hd env in
  if negb (includes_role roles (user_role (snd user))) then
    respond (fail 403 ("Access denied. Required role: "
                         ++ join_or (role_name <$> roles)))
  else ret user.

Definition requireCustomer := requireRole [customer].
Definition requireSeller := requireRole [seller].
Definition requireDelivery := requireRole [delivery].
Definition requireAdmin := requireRole [admin].

Definition canManageOrders (user : Doc User) : Handler unit :=
  if includes_role [admin; seller; delivery] (user_role (snd user)) then ret tt
  else respond (fail 403
    "Access denied. Only admins, sellers, and delivery agents can manage orders.").

(** The line items' product references, [order.items.map(item => item.product)]. *)
Definition item_products (o : Order) : list ObjectId :=
  item_product <$> order_items o.

(** [Product.find({ _id: { $in: ids }, seller: uid })]. *)
Definition products_of_seller_among (ids : list ObjectId) (uid : ObjectId) (db : DB)
  : gmap ObjectId Product :=
  filter (fun kp => fst kp ∈ ids /\ product_seller (snd kp) = uid) (products db).

(** [Product.find({ seller: uid })]. *)
Definition products_of_seller (uid : ObjectId) (db : DB) : gmap ObjectId Product :=
  filter (fun kp => product_seller (snd kp) = uid) (products db).

(** [populate(path)] of a reference: the referenced user, [null] when no
    such user is stored. *)
Definition populate_user (ref : ObjectId) (db : DB) : option (Doc User) :=
  pair ref <$> users db !! ref.

(** [checkOrderAccess]: on success the continuation receives [req.order]. *)
Definition checkOrderAccess (user : Doc User) (id : ObjectId) : Handler (Doc Order) :=
  try_catch
    (let* db := get_db in
     match orders db !! id with
     | None => respond (fail 404 "Order not found")
     | Some order =>
         let customer_doc := populate_user (order_customer order) db in
         let agent_doc := deliveryAgent (order_delivery order) ≫= fun a => populate_user a db in
         if bool_decide (user_role (snd user) = admin) then ret (id, order)
         else
           let* seller_ok :=
             (if bool_decide (user_role (snd user) = seller) then
                let orderProducts :=
                  products_of_seller_among (item_products order) (fst user) db in
                ret (bool_decide (0 < size orderProducts)%nat)
              else ret false) in
           if (seller_ok : bool) then ret (id, order)
           else
             let* customer_ok :=
               (if bool_decide (user_role (snd user) = customer) then
                  match customer_doc with
                  | None => throw
                  | Some c => ret (bool_decide (fst c = fst user))
                  end
                else ret false) in
             if (customer_ok : bool) then ret (id, order)
             else
               if bool_decide (user_role (snd user) = delivery)
                  && match agent_doc with
                     | Some a => bool_decide (fst a = fst user)
                     | None => false
                     end
               then ret (id, order)
               else respond (fail 403 "Access denied. You cannot access this order.")
     end)
    (fail 500 "Server error").

(** ** models/Product.js *)





(** [{ $inc: { stock: ds, sales: dq } }] on one document. *)
Definition inc_stock_sales (ds dq : Z) (p : Product) : Product :=
  {| product_name := product_name p; product_price := product_price p;
     product_stock := product_stock p + ds; product_seller := product_seller p;
     product_sku := product_sku p; product_isActive := product_isActive p;
     product_sales := product_sales p + dq |}.

(** [Product.findByIdAndUpdate(id, { $inc: .. })]: no document, no write. *)
Definition Product_findByIdAndUpdate_inc (id : ObjectId) (ds dq : Z) : Handler unit :=
  modify_db (set_products (alter (inc_stock_sales ds dq) id)).

(** [Product.findById(id)]. *)
Definition Product_findById (id : ObjectId) : Handler (option (Doc Product)) :=
  let* db := get_db in
  ret (pair id <$> products db !! id).

(** ** models/Order.js *)

Definition with_status (st : OrderStatus) (o : Order) : Order :=
  {| orderNumber := orderNumber o; order_customer := order_customer o;
     order_items := order_items o; order_status := st;
     order_subtotal := order_subtotal o; order_tax := order_tax o;
     order_shippingCost := order_shippingCost o; order_total := order_total o;
     shippingAddress := shippingAddress o; billingAddress := billingAddress o;
     order_payment := order_payment o; order_delivery := order_delivery o;
     order_notes := order_notes o; order_isActive := order_isActive o |}.

Definition with_delivery (d : Delivery) (o : Order) : Order :=
  {| orderNumber := orderNumber o; order_customer := order_customer o;
     order_items := order_items o; order_status := order_status o;
     order_subtotal := order_subtotal o; order_tax := order_tax o;
     order_shippingCost := order_shippingCost o; order_total := order_total o;
     shippingAddress := shippingAddress o; billingAddress := billingAddress o;
     order_payment := order_payment o; order_delivery := d;
     order_notes := order_notes o; order_isActive := order_isActive o |}.

Definition with_orderNumber (n : string) (o : Order) : Order :=
  {| orderNumber := n; order_customer := order_customer o;
     order_items := order_items o; order_status := order_status o;
     order_subtotal := order_subtotal o; order_tax := order_tax o;
     order_shippingCost := order_shippingCost o; order_total := order_total o;
     shippingAddress := shippingAddress o; billingAddress := billingAddress o;
     order_payment := order_payment o; order_delivery := order_delivery o;
     order_notes := order_notes o; order_isActive := order_isActive o |}.

Definition with_totals (sub tot : float) (o : Order) : Order :=
  {| orderNumber := orderNumber o; order_customer := order_customer o;
     order_items := order_items o; order_status := order_status o;
     order_subtotal := sub; order_tax := order_tax o;
     order_shippingCost := order_shippingCost o; order_total := tot;
     shippingAddress := shippingAddress o; billingAddress := billingAddress o;
     order_payment := order_payment o; order_delivery := order_delivery o;
     order_notes := order_notes o; order_isActive := order_isActive o |}.

Definition with_agent (a : option ObjectId) (d : Delivery) : Delivery :=
  {| trackingNumber := trackingNumber d; estimatedDelivery := estimatedDelivery d;
     actualDelivery := actualDelivery d; deliveryAgent := a |}.

Definition with_tracking (t : option string) (d : Delivery) : Delivery :=
  {| trackingNumber := t; estimatedDelivery := estimatedDelivery d;
     actualDelivery := actualDelivery d; deliveryAgent := deliveryAgent d |}.

Definition with_estimated (t : option Z) (d : Delivery) : Delivery :=
  {| trackingNumber := trackingNumber d; estimatedDelivery := t;
     actualDelivery := actualDelivery d; deliveryAgent := deliveryAgent d |}.

Definition with_actual (t : option Z) (d : Delivery) : Delivery :=
  {| trackingNumber := trackingNumber d; estimatedDelivery := estimatedDelivery d;
     actualDelivery := t; deliveryAgent := deliveryAgent d |}.

(** First pre-save hook: the order number, when the document has none. *)
Definition gen_orderNumber (env : Env) (o : Order) : Order :=
  if is_empty (orderNumber o) then
    let timestamp := slice_last 8 (pretty (now env)) in
    let random := toUpperCase (substr 2 4 (random36 env)) in
    with_orderNumber ("ORD-" ++ timestamp ++ "-" ++ random) o
  else o.

(** [items.reduce((sum, item) => sum + item.total, 0)]. *)
Definition sum_item_totals (items : list OrderItem) : float :=
  fold_left (fun sum item => PrimFloat.add sum (item_total item)) items 0%float.

(** Second pre-save hook: subtotal and total, when there are line items. *)
Definition calc_totals (o : Order) : Order :=
  match order_items o with
  | [] => o
  | _ :: _ =>
      let subtotal := sum_item_totals (order_items o) in
      let total :=
        PrimFloat.add (PrimFloat.add subtotal (order_tax o)) (order_shippingCost o) in
      with_totals subtotal total o
  end.

Definition Order_pre_save (env : Env) (o : Order) : Order :=
  calc_totals (gen_orderNumber env o).

(** The unique index on [orderNumber]. *)
Definition orderNumber_taken (n : string) (db : DB) : bool :=
  bool_decide (0 < size (filter (fun kp : ObjectId * Order => orderNumber (snd kp) = n)
                                (orders db)))%nat.

(** [order.save()].  A new document is inserted, which the store refuses
    when its [_id] or its order number is already there; an existing one is
    written back. *)
Definition Order_save (env : Env) (isNew : bool) (doc : Doc Order)
  : Handler (Doc Order) :=
  let saved := (fst doc, Order_pre_save env (snd doc)) in
  let* db := get_db in
  if isNew && (bool_decide (is_Some (orders db !! fst saved))
               || orderNumber_taken (orderNumber (snd saved)) db)
  then throw
  else
    run modify_db (set_orders (insert (fst saved) (snd saved))) then
    ret saved.

(** ** routes/orderRoutes.js *)

Definition parse_status (s : string) : option OrderStatus :=
  if String.eqb s "pending" then Some pending
  else if String.eqb s "confirmed" then Some confirmed
  else if String.eqb s "shipped" then Some shipped
  else if String.eqb s "delivered" then Some delivered
  else if String.eqb s "cancelled" then Some cancelled
  else None.

Definition payment_methods : list string :=
  ["credit_card"; "debit_card"; "paypal"; "stripe"; "cash_on_delivery"].

(** The body of [POST /api/orders]. *)
Record ItemReq := mkItemReq { req_product : ObjectId; req_quantity : Z }.

Record OrderReq := mkOrderReq {
  req_items : list ItemReq;
  req_shippingAddress : Address;
  req_billingAddress : option Address;
  req_payment_method : string;
  req_notes : option string
}.

Definition invalid (details : list string) : Response :=
  {| code := 400; body := Invalid "Validation failed" details |}.

Definition check (ok : bool) (msg : string) : list string :=
  if ok then [] else [msg].

(** [orderValidation]: the messages of the failed checks, in the order of
    the chain. *)
Definition orderValidation (b : OrderReq) : list string :=
  check (bool_decide (1 <= length (req_items b))%nat) "At least one item is required"
  ++ flat_map (fun it => check (1 <=? req_quantity it)%Z "Quantity must be at least 1")
       (req_items b)
  ++ check (negb (is_empty (trim (street (req_shippingAddress b)))))
       "Street address is required"
  ++ check (negb (is_empty (trim (city (req_shippingAddress b))))) "City is required"
  ++ check (negb (is_empty (trim (state (req_shippingAddress b))))) "State is required"
  ++ check (negb (is_empty (trim (zipCode (req_shippingAddress b)))))
       "ZIP code is required"
  ++ check (bool_decide (req_payment_method b ∈ payment_methods))
       "Invalid payment method".

(** The sanitizers of the chain write the trimmed fields back to the body. *)
Definition trim_address (a : Address) : Address :=
  {| street := trim (street a); city := trim (city a);
     state := trim (state a); zipCode := trim (zipCode a) |}.

Definition tax_of (subtotal : float) : float := PrimFloat.mul subtotal 0.08%float.

Definition shipping_of (subtotal : float) : float :=
  if PrimFloat.ltb 50%float subtotal then 0%float else 5.99%float.

Definition total_of (subtotal tax shippingCost : float) : float :=
  PrimFloat.add (PrimFloat.add subtotal tax) shippingCost.

(** The first loop of the handler: it checks each requested item against
    the catalog and builds the order's line items and the subtotal. *)
Fixpoint collect_items (items : list ItemReq) (orderItems : list OrderItem)
    (subtotal : float) : Handler (list OrderItem * float) :=
  match items with
  | [] => ret (orderItems, subtotal)
  | item :: rest =>
      let* found := Product_findById (req_product item) in
      match found with
      | None =>
          respond (fail 400 ("Product " ++ pretty (req_product item) ++ " not found"))
      | Some (pid, product) =>
          if negb (product_isActive product) then
            respond (fail 400 ("Product " ++ product_name product ++ " is not available"))
          else if (product_stock product <? req_quantity item)%Z then
            respond (fail 400 ("Insufficient stock for " ++ product_name product))
          else
            let itemTotal :=
              PrimFloat.mul (product_price product) (float_of_Z (req_quantity item)) in
            collect_items rest
              (orderItems ++ [ {| item_product := pid;
                                  item_quantity := req_quantity item;
                                  item_price := product_price product;
                                  item_total := itemTotal |} ])
              (PrimFloat.add subtotal itemTotal)
      end
  end.

(** The second loop: one [$inc] per requested item. *)
Fixpoint update_stock (items : list ItemReq) : Handler unit :=
  match items with
  | [] => ret tt
  | item :: rest =>
      run Product_findByIdAndUpdate_inc (req_product item)
            (- req_quantity item) (req_quantity item) then
      update_stock rest
  end.

Definition default_delivery : Delivery :=
  {| trackingNumber := None; estimatedDelivery := None;
     actualDelivery := None; deliveryAgent := None |}.

(** The totals of the handler and [new Order({ .. })]. *)
Definition new_order (user : Doc User) (b : OrderReq) (shipping : Address)
    (orderItems : list OrderItem) (subtotal : float) : Order :=
  let tax := tax_of subtotal in
  let shippingCost := shipping_of subtotal in
  let total := total_of subtotal tax shippingCost in
  {| orderNumber := ""; order_customer := fst user;
     order_items := orderItems; order_status := pending;
     order_subtotal := subtotal; order_tax := tax;
     order_shippingCost := shippingCost; order_total := total;
     shippingAddress := shipping;
     billingAddress := default shipping (req_billingAddress b);
     order_payment := {| payment_method := req_payment_method b;
                         payment_status := pay_pending |};
     order_delivery := default_delivery;
     order_notes := req_notes b; order_isActive := true |}.

Definition create_order_handler (user : Doc User) (env : Env) (b : OrderReq)
  : Handler Response :=
  try_catch
    (match orderValidation b with
     | (_ :: _) as errors => respond (invalid errors)
     | [] =>
         let shipping := trim_address (req_shippingAddress b) in
         let* collected := collect_items (req_items b) [] 0%float in
         let order := new_order user b shipping (fst collected) (snd collected) in
         let* saved := Order_save env true (fresh_id env, order) in
         run update_stock (req_items b) then
         respond {| code := 201;
                    body := Success (Some "Order created successfully") (DOrder saved) |}
     end)
    (fail 500 "Server error while creating order").

(** [router.post('/', protect, requireCustomer, orderValidation, ..)]. *)
Definition POST_orders (hd : Headers) (env : Env) (b : OrderReq) : Handler Response :=
  run protect hd env then
  let* user := requireCustomer hd env in
  create_order_handler user env b.

Definition seller_targets : list OrderStatus := [pending; confirmed].
Definition delivery_targets : list OrderStatus := [confirmed; shipped; delivered].

Definition update_status_handler (user : Doc User) (env : Env) (order : Doc Order)
    (status_text : string) : Handler Response :=
  try_catch
    (match parse_status status_text with
     | None => respond (invalid ["Invalid status"])
     | Some status =>
         if bool_decide (user_role (snd user) = seller)
            && negb (bool_decide (status ∈ seller_targets)) then
           respond (fail 403 "Sellers can only confirm orders")
         else if bool_decide (user_role (snd user) = delivery)
                 && negb (bool_decide (status ∈ delivery_targets)) then
           respond (fail 403 "Delivery agents can only update shipping status")
         else
           let o1 := with_status status (snd order) in
           let o2 :=
             if bool_decide (status = shipped)
                && bool_decide (user_role (snd user) = delivery)
             then with_delivery (with_agent (Some (fst user)) (order_delivery o1)) o1
             else o1 in
           let* saved := Order_save env false (fst order, o2) in
           respond {| code := 200;
                      body := Success (Some "Order status updated successfully")
                                (DOrder saved) |}
     end)
    (fail 500 "Server error while updating order status").

(** [router.patch('/:id/status', protect, canManageOrders, checkOrderAccess, ..)]. *)
Definition PATCH_order_status (hd : Headers) (env : Env) (id : ObjectId)
    (status_text : string) : Handler Response :=
  let* user := protect hd env in
  run canManageOrders user then
  let* order := checkOrderAccess user id in
  update_status_handler user env order status_text.

(** The third loop of the file: one [$inc] per line item of the order. *)
Fixpoint restore_stock (items : list OrderItem) : Handler unit :=
  match items with
  | [] => ret tt
  | item :: rest =>
      run Product_findByIdAndUpdate_inc (item_product item)
            (item_quantity item) (- item_quantity item) then
      restore_stock rest
  end.

Definition cancel_order_handler (env : Env) (order : Doc Order) : Handler Response :=
  try_catch
    (if negb (bool_decide (order_status (snd order) = pending)) then
       respond (fail 400 "Only pending orders can be cancelled")
     else
       let* saved := Order_save env false (fst order, with_status cancelled (snd order)) in
       run restore_stock (order_items (snd saved)) then
       respond {| code := 200;
                  body := Success (Some "Order cancelled successfully") DNone |})
    (fail 500 "Server error while cancelling order").

(** [router.delete('/:id', protect, checkOrderAccess, ..)]. *)
Definition DELETE_order (hd : Headers) (env : Env) (id : ObjectId) : Handler Response :=
  let* user := protect hd env in
  let* order := checkOrderAccess user id in
  cancel_order_handler env order.

(** [router.get('/:id', protect, checkOrderAccess, ..)]. *)
Definition GET_order (hd : Headers) (env : Env) (id : ObjectId) : Handler Response :=
  let* user := protect hd env in
  let* order := checkOrderAccess user id in
  respond {| code := 200; body := Success None (DOrder order) |}.

(** The body of [PUT /api/orders/:id], [req.body], handed to
    [findByIdAndUpdate] as it comes: each field that is present is set. *)
Record OrderUpdate := mkOrderUpdate {
  upd_items : option (list OrderItem);
  upd_status : option string;
  upd_subtotal : option float;
  upd_tax : option float;
  upd_shippingCost : option float;
  upd_total : option float;
  upd_isActive : option bool
}.

Definition nonneg (x : float) : bool := PrimFloat.leb 0%float x.

Definition item_valid (it : OrderItem) : bool :=
  (1 <=? item_quantity it)%Z && nonneg (item_price it) && nonneg (item_total it).

Definition opt_valid {A} (ok : A -> bool) (x : option A) : bool :=
  match x with
  | None => true
  | Some a => ok a
  end.

(** [runValidators: true]: the schema's [min] and [enum] rules on the
    fields of the update. *)
Definition update_valid (u : OrderUpdate) : bool :=
  opt_valid (forallb item_valid) (upd_items u)
  && opt_valid (fun s => bool_decide (is_Some (parse_status s))) (upd_status u)
  && opt_valid nonneg (upd_subtotal u)
  && opt_valid nonneg (upd_tax u)
  && opt_valid nonneg (upd_shippingCost u)
  && opt_valid nonneg (upd_total u).

Definition apply_update (u : OrderUpdate) (o : Order) : Order :=
  {| orderNumber := orderNumber o; order_customer := order_customer o;
     order_items := default (order_items o) (upd_items u);
     order_status := default (order_status o) (upd_status u ≫= parse_status);
     order_subtotal := default (order_subtotal o) (upd_subtotal u);
     order_tax := default (order_tax o) (upd_tax u);
     order_shippingCost := default (order_shippingCost o) (upd_shippingCost u);
     order_total := default (order_total o) (upd_total u);
     shippingAddress := shippingAddress o; billingAddress := billingAddress o;
     order_payment := order_payment o; order_delivery := order_delivery o;
     order_notes := order_notes o;
     order_isActive := default (order_isActive o) (upd_isActive u) |}.

(** [Order.findByIdAndUpdate(id, body, { new: true, runValidators: true })]:
    no [save], so no pre-save hook. *)
Definition Order_findByIdAndUpdate (id : ObjectId) (u : OrderUpdate)
  : Handler (option (Doc Order)) :=
  if negb (update_valid u) then throw
  else
    let* db := get_db in
    match orders db !! id with
    | None => ret None
    | Some o =>
        let o' := apply_update u o in
        run modify_db (set_orders (insert id o')) then
        ret (Some (id, o'))
    end.

Definition put_order_handler (user : Doc User) (id : ObjectId) (u : OrderUpdate)
  : Handler Response :=
  try_catch
    (if negb (bool_decide (user_role (snd user) = admin)) then
       respond (fail 403 "Only admins can update orders")
     else
       let* updated := Order_findByIdAndUpdate id u in
       match updated with
       | None => respond (fail 404 "Order not found")
       | Some order =>
           respond {| code := 200;
                      body := Success (Some "Order updated successfully") (DOrder order) |}
       end)
    (fail 500 "Server error while updating order").

(** [router.put('/:id', protect, checkOrderAccess, ..)]. *)
Definition PUT_order (hd : Headers) (env : Env) (id : ObjectId) (u : OrderUpdate)
  : Handler Response :=
  let* user := protect hd env in
  run checkOrderAccess user id then
  put_order_handler user id u.

Definition tracking_handler (user : Doc User) (env : Env) (order : Doc Order)
    (tracking : string) : Handler Response :=
  try_catch
    (let trackingNumber' := trim tracking in
     if is_empty trackingNumber' then
       respond (invalid ["Tracking number is required"])
     else if negb (bool_decide (user_role (snd user) = delivery)) then
       respond (fail 403 "Only delivery agents can add tracking information")
     else
       let d := with_agent (Some (fst user))
                  (with_tracking (Some trackingNumber') (order_delivery (snd order))) in
       let* saved := Order_save env false (fst order, with_delivery d (snd order)) in
       respond {| code := 200;
                  body := Success (Some "Tracking information added successfully")
                            (DOrder saved) |})
    (fail 500 "Server error while adding tracking information").

(** [router.post('/:id/tracking', protect, checkOrderAccess, ..)]. *)
Definition POST_order_tracking (hd : Headers) (env : Env) (id : ObjectId)
    (tracking : string) : Handler Response :=
  let* user := protect hd env in
  let* order := checkOrderAccess user id in
  tracking_handler user env order tracking.

(** *** Listings *)

(** The query string after [parseInt] and the defaults of the
    destructuring ([page = 1], [limit = 10], [sort = '-createdAt']). *)
Record OrdersQuery := mkOrdersQuery {
  q_page : Z;
  q_limit : Z;
  q_status : option string;
  q_sort : string
}.

(** [Query.skip(n).limit(m)]: the store refuses a negative skip, reads a
    limit of zero as no limit and a negative limit as its absolute value. *)
Definition skip_limit {A} (skip limit : Z) (l : list A) : Handler (list A) :=
  if (skip <? 0)%Z then throw
  else
    let rest := drop (Z.to_nat skip) l in
    ret (if (limit =? 0)%Z then rest else take (Z.to_nat (Z.abs limit)) rest).

(** A query filter as a test on stored documents. *)
Definition Filter := Doc Order -> bool.

(** [Order.find(filter).sort(sort).skip(skip).limit(limit)]. *)
Definition Order_find (f : Filter) (sort : string) (skip limit : Z)
  : Handler (list (Doc Order)) :=
  let* db := get_db in
  skip_limit skip limit
    (query_sort sort (map_to_list (filter (fun kp => f kp) (orders db)))).

(** [Order.countDocuments(filter)]. *)
Definition Order_countDocuments (f : Filter) : Handler nat :=
  let* db := get_db in
  ret (size (filter (fun kp => f kp) (orders db))).

(** [filter.status = status], set when the parameter is a non-empty
    string; a text that names no status matches no order. *)
Definition status_filter (status : option string) : Filter :=
  fun kp =>
    match status with
    | None => true
    | Some s =>
        if is_empty s then true
        else match parse_status s with
             | Some st => bool_decide (order_status (snd kp) = st)
             | None => false
             end
    end.

(** [{ 'items.product': { $in: ids } }]: some line item refers to one of
    [ids]. *)
Definition items_product_in (ids : list ObjectId) : Filter :=
  fun kp => existsb (fun it => bool_decide (item_product it ∈ ids)) (order_items (snd kp)).

(** [sellerProducts.map(p => p._id)]. *)
Definition seller_product_ids (uid : ObjectId) (db : DB) : list ObjectId :=
  fst <$> map_to_list (products_of_seller uid db).

Definition agent_filter (uid : ObjectId) : Filter :=
  fun kp => bool_decide (deliveryAgent (order_delivery (snd kp)) = Some uid).

(** The role-based part of the filter of [GET /api/orders]. *)
Definition role_filter (user : Doc User) (db : DB) : Filter :=
  match user_role (snd user) with
  | customer => fun kp => bool_decide (order_customer (snd kp) = fst user)
  | seller => items_product_in (seller_product_ids (fst user) db)
  | delivery => agent_filter (fst user)
  | admin => fun _ => true
  end.

Definition active_filter : Filter := fun kp => order_isActive (snd kp).

Definition all_of (fs : list Filter) : Filter := fun kp => forallb (fun f => f kp) fs.

Definition list_orders_handler (user : Doc User) (q : OrdersQuery) : Handler Response :=
  try_catch
    (let skip := ((q_page q - 1) * q_limit q)%Z in
     let* db := get_db in
     let f := all_of [active_filter; role_filter user db; status_filter (q_status q)] in
     let* found := Order_find f (q_sort q) skip (q_limit q) in
     let* total := Order_countDocuments f in
     respond {| code := 200;
                body := Success None (DOrders found (q_page q) (q_limit q) total) |})
    (fail 500 "Server error while fetching orders").

(** [router.get('/', protect, ..)]. *)
Definition GET_orders (hd : Headers) (env : Env) (q : OrdersQuery) : Handler Response :=
  let* user := protect hd env in
  list_orders_handler user q.

(** ** routes/sellerRoutes.js *)

(** The handler of [GET /api/seller/orders]; it does not consult the result
    of the query validators that precede it. *)
Definition seller_orders_handler (user : Doc User) (q : OrdersQuery) : Handler Response :=
  try_catch
    (let skip := ((q_page q - 1) * q_limit q)%Z in
     let* db := get_db in
     let productIds := seller_product_ids (fst user) db in
     let f := all_of [items_product_in productIds; active_filter;
                      status_filter (q_status q)] in
     let* found := Order_find f (q_sort q) skip (q_limit q) in
     let* total := Order_countDocuments f in
     respond {| code := 200;
                body := Success None (DOrders found (q_page q) (q_limit q) total) |})
    (fail 500 "Server error while fetching orders").

(** [router.get('/orders', protect, requireSeller, ..)]. *)
Definition GET_seller_orders (hd : Headers) (env : Env) (q : OrdersQuery)
  : Handler Response :=
  run protect hd env then
  let* user := requireSeller hd env in
  seller_orders_handler user q.

(** ** routes/deliveryRoutes.js *)

(** [Order.findOne({ _id: id, 'delivery.deliveryAgent': uid })]. *)
Definition Order_findOne_assigned (id uid : ObjectId) : Handler (option (Doc Order)) :=
  let* db := get_db in
  ret (match orders db !! id with
       | Some o => if agent_filter uid (id, o) then Some (id, o) else None
       | None => None
       end).



(** The body of [PATCH /api/delivery/orders/:id/status]; the [notes] of the
    body go to a key the schema does not have and are not stored. *)
Record DeliveryStatusReq := mkDeliveryStatusReq {
  ds_status : string;
  ds_estimatedDelivery : option Z
}.

Definition delivery_status_handler (user : Doc User) (env : Env) (id : ObjectId)
    (b : DeliveryStatusReq) : Handler Response :=
  try_catch
    (match parse_status (ds_status b) with
     | Some status =>
         if negb (bool_decide (status ∈ delivery_targets)) then
           respond (invalid ["Invalid status for delivery agent"])
         else
           let* found := Order_findOne_assigned id (fst user) in
           match found with
           | None => respond (fail 404 "Order not found or not assigned to you")
           | Some order =>
               let o1 := with_status status (snd order) in
               let d1 := match ds_estimatedDelivery b with
                         | Some t => with_estimated (Some t) (order_delivery o1)
                         | None => order_delivery o1
                         end in
               let d2 := if bool_decide (status = delivered)
                         then with_actual (Some (now env)) d1 else d1 in
               let* saved := Order_save env false (fst order, with_delivery d2 o1) in
               respond {| code := 200;
                          body := Success (Some "Delivery status updated successfully")
                                    (DOrder saved) |}
           end
     | None => respond (invalid ["Invalid status for delivery agent"])
     end)
    (fail 500 "Server error while updating delivery status").

(** [router.patch('/orders/:id/status', protect, requireDelivery, ..)]. *)
Definition PATCH_delivery_order_status (hd : Headers) (env : Env) (id : ObjectId)
    (b : DeliveryStatusReq) : Handler Response :=
  run protect hd env then
  let* user := requireDelivery hd env in
  delivery_status_handler user env id b.

(** ** Predicates used in the statements *)

(** The request's credential names the stored, active user [u] with key
    [uid]. *)
Definition resolves (hd : Headers) (db : DB) (uid : ObjectId) (u : User) : Prop :=
  exists h tok,
    authorization hd = Some h /\ String.prefix "Bearer" h = true /\
    bearer_token h = Some tok /\ is_empty tok = false /\
    jwt_verify tok = Some uid /\
    users db !! uid = Some u /\ user_isActive u = true.

(** A requested item passes the three checks of the first loop of order
    creation: its product is stored, active, and has the stock. *)
Definition item_available (db : DB) (it : ItemReq) : bool :=
  match products db !! req_product it with
  | Some p => product_isActive p && negb (product_stock p <? req_quantity it)%Z
  | None => false
  end.

(** The order line that the first loop builds for a requested item. *)
Definition order_line (db : DB) (it : ItemReq) : option OrderItem :=
  (fun p => {| item_product := req_product it;
               item_quantity := req_quantity it;
               item_price := product_price p;
               item_total := PrimFloat.mul (product_price p)
                                           (float_of_Z (req_quantity it)) |})
  <$> products db !! req_product it.

Definition order_lines (db : DB) (items : list ItemReq) : list OrderItem :=
  omap (order_line db) items.

(** The decision of [checkOrderAccess] on a stored order, role by role:
    it lets the caller through, replies 403, or fails on the customer
    reference that [populate] left [null]. *)
Inductive Access := Granted | Denied | Crashed.

Definition order_access (user : Doc User) (o : Order) (db : DB) : Access :=
  match user_role (snd user) with
  | admin => Granted
  | seller =>
      if bool_decide (0 < size (products_of_seller_among (item_products o) (fst user) db))%nat
      then Granted else Denied
  | customer =>
      match users db !! order_customer o with
      | None => Crashed
      | Some _ => if bool_decide (order_customer o = fst user) then Granted else Denied
      end
  | delivery =>
      match deliveryAgent (order_delivery o) with
      | Some a =>
          match users db !! a with
          | Some _ => if bool_decide (a = fst user) then Granted else Denied
          | None => Denied
          end
      | None => Denied
      end
  end.

(** The text of a status in a request body. *)
Definition status_name (st : OrderStatus) : string :=
  match st with
  | pending => "pending"
  | confirmed => "confirmed"
  | shipped => "shipped"
  | delivered => "delivered"
  | cancelled => "cancelled"
  end.

(** The targets that [PATCH /api/orders/:id/status] lets a role set:
    [canManageOrders] turns customers away, and the handler holds the
    sellers' and the delivery agents' lists. *)
Definition target_allowed (r : Role) (t : OrderStatus) : bool :=
  match r with
  | admin => true
  | seller => bool_decide (t ∈ seller_targets)
  | delivery => bool_decide (t ∈ delivery_targets)
  | customer => false
  end.

(** The order that a status update hands to [save]. *)
Definition status_written (user : Doc User) (t : OrderStatus) (o : Order) : Order :=
  if bool_decide (t = shipped) && bool_decide (user_role (snd user) = delivery)
  then with_delivery (with_agent (Some (fst user)) (order_delivery o)) (with_status t o)
  else with_status t o.

Definition status_reply (doc : Doc Order) : Response :=
  {| code := 200;
     body := Success (Some "Order status updated successfully") (DOrder doc) |}.

(** The transition table of the specification (section 4.3), as it is
    written there: seller, pending to confirmed; delivery, confirmed to
    shipped and shipped to delivered, and confirmed from any status; admin,
    any transition; customer, none. *)
Definition spec_transition (r : Role) (from to : OrderStatus) : bool :=
  match r with
  | admin => true
  | seller => bool_decide (from = pending) && bool_decide (to = confirmed)
  | delivery =>
      (bool_decide (from = confirmed) && bool_decide (to = shipped))
      || (bool_decide (from = shipped) && bool_decide (to = delivered))
      || bool_decide (to = confirmed)
  | customer => false
  end.

(** The status code of a reply, when the handler sent one. *)
Definition reply_code {A} (s : Step A) : option Z :=
  match s with
  | Respond r => Some (code r)
  | _ => None
  end.



Definition not_assigned : Response :=
  fail 404 "Order not found or not assigned to you".

Definition cancelled_reply : Response :=
  {| code := 200; body := Success (Some "Order cancelled successfully") DNone |}.

(** The order that a successful [POST /api/orders] stores. *)
Definition placed_order (user : Doc User) (env : Env) (b : OrderReq) (db : DB) : Order :=
  Order_pre_save env
    (new_order user b (trim_address (req_shippingAddress b))
       (order_lines db (req_items b))
       (sum_item_totals (order_lines db (req_items b)))).

(** The store refuses the insertion of the new order. *)
Definition insert_refused (env : Env) (o : Order) (db : DB) : bool :=
  bool_decide (is_Some (orders db !! fresh_id env))
  || orderNumber_taken (orderNumber o) db.

Definition created (doc : Doc Order) : Response :=
  {| code := 201; body := Success (Some "Order created successfully") (DOrder doc) |}.

(** The catalog after the [$inc]s of the second loop of order creation. *)
Definition reserve (items : list ItemReq) (m : gmap ObjectId Product)
  : gmap ObjectId Product :=
  fold_left
    (fun m it => alter (inc_stock_sales (- req_quantity it) (req_quantity it))
                   (req_product it) m)
    items m.

(** The catalog after the [$inc]s of cancellation. *)
Definition release (items : list OrderItem) (m : gmap ObjectId Product)
  : gmap ObjectId Product :=
  fold_left
    (fun m it => alter (inc_stock_sales (item_quantity it) (- item_quantity it))
                   (item_product it) m)
    items m.

(** The units of product [pid] that a request asks for, over all its
    lines. *)
Definition requested (pid : ObjectId) (items : list ItemReq) : Z :=
  fold_right
    (fun it acc => if bool_decide (req_product it = pid) then req_quantity it + acc else acc)
    0 items.

(** The units of product [pid] on an order, over all its lines. *)
Definition ordered (pid : ObjectId) (items : list OrderItem) : Z :=
  fold_right
    (fun it acc => if bool_decide (item_product it = pid) then item_quantity it + acc else acc)
    0 items.

End Backend.

(** ** A small shop, used to run the routes

    Users: 1 Ada (admin), 2 Sam (seller), 3 Cara (customer), 4 Dan
    (delivery), 5 Cody (customer), 6 Sue (seller), 7 Ivo (customer,
    deactivated).  Sam sells products 10 (30.00, stock 10), 11 (0.99,
    stock 3) and 13 (20.00, stock 8); Sue sells product 12.
    Order 100 is Cara's pending order of two units of product 10, order 101
    her delivered order of one unit, order 102 her pending order of one
    unit that is assigned to Dan. *)
Module Demo.

Definition tokens : list (string * ObjectId) :=
  [("ada", 1%N); ("sam", 2%N); ("cara", 3%N); ("dan", 4%N); ("cody", 5%N);
   ("sue", 6%N); ("ivo", 7%N); ("ghost", 8%N)].

Definition verify (tok : string) : option ObjectId :=
  snd <$> List.find (fun p => String.eqb (fst p) tok) tokens.

Definition ext : External :=
  {| jwt_verify := verify;
     query_sort := fun _ l => l;
     query_sort_perm := fun _ l => Permutation_refl l |}.

#[local] Existing Instance ext.

Definition bearer (tok : string) : Headers :=
  {| authorization := Some ("Bearer " ++ tok) |}.

Definition user (name : string) (r : Role) (active : bool) : User :=
  {| user_name := name; user_email := name ++ "@shop.test"; user_role := r;
     user_isActive := active; user_lastLogin := None |}.

Definition product (name : string) (price : float) (stock : Z) (owner : ObjectId)
    (sold : Z) : Product :=
  {| product_name := name; product_price := price; product_stock := stock;
     product_seller := owner; product_sku := "SKU-" ++ name;
     product_isActive := true; product_sales := sold |}.

Definition home : Address :=
  {| street := "1 Main St"; city := "Springfield"; state := "IL"; zipCode := "62701" |}.

Definition order (number : string) (st : OrderStatus) (qty : Z)
    (agent : option ObjectId) : Order :=
  let sub := PrimFloat.mul 30%float (float_of_Z qty) in
  {| orderNumber := number; order_customer := 3%N;
     order_items := [ {| item_product := 10%N; item_quantity := qty;
                         item_price := 30%float; item_total := sub |} ];
     order_status := st;
     order_subtotal := sub; order_tax := tax_of sub;
     order_shippingCost := shipping_of sub;
     order_total := total_of sub (tax_of sub) (shipping_of sub);
     shippingAddress := home; billingAddress := home;
     order_payment := {| payment_method := "paypal"; payment_status := pay_pending |};
     order_delivery := with_agent agent default_delivery;
     order_notes := None; order_isActive := true |}.

Definition db : DB :=
  {| users := list_to_map
       [(1%N, user "Ada" admin true); (2%N, user "Sam" seller true);
        (3%N, user "Cara" customer true); (4%N, user "Dan" delivery true);
        (5%N, user "Cody" customer true); (6%N, user "Sue" seller true);
        (7%N, user "Ivo" customer false)];
     products := list_to_map
       [(10%N, product "lamp" 30%float 8 2%N 4);
        (11%N, product "pen" 0.99%float 3 2%N 0);
        (12%N, product "mug" 12.5%float 4 6%N 0);
        (13%N, product "desk" 20%float 8 2%N 2)];
     orders := list_to_map
       [(100%N, order "ORD-00000100-AAAA" pending 2 None);
        (101%N, order "ORD-00000101-BBBB" delivered 1 None);
        (102%N, order "ORD-00000102-CCCC" pending 1 (Some 4%N))] |}.

(** The catalog before any order was placed. *)
Definition fresh_db : DB :=
  {| users := users db;
     products := list_to_map
       [(10%N, product "lamp" 30%float 10 2%N 0);
        (11%N, product "pen" 0.99%float 3 2%N 0);
        (12%N, product "mug" 12.5%float 4 6%N 0)];
     orders := ∅ |}.

Definition env : Env := {| now := 1700000000123; fresh_id := 200%N; random36 := "0.k3x9q7m2p" |}.

Definition later : Env := {| now := 1700000000999; fresh_id := 201%N; random36 := "0.z8y7x6w5v" |}.

Definition request (items : list ItemReq) : OrderReq :=
  {| req_items := items; req_shippingAddress := home; req_billingAddress := None;
     req_payment_method := "paypal"; req_notes := None |}.

Definition page1 : OrdersQuery :=
  {| q_page := 1; q_limit := 10; q_status := None; q_sort := "-createdAt" |}.

(** A user as [protect] hands it on at the time of [env]. *)
Definition logged_in (uid : ObjectId) (u : User) : Doc User :=
  (uid, touch_login (now env) u).

Definition after_login (uid : ObjectId) (u : User) (d : DB) : DB :=
  set_users (insert uid (touch_login (now env) u)) d.

Definition sam : User := user "Sam" seller true.
Definition cara : User := user "Cara" customer true.
Definition dan : User := user "Dan" delivery true.
Definition cody : User := user "Cody" customer true.

Definition order100 : Order := order "ORD-00000100-AAAA" pending 2 None.
Definition order101 : Order := order "ORD-00000101-BBBB" delivered 1 None.
Definition order102 : Order := order "ORD-00000102-CCCC" pending 1 (Some 4%N).

(** The three orders, as the store lists them. *)
Definition all_orders : list (Doc Order) :=
  [(102%N, order102); (100%N, order100); (101%N, order101)].

Definition listing (found : list (Doc Order)) : Response :=
  {| code := 200; body := Success None (DOrders found 1 10 (length found)) |}.

(** Bodies of [PUT /api/orders/:id]: a new total, and new line items. *)
Definition no_update : OrderUpdate :=
  {| upd_items := None; upd_status := None; upd_subtotal := None; upd_tax := None;
     upd_shippingCost := None; upd_total := None; upd_isActive := None |}.

Definition total_update : OrderUpdate :=
  {| upd_items := None; upd_status := None; upd_subtotal := None; upd_tax := None;
     upd_shippingCost := None; upd_total := Some 1%float; upd_isActive := None |}.

Definition items_update : OrderUpdate :=
  {| upd_items := Some [ {| item_product := 10%N; item_quantity := 5;
                           item_price := 30%float; item_total := 150%float |} ];
     upd_status := None; upd_subtotal := None; upd_tax := None;
     upd_shippingCost := None; upd_total := None; upd_isActive := None |}.

End Demo.

(** * Further middleware, routes and model methods

    The rest of [middleware/auth.js] and [middleware/roleCheck.js], the
    routes that delete a product, the remaining routes for the orders of a
    delivery agent, the admin's route that deletes a user, the model methods
    that the routes write out by hand, and the status buttons and the cart
    of the front end. *)

(** [try { m } catch (error) { console.log(..) }], after which the code
    goes on with [a]. *)
Definition catch_continue {A} (m : Handler A) (a : A) : Handler A :=
  fun db =>
    match m db with
    | (Throw, db') => (Next a, db')
    | other => other
    end.

Section MoreBackend.
Context `{External}.

(** ** middleware/auth.js, continued *)

(** [verifyToken]: on success the continuation receives [req.token], the
    decoded payload. *)
Definition verifyToken (hd : Headers) : Handler ObjectId :=
  match authorization hd with
  | Some h =>
      if String.prefix "Bearer" h then
        try_catch (verify_token (bearer_token h)) (fail 401 "Invalid token")
      else respond (fail 401 "No token provided")
  | None => respond (fail 401 "No token provided")
  end.

(** [getUser]: the continuation receives [req.user], which stays
    [undefined] unless the token names a stored, active user. *)
Definition getUser (hd : Headers) : Handler (option (Doc User)) :=
  match authorization hd with
  | Some h =>
      if String.prefix "Bearer" h then
        catch_continue
          (let* uid := verify_token (bearer_token h) in
           let* found := User_findById uid in
           ret (match found with
                | Some (uid, user) =>
                    if user_isActive user then Some (uid, user) else None
                | None => None
                end))
          None
      else ret None
  | None => ret None
  end.

(** [isAuthenticated], on the [req.user] that an earlier middleware left. *)
Definition isAuthenticated (user : option (Doc User)) : Handler (Doc User) :=
  match user with
  | None => respond (fail 401 "Authentication required")
  | Some u => ret u
  end.

Definition isNotAuthenticated (user : option (Doc User)) : Handler unit :=
  match user with
  | Some _ => respond (fail 400 "User is already authenticated")
  | None => ret tt
  end.

(** ** middleware/roleCheck.js, continued *)

Definition requireAdminOrSeller := requireRole [admin; seller].
Definition requireAdminOrDelivery := requireRole [admin; delivery].

(** [checkOwnership(model, field)]: [coll] is the collection of the model
    and [field] the owner reference of a document; on success the
    continuation receives [req.resource]. *)
Definition checkOwnership {A} (coll : DB -> gmap ObjectId A) (field : A -> ObjectId)
    (user : Doc User) (id : ObjectId) : Handler (Doc A) :=
  try_catch
    (let* db := get_db in
     match coll db !! id with
     | None => respond (fail 404 "Resource not found")
     | Some resource =>
         if bool_decide (user_role (snd user) = admin) then ret (id, resource)
         else if negb (bool_decide (field resource = fst user)) then
           respond (fail 403 "Access denied. You can only manage your own resources.")
         else ret (id, resource)
     end)
    (fail 500 "Server error").

Definition canManageProducts (user : Doc User) : Handler unit :=
  if bool_decide (user_role (snd user) = admin)
     || bool_decide (user_role (snd user) = seller) then ret tt
  else respond (fail 403 "Access denied. Only admins and sellers can manage products.").

Definition canViewAnalytics (user : Doc User) : Handler unit :=
  if includes_role [admin; seller] (user_role (snd user)) then ret tt
  else respond (fail 403 "Access denied. Only admins and sellers can view analytics.").

(** ** models/Product.js, continued *)

Inductive StockStatus := out_of_stock | low_stock | in_stock.

(** The virtual [stockStatus]. *)
Definition stockStatus (p : Product) : StockStatus :=
  if (product_stock p =? 0)%Z then out_of_stock
  else if (product_stock p <=? 5)%Z then low_stock
  else in_stock.

(** [productSchema.statics.findLowStock = function(threshold = 5)]. *)
Definition Product_findLowStock (threshold : option Z) (db : DB)
  : gmap ObjectId Product :=
  filter (fun kp => (product_stock (snd kp) <= default 5 threshold)%Z
                    /\ product_isActive (snd kp) = true)
         (products db).

(** [Product.findByIdAndDelete(id)]. *)
Definition Product_findByIdAndDelete (id : ObjectId) : Handler (option (Doc Product)) :=
  let* db := get_db in
  match products db !! id with
  | None => ret None
  | Some p =>
      run modify_db (set_products (delete id)) then
      ret (Some (id, p))
  end.

(** [Product.findOneAndDelete({ _id: id, seller: uid })]. *)
Definition Product_findOneAndDelete_owned (id uid : ObjectId)
  : Handler (option (Doc Product)) :=
  let* db := get_db in
  match products db !! id with
  | Some p =>
      if bool_decide (product_seller p = uid) then
        run modify_db (set_products (delete id)) then
        ret (Some (id, p))
      else ret None
  | None => ret None
  end.

(** ** models/Order.js, continued *)



(** [orderSchema.methods.markAsDelivered]. *)
Definition Order_markAsDelivered (env : Env) (doc : Doc Order) : Handler (Doc Order) :=
  let o1 := with_status delivered (snd doc) in
  let d := with_actual (Some (now env)) (order_delivery o1) in
  Order_save env false (fst doc, with_delivery d o1).

(** ** routes/productRoutes.js, routes/adminRoutes.js, routes/sellerRoutes.js:
       deleting a product *)

Definition product_deleted : Response :=
  {| code := 200; body := Success (Some "Product deleted successfully") DNone |}.

(** The handler of [DELETE /api/products/:id] and, word for word, of
    [DELETE /api/admin/products/:id]. *)
Definition delete_product_handler (id : ObjectId) : Handler Response :=
  try_catch
    (let* product := Product_findByIdAndDelete id in
     match product with
     | None => respond (fail 404 "Product not found")
     | Some _ => respond product_deleted
     end)
    (fail 500 "Server error while deleting product").

(** [router.delete('/:id', protect, canManageProducts,
    checkOwnership(Product, 'seller'), ..)]. *)
Definition DELETE_product (hd : Headers) (env : Env) (id : ObjectId) : Handler Response :=
  let* user := protect hd env in
  run canManageProducts user then
  run checkOwnership products product_seller user id then
  delete_product_handler id.

(** [router.delete('/products/:id', protect, requireAdmin, ..)]. *)
Definition DELETE_admin_product (hd : Headers) (env : Env) (id : ObjectId)
  : Handler Response :=
  run protect hd env then
  run requireAdmin hd env then
  delete_product_handler id.

Definition seller_delete_product_handler (user : Doc User) (id : ObjectId)
  : Handler Response :=
  try_catch
    (let* product := Product_findOneAndDelete_owned id (fst user) in
     match product with
     | None => respond (fail 404 "Product not found")
     | Some _ => respond product_deleted
     end)
    (fail 500 "Server error while deleting product").

(** [router.delete('/products/:id', protect, requireSeller, ..)]. *)
Definition DELETE_seller_product (hd : Headers) (env : Env) (id : ObjectId)
  : Handler Response :=
  run protect hd env then
  let* user := requireSeller hd env in
  seller_delete_product_handler user id.

(** ** routes/deliveryRoutes.js, continued *)

(** The handler of [GET /api/delivery/orders]; like the seller's listing it
    does not consult the result of its query validators. *)
Definition delivery_orders_handler (user : Doc User) (q : OrdersQuery) : Handler Response :=
  try_catch
    (let skip := ((q_page q - 1) * q_limit q)%Z in
     let f := all_of [agent_filter (fst user); active_filter;
                      status_filter (q_status q)] in
     let* found := Order_find f (q_sort q) skip (q_limit q) in
     let* total := Order_countDocuments f in
     respond {| code := 200;
                body := Success None (DOrders found (q_page q) (q_limit q) total) |})
    (fail 500 "Server error while fetching orders").

(** [router.get('/orders', protect, requireDelivery, ..)]. *)
Definition GET_delivery_orders (hd : Headers) (env : Env) (q : OrdersQuery)
  : Handler Response :=
  run protect hd env then
  let* user := requireDelivery hd env in
  delivery_orders_handler user q.

Definition tracking_added (doc : Doc Order) : Response :=
  {| code := 200;
     body := Success (Some "Tracking information added successfully") (DOrder doc) |}.

(** The handler of [POST /api/delivery/orders/:id/tracking]; the [notes] of
    the body go to a key the schema does not have. *)
Definition delivery_tracking_handler (user : Doc User) (env : Env) (id : ObjectId)
    (tracking : string) : Handler Response :=
  try_catch
    (let trackingNumber' := trim tracking in
     if is_empty trackingNumber' then
       respond (invalid ["Tracking number is required"])
     else
       let* found := Order_findOne_assigned id (fst user) in
       match found with
       | None => respond (fail 404 "Order not found or not assigned to you")
       | Some order =>
           let d := with_tracking (Some trackingNumber') (order_delivery (snd order)) in
           let* saved := Order_save env false (fst order, with_delivery d (snd order)) in
           respond (tracking_added saved)
       end)
    (fail 500 "Server error while adding tracking information").

(** [router.post('/orders/:id/tracking', protect, requireDelivery, ..)]. *)
Definition POST_delivery_order_tracking (hd : Headers) (env : Env) (id : ObjectId)
    (tracking : string) : Handler Response :=
  run protect hd env then
  let* user := requireDelivery hd env in
  delivery_tracking_handler user env id tracking.

Definition completion_targets : list OrderStatus := [confirmed; shipped].

(** [Order.findOne({ _id: id, 'delivery.deliveryAgent': uid,
    status: { $in: ['confirmed', 'shipped'] } })]. *)
Definition Order_findOne_ready (id uid : ObjectId) : Handler (option (Doc Order)) :=
  let* db := get_db in
  ret (match orders db !! id with
       | Some o =>
           if agent_filter uid (id, o)
              && bool_decide (order_status o ∈ completion_targets)
           then Some (id, o) else None
       | None => None
       end).

Definition not_ready : Response :=
  fail 404 "Order not found or not ready for completion".

Definition completed (doc : Doc Order) : Response :=
  {| code := 200;
     body := Success (Some "Delivery completed successfully") (DOrder doc) |}.

(** The handler of [POST /api/delivery/orders/:id/complete]; the [notes]
    and the [signature] of the body go to keys the schema does not have. *)
Definition complete_delivery_handler (user : Doc User) (env : Env) (id : ObjectId)
  : Handler Response :=
  try_catch
    (let* found := Order_findOne_ready id (fst user) in
     match found with
     | None => respond not_ready
     | Some order =>
         let o1 := with_status delivered (snd order) in
         let d := with_actual (Some (now env)) (order_delivery o1) in
         let* saved := Order_save env false (fst order, with_delivery d o1) in
         respond (completed saved)
     end)
    (fail 500 "Server error while completing delivery").

(** [router.post('/orders/:id/complete', protect, requireDelivery, ..)]. *)
Definition POST_delivery_order_complete (hd : Headers) (env : Env) (id : ObjectId)
  : Handler Response :=
  run protect hd env then
  let* user := requireDelivery hd env in
  complete_delivery_handler user env id.

(** ** routes/adminRoutes.js: deleting a user *)

(** [User.findByIdAndDelete(id)]. *)
Definition User_findByIdAndDelete (id : ObjectId) : Handler unit :=
  modify_db (set_users (delete id)).

Definition user_deleted : Response :=
  {| code := 200; body := Success (Some "User deleted successfully") DNone |}.

Definition delete_user_handler (user : Doc User) (id : ObjectId) : Handler Response :=
  try_catch
    (let* found := User_findById id in
     match found with
     | None => respond (fail 404 "User not found")
     | Some target =>
         if bool_decide (fst target = fst user) then
           respond (fail 400 "Cannot delete your own account")
         else
           run User_findByIdAndDelete id then
           respond user_deleted
     end)
    (fail 500 "Server error while deleting user").

(** [router.delete('/users/:id', protect, requireAdmin, ..)]. *)
Definition DELETE_admin_user (hd : Headers) (env : Env) (id : ObjectId)
  : Handler Response :=
  run protect hd env then
  let* user := requireAdmin hd env in
  delete_user_handler user id.

(** ** frontend/src/components/OrderCard.jsx *)

(** [canUpdateStatus], on the role of the signed-in user and the status of
    the order on the card. *)
Definition canUpdateStatus (role : Role) (status : OrderStatus) : bool :=
  if bool_decide (role = admin) then true
  else if bool_decide (role = seller) && bool_decide (status = pending) then true
  else if bool_decide (role = delivery) && bool_decide (status ∈ [confirmed; shipped])
  then true
  else false.

Definition getNextStatus (status : OrderStatus) : option OrderStatus :=
  match status with
  | pending => Some confirmed
  | confirmed => Some shipped
  | shipped => Some delivered
  | _ => None
  end.

(** The status that the card's button sends: the button is rendered under
    [canUpdateStatus() && getNextStatus()], and [handleStatusUpdate] hands
    [getNextStatus()] to [onUpdateStatus]. *)
Definition card_button (role : Role) (status : OrderStatus) : option OrderStatus :=
  if canUpdateStatus role status then getNextStatus status else None.

(** ** frontend/src/pages/DeliveryDashboard.jsx *)

(** The two buttons of an assigned delivery: "Start Delivery" on a
    confirmed order, "Mark Delivered" on a shipped one; each sends its
    status to [PATCH /api/delivery/orders/:id/status]. *)
Definition dashboard_button (status : OrderStatus) : option OrderStatus :=
  match status with
  | confirmed => Some shipped
  | shipped => Some delivered
  | _ => None
  end.

(** ** frontend/src/context/CartContext.jsx *)

(** A line of the cart; the [image] of a line is left out. *)
Record CartItem := mkCartItem {
  cart_id : ObjectId;
  cart_name : string;
  cart_price : float;
  cart_quantity : Z;
  cart_seller : ObjectId;
  cart_stock : Z
}.

Definition with_quantity (q : Z) (item : CartItem) : CartItem :=
  {| cart_id := cart_id item; cart_name := cart_name item; cart_price := cart_price item;
     cart_quantity := q; cart_seller := cart_seller item; cart_stock := cart_stock item |}.

(** [cart.find(item => item._id === productId)]. *)
Definition getCartItem (productId : ObjectId) (cart : list CartItem) : option CartItem :=
  List.find (fun item => bool_decide (cart_id item = productId)) cart.

(** The state update of [addToCart(product, quantity = 1)]. *)
Definition addToCart (product : Doc Product) (quantity : option Z) (prevCart : list CartItem)
  : list CartItem :=
  let q := default 1 quantity in
  match getCartItem (fst product) prevCart with
  | Some _ =>
      (fun item => if bool_decide (cart_id item = fst product)
                   then with_quantity (cart_quantity item + q) item else item)
      <$> prevCart
  | None =>
      (prevCart ++ [ {| cart_id := fst product; cart_name := product_name (snd product);
                        cart_price := product_price (snd product); cart_quantity := q;
                        cart_seller := product_seller (snd product);
                        cart_stock := product_stock (snd product) |} ])%list
  end.

(** The state update of [removeFromCart(productId)]. *)
Definition removeFromCart (productId : ObjectId) (prevCart : list CartItem) : list CartItem :=
  List.filter (fun item => negb (bool_decide (cart_id item = productId))) prevCart.

(** The state update of [updateQuantity(productId, quantity)]. *)
Definition updateQuantity (productId : ObjectId) (quantity : Z) (prevCart : list CartItem)
  : list CartItem :=
  if (quantity <=? 0)%Z then removeFromCart productId prevCart
  else (fun item => if bool_decide (cart_id item = productId)
                    then with_quantity quantity item else item) <$> prevCart.

(** [cart.reduce((total, item) => total + item.quantity, 0)], the value of
    [cartCount]. *)
Definition cartCount (cart : list CartItem) : Z :=
  fold_left (fun total item => total + cart_quantity item) cart 0.

(** ** Predicates used in the statements about the further code *)

(** The effect that the three routes for deleting a product share. *)
Definition removes_at_most_one_product
    (route : Headers -> Env -> ObjectId -> Handler Response) : Prop :=
  forall hd env id db,
  exists r db',
    route hd env id db = (Respond r, db') /\
    orders db' = orders db /\
    (forall k, is_Some (users db' !! k) <-> is_Some (users db !! k)) /\
    (forall k, k <> id -> products db' !! k = products db !! k) /\
    (code r = 200 -> is_Some (products db !! id) /\ products db' !! id = None) /\
    (code r <> 200 -> products db' = products db).

(** What no route of the order, delivery and product files changes on a
    stored order: its customer, its lines, its tax and shipping cost, its
    addresses and payment, and its number once it has one. *)
Definition kept_fields (o o' : Order) : Prop :=
  order_customer o' = order_customer o /\
  order_items o' = order_items o /\
  order_tax o' = order_tax o /\
  order_shippingCost o' = order_shippingCost o /\
  shippingAddress o' = shippingAddress o /\
  billingAddress o' = billingAddress o /\
  order_payment o' = order_payment o /\
  order_notes o' = order_notes o /\
  order_isActive o' = order_isActive o /\
  (orderNumber o <> "" -> orderNumber o' = orderNumber o).

(** Every order of [db] is still stored in [db'], with the same fixed
    fields. *)
Definition keeps_orders (db db' : DB) : Prop :=
  forall id o, orders db !! id = Some o ->
    exists o', orders db' !! id = Some o' /\ kept_fields o o'.

(** Each product of [db'] is the product of [db] with some number of units
    moved between its stock and its sales counter; no product is added or
    removed. *)
Definition moves_units (db db' : DB) : Prop :=
  forall pid, exists n,
    products db' !! pid = inc_stock_sales (- n) n <$> products db !! pid.

(** The subtotal of an order with lines is the sum of its line totals, and
    its total the sum of subtotal, tax and shipping cost. *)
Definition totals_consistent (o : Order) : Prop :=
  order_items o <> [] ->
  order_subtotal o = sum_item_totals (order_items o) /\
  order_total o
  = PrimFloat.add (PrimFloat.add (order_subtotal o) (order_tax o)) (order_shippingCost o).

Definition store_consistent (db : DB) : Prop :=
  map_Forall (fun _ o => totals_consistent o) (orders db).

(** [db'] is [db] after at most one [save] of the stored order [id], with
    another status or other delivery data. *)
Definition saves_at_most (env : Env) (id : ObjectId) (db db' : DB) : Prop :=
  products db' = products db /\
  (orders db' = orders db \/
   exists o o1, orders db !! id = Some o /\ kept_fields o o1 /\
     orders db' = <[id := Order_pre_save env o1]> (orders db)).

(** The page [Query.skip(skip).limit(limit)] of a list. *)
Definition page_of {A} (skip limit : Z) (l : list A) : list A :=
  let rest := drop (Z.to_nat skip) l in
  if (limit =? 0)%Z then rest else take (Z.to_nat (Z.abs limit)) rest.

(** The stored orders that pass a query filter. *)
Definition matching (f : Filter) (db : DB) : gmap ObjectId Order :=
  filter (fun kp => f kp) (orders db).

(** The reply of a listing route whose query filter is [f]. *)
Definition listing_reply (f : Filter) (q : OrdersQuery) (db : DB) : Step Response * DB :=
  let skip := ((q_page q - 1) * q_limit q)%Z in
  if (skip <? 0)%Z then (Respond (fail 500 "Server error while fetching orders"), db)
  else
    (Respond {| code := 200;
                body := Success None
                          (DOrders (page_of skip (q_limit q)
                                      (query_sort (q_sort q) (map_to_list (matching f db))))
                                   (q_page q) (q_limit q) (size (matching f db))) |},
     db).

End MoreBackend.

(** ** More of the small shop

    Ada is the admin and Sue the second seller.  [shop_with_102 st] is the
    shop with order 102, which is assigned to Dan, in the status [st];
    [shop_without_cara] is the shop after Cara's account was deleted.  The
    basket holds two lamps and a pen. *)
Module Depot.
Import Demo.

Definition ada : User := user "Ada" admin true.
Definition sue : User := user "Sue" seller true.

Definition lamp : Product := product "lamp" 30%float 8 2%N 4.
Definition mug : Product := product "mug" 12.5%float 4 6%N 0.

Definition order102_in (st : OrderStatus) : Order :=
  order "ORD-00000102-CCCC" st 1 (Some 4%N).

Definition shop_with_102 (st : OrderStatus) : DB :=
  set_orders (insert 102%N (order102_in st)) db.

Definition shop_without_cara : DB := set_users (delete 3%N) db.

Definition item (pid : ObjectId) (qty : Z) : ItemReq :=
  {| req_product := pid; req_quantity := qty |}.

Definition line (pid : ObjectId) (name : string) (price : float) (qty : Z) : CartItem :=
  {| cart_id := pid; cart_name := name; cart_price := price; cart_quantity := qty;
     cart_seller := 2%N; cart_stock := 8 |}.

Definition basket : list CartItem :=
  [line 10%N "lamp" 30%float 2; line 11%N "pen" 0.99%float 1].

Definition delivered_body : DeliveryStatusReq :=
  {| ds_status := "delivered"; ds_estimatedDelivery := None |}.

(** The shop after Cara cancelled her order 100, and the fresh shop after
    she ordered a pen. *)
Definition shop_after_cancel : DB :=
  snd (@DELETE_order ext (bearer "cara") env 100%N db).

Definition cancelled100 : Order := Order_pre_save env (with_status cancelled order100).


End Depot.

(** * Properties *)

Section Facts.
Context `{External}.

(** ** The monad *)

Lemma bind_Next {A B} (m : Handler A) (k : A -> Handler B) db a db' :
  m db = (Next a, db') -> bind m k db = k a db'.
Proof. intros Hm. unfold bind. now rewrite Hm. Qed.

Lemma bind_Respond {A B} (m : Handler A) (k : A -> Handler B) db r db' :
  m db = (Respond r, db') -> bind m k db = (Respond r, db').
Proof. intros Hm. unfold bind. now rewrite Hm. Qed.

Lemma bind_Throw {A B} (m : Handler A) (k : A -> Handler B) db db' :
  m db = (Throw, db') -> bind m k db = (Throw, db').
Proof. intros Hm. unfold bind. now rewrite Hm. Qed.

Lemma try_catch_Next {A} (m : Handler A) r db a db' :
  m db = (Next a, db') -> try_catch m r db = (Next a, db').
Proof. intros Hm. unfold try_catch. now rewrite Hm. Qed.

Lemma try_catch_Respond {A} (m : Handler A) r db r' db' :
  m db = (Respond r', db') -> try_catch m r db = (Respond r', db').
Proof. intros Hm. unfold try_catch. now rewrite Hm. Qed.

Lemma try_catch_Throw {A} (m : Handler A) r db db' :
  m db = (Throw, db') -> try_catch m r db = (Respond r, db').
Proof. intros Hm. unfold try_catch. now rewrite Hm. Qed.

(** A handler under [try]/[catch] never throws. *)
Lemma try_catch_no_Throw {A} (m : Handler A) r db :
  fst (try_catch m r db) <> Throw.
Proof. unfold try_catch. destruct (m db) as [[a|r'|] db']; simpl; congruence. Qed.

(** ** protect *)

Lemma resolves_functional hd db uid u uid' u' :
  resolves hd db uid u -> resolves hd db uid' u' -> uid' = uid /\ u' = u.
Proof.
  intros (h & tok & Hh & _ & Htok & _ & Hv & Hu & _)
         (h' & tok' & Hh' & _ & Htok' & _ & Hv' & Hu' & _).
  assert (h' = h) by congruence; subst h'.
  assert (tok' = tok) by congruence; subst tok'.
  assert (uid' = uid) by congruence; subst uid'.
  split; congruence.
Qed.

Lemma protect_resolved hd env db uid u :
  resolves hd db uid u ->
  protect hd env db =
    (Next (uid, touch_login (now env) u),
     set_users (insert uid (touch_login (now env) u)) db).
Proof.
  intros (h & tok & Hh & Hpre & Htok & Hne & Hv & Hu & Hact).
  unfold protect. rewrite Hh, Hpre, Htok.
  apply try_catch_Next.
  unfold verify_token. rewrite Hne, Hv.
  unfold bind, ret, User_findById, get_db. simpl.
  rewrite Hu. simpl. rewrite Hact. reflexivity.
Qed.

Lemma protect_unresolved hd env db :
  (forall uid u, ~ resolves hd db uid u) ->
  exists msg, protect hd env db = (Respond (fail 401 msg), db).
Proof.
  intros Hno. unfold protect.
  destruct (authorization hd) as [h|] eqn:Hh; [|eauto].
  destruct (String.prefix "Bearer" h) eqn:Hpre; [|eauto].
  unfold verify_token.
  destruct (bearer_token h) as [tok|] eqn:Htok; [|eauto].
  destruct (is_empty tok) eqn:Hne; [eauto|].
  destruct (jwt_verify tok) as [uid|] eqn:Hv; [|eauto].
  unfold try_catch, bind, ret, User_findById, get_db. simpl.
  destruct (users db !! uid) as [u|] eqn:Hu; simpl; [|eauto].
  destruct (user_isActive u) eqn:Hact; simpl; [|eauto].
  exfalso. apply (Hno uid u). exists h, tok. repeat split; assumption.
Qed.

(** The three shapes of a result of [protect]. *)
Lemma protect_cases hd env db :
  (exists uid u, resolves hd db uid u /\
     protect hd env db =
       (Next (uid, touch_login (now env) u),
        set_users (insert uid (touch_login (now env) u)) db))
  \/ ((forall uid u, ~ resolves hd db uid u) /\
      exists msg, protect hd env db = (Respond (fail 401 msg), db)).
Proof.
  destruct (authorization hd) as [h|] eqn:Hh.
  2:{ right. assert (Hno : forall uid u, ~ resolves hd db uid u).
      { intros uid u (h & tok & Hh' & _). congruence. }
      split; [exact Hno | now apply protect_unresolved]. }
  destruct (String.prefix "Bearer" h) eqn:Hpre.
  2:{ right. assert (Hno : forall uid u, ~ resolves hd db uid u).
      { intros uid u (h' & tok & Hh' & Hp & _). congruence. }
      split; [exact Hno | now apply protect_unresolved]. }
  destruct (bearer_token h) as [tok|] eqn:Htok.
  2:{ right. assert (Hno : forall uid u, ~ resolves hd db uid u).
      { intros uid u (h' & tok & Hh' & _ & Ht & _). congruence. }
      split; [exact Hno | now apply protect_unresolved]. }
  destruct (is_empty tok) eqn:Hne.
  { right. assert (Hno : forall uid u, ~ resolves hd db uid u).
    { intros uid u (h' & tok' & Hh' & _ & Ht & He & _). congruence. }
    split; [exact Hno | now apply protect_unresolved]. }
  destruct (jwt_verify tok) as [uid|] eqn:Hv.
  2:{ right. assert (Hno : forall uid u, ~ resolves hd db uid u).
      { intros uid u (h' & tok' & Hh' & _ & Ht & _ & Hv' & _). congruence. }
      split; [exact Hno | now apply protect_unresolved]. }
  destruct (users db !! uid) as [u|] eqn:Hu.
  2:{ right. assert (Hno : forall uid u, ~ resolves hd db uid u).
      { intros uid' u (h' & tok' & Hh' & _ & Ht & _ & Hv' & Hu' & _). congruence. }
      split; [exact Hno | now apply protect_unresolved]. }
  destruct (user_isActive u) eqn:Hact.
  - left. exists uid, u.
    assert (Hres : resolves hd db uid u) by (exists h, tok; repeat split; assumption).
    split; [exact Hres | now apply protect_resolved].
  - right. assert (Hno : forall uid u, ~ resolves hd db uid u).
    { intros uid' u' (h' & tok' & Hh' & _ & Ht & _ & Hv' & Hu' & Ha). congruence. }
    split; [exact Hno | now apply protect_unresolved].
Qed.

(** C9.  [protect] either resolves the one stored, active user that the
    bearer credential names, hands it on with its last-login time set to the
    time of the request and writes that to the store, or it replies 401 and
    leaves the store as it was: no header or no bearer header, a token that
    jsonwebtoken refuses (malformed, expired), a token that names no stored
    user, and a deactivated user are all answered 401. *)
Theorem protect_authenticates_or_rejects hd env db :
  ((exists uid u,
      resolves hd db uid u /\
      (forall uid' u', resolves hd db uid' u' -> uid' = uid /\ u' = u) /\
      protect hd env db =
        (Next (uid, touch_login (now env) u),
         set_users (insert uid (touch_login (now env) u)) db) /\
      users (snd (protect hd env db)) !! uid = Some (touch_login (now env) u) /\
      user_lastLogin (touch_login (now env) u) = Some (now env))
   \/ ((forall uid u, ~ resolves hd db uid u) /\
       exists msg, protect hd env db = (Respond (fail 401 msg), db)))
  /\ (authorization hd = None ->
      protect hd env db = (Respond (fail 401 "Not authorized, no token"), db))
  /\ (forall h, authorization hd = Some h -> String.prefix "Bearer" h = false ->
      protect hd env db = (Respond (fail 401 "Not authorized, no token"), db))
  /\ (forall h, authorization hd = Some h -> String.prefix "Bearer" h = true ->
      verify_token (bearer_token h) db = (Throw, db) ->
      protect hd env db = (Respond (fail 401 "Not authorized, token failed"), db))
  /\ (forall h uid, authorization hd = Some h -> String.prefix "Bearer" h = true ->
      verify_token (bearer_token h) db = (Next uid, db) ->
      users db !! uid = None ->
      protect hd env db = (Respond (fail 401 "User not found"), db))
  /\ (forall h uid u, authorization hd = Some h -> String.prefix "Bearer" h = true ->
      verify_token (bearer_token h) db = (Next uid, db) ->
      users db !! uid = Some u -> user_isActive u = false ->
      protect hd env db = (Respond (fail 401 "User account is deactivated"), db)).
Proof.
  split; [|repeat split].
  - destruct (protect_cases hd env db) as [(uid & u & Hres & Hrun)|[Hno Hrun]].
    + left. exists uid, u. split; [exact Hres|]. split.
      { intros uid' u' Hres'. exact (resolves_functional _ _ _ _ _ _ Hres Hres'). }
      split; [exact Hrun|]. split; [|reflexivity].
      rewrite Hrun. simpl. apply lookup_insert_eq.
    + right. split; assumption.
  - intros Hh. unfold protect. now rewrite Hh.
  - intros h Hh Hpre. unfold protect. now rewrite Hh, Hpre.
  - intros h Hh Hpre Hv. unfold protect. rewrite Hh, Hpre.
    apply try_catch_Throw with (db' := db). now apply bind_Throw.
  - intros h uid Hh Hpre Hv Hu. unfold protect. rewrite Hh, Hpre.
    apply try_catch_Respond. rewrite (bind_Next _ _ _ _ _ Hv).
    unfold bind, User_findById, get_db, ret. simpl. now rewrite Hu.
  - intros h uid u Hh Hpre Hv Hu Hact. unfold protect. rewrite Hh, Hpre.
    apply try_catch_Respond. rewrite (bind_Next _ _ _ _ _ Hv).
    unfold bind, User_findById, get_db, ret. simpl. rewrite Hu. simpl.
    now rewrite Hact.
Qed.

(** ** Product.updateSales *)



Lemma set_products_id (db : DB) : set_products (fun m => m) db = db.
Proof. now destruct db. Qed.

Lemma update_stock_run items db :
  update_stock items db = (Next tt, set_products (reserve items) db).
Proof.
  revert db. induction items as [|it rest IH]; intros db.
  - simpl. unfold ret. now rewrite set_products_id.
  - cbn [update_stock]. unfold bind at 1.
    unfold Product_findByIdAndUpdate_inc, modify_db. cbv beta iota.
    rewrite IH. reflexivity.
Qed.

Lemma restore_stock_run items db :
  restore_stock items db = (Next tt, set_products (release items) db).
Proof.
  revert db. induction items as [|it rest IH]; intros db.
  - simpl. unfold ret. now rewrite set_products_id.
  - cbn [restore_stock]. unfold bind at 1.
    unfold Product_findByIdAndUpdate_inc, modify_db. cbv beta iota.
    rewrite IH. reflexivity.
Qed.

Lemma inc_inc a b c d p :
  inc_stock_sales a b (inc_stock_sales c d p) = inc_stock_sales (c + a) (d + b) p.
Proof. unfold inc_stock_sales. simpl. f_equal; lia. Qed.

Lemma inc_zero p : inc_stock_sales 0 0 p = p.
Proof. destruct p. unfold inc_stock_sales. simpl. f_equal; lia. Qed.

(** What the reservation loop does to one product: a single change by the
    sum of the requested units. *)
Lemma reserve_lookup items m pid :
  reserve items m !! pid
  = inc_stock_sales (- requested pid items) (requested pid items) <$> m !! pid.
Proof.
  revert m. induction items as [|it rest IH]; intros m.
  - simpl. destruct (m !! pid) as [p|]; simpl; [|reflexivity].
    now rewrite inc_zero.
  - cbn [reserve fold_left requested fold_right].
    fold (reserve rest). fold (requested pid rest). rewrite IH.
    case_bool_decide as Hpid.
    + rewrite Hpid, lookup_alter_eq.
      destruct (m !! pid) as [p|]; simpl; [|reflexivity].
      rewrite inc_inc. do 2 f_equal; lia.
    + now rewrite lookup_alter_ne.
Qed.

Lemma release_lookup items m pid :
  release items m !! pid
  = inc_stock_sales (ordered pid items) (- ordered pid items) <$> m !! pid.
Proof.
  revert m. induction items as [|it rest IH]; intros m.
  - simpl. destruct (m !! pid) as [p|]; simpl; [|reflexivity].
    now rewrite inc_zero.
  - cbn [release fold_left ordered fold_right].
    fold (release rest). fold (ordered pid rest). rewrite IH.
    case_bool_decide as Hpid.
    + rewrite Hpid, lookup_alter_eq.
      destruct (m !! pid) as [p|]; simpl; [|reflexivity].
      rewrite inc_inc. do 2 f_equal; lia.
    + now rewrite lookup_alter_ne.
Qed.


(** ** Saving an order *)

Lemma Order_save_existing env doc db :
  Order_save env false doc db =
    (Next (fst doc, Order_pre_save env (snd doc)),
     set_orders (insert (fst doc) (Order_pre_save env (snd doc))) db).
Proof. reflexivity. Qed.

Lemma Order_save_new env doc db :
  Order_save env true doc db =
    if bool_decide (is_Some (orders db !! fst doc))
       || orderNumber_taken (orderNumber (Order_pre_save env (snd doc))) db
    then (Throw, db)
    else (Next (fst doc, Order_pre_save env (snd doc)),
          set_orders (insert (fst doc) (Order_pre_save env (snd doc))) db).
Proof.
  unfold Order_save, bind, get_db. cbn [fst snd andb].
  destruct (bool_decide _ || _); reflexivity.
Qed.

(** The hooks change the order number, the subtotal and the total only. *)
Lemma Order_pre_save_fields env o :
  let o' := Order_pre_save env o in
  order_items o' = order_items o /\ order_status o' = order_status o /\
  order_customer o' = order_customer o /\ order_tax o' = order_tax o /\
  order_shippingCost o' = order_shippingCost o /\
  order_delivery o' = order_delivery o /\ order_isActive o' = order_isActive o.
Proof.
  unfold Order_pre_save, calc_totals, gen_orderNumber.
  destruct (is_empty (orderNumber o)); cbn;
    destruct (order_items o) eqn:Hitems; cbn; rewrite ?Hitems;
    repeat split; reflexivity.
Qed.

(** ** The first loop of order creation *)

Lemma order_lines_cons db it rest :
  order_lines db (it :: rest)
  = match order_line db it with
    | Some line => line :: order_lines db rest
    | None => order_lines db rest
    end.
Proof. reflexivity. Qed.

Lemma collect_items_run items : forall acc sub db,
  match collect_items items acc sub db with
  | (Next (ls, s), db') =>
      db' = db /\ forallb (item_available db) items = true /\
      ls = (acc ++ order_lines db items)%list /\
      s = fold_left (fun sum it => PrimFloat.add sum (item_total it))
            (order_lines db items) sub
  | (Respond r, db') =>
      db' = db /\ forallb (item_available db) items = false /\
      exists msg, r = fail 400 msg
  | (Throw, _) => False
  end.
Proof.
  induction items as [|it rest IH]; intros acc sub db.
  - cbn. rewrite app_nil_r. repeat split; reflexivity.
  - cbn [collect_items]. unfold bind at 1, Product_findById at 1.
    unfold bind at 1, get_db, ret. cbn [forallb].
    rewrite order_lines_cons. unfold order_line.
    destruct (products db !! req_product it) as [p|] eqn:Hp;
      cbn [fmap option_fmap option_map].
    2:{ assert (item_available db it = false) as ->
          by (unfold item_available; now rewrite Hp).
        unfold respond. repeat split; eauto. }
    destruct (product_isActive p) eqn:Hact; cbn [negb].
    2:{ assert (item_available db it = false) as ->
          by (unfold item_available; now rewrite Hp, Hact).
        unfold respond. repeat split; eauto. }
    destruct (product_stock p <? req_quantity it)%Z eqn:Hstock.
    { assert (item_available db it = false) as ->
        by (unfold item_available; now rewrite Hp, Hact, Hstock).
      unfold respond. repeat split; eauto. }
    assert (item_available db it = true) as ->
      by (unfold item_available; now rewrite Hp, Hact, Hstock).
    cbn [andb].
    specialize (IH (acc ++ [ {| item_product := req_product it;
                                item_quantity := req_quantity it;
                                item_price := product_price p;
                                item_total := PrimFloat.mul (product_price p)
                                   (float_of_Z (req_quantity it)) |} ])%list
                   (PrimFloat.add sub (PrimFloat.mul (product_price p)
                                         (float_of_Z (req_quantity it)))) db).
    destruct (collect_items rest _ _ db) as [[[ls s]|r|] db'].
    + destruct IH as (-> & Hall & -> & ->).
      split; [reflexivity|]. split; [exact Hall|].
      split; [rewrite <- app_assoc; reflexivity|reflexivity].
    + exact IH.
    + exact IH.
Qed.

(** ** Authentication in front of a route *)

Lemma touch_login_idem t u : touch_login t (touch_login t u) = touch_login t u.
Proof. reflexivity. Qed.

Lemma protect_Next_inv hd env db user db1 :
  protect hd env db = (Next user, db1) ->
  exists u, resolves hd db (fst user) u /\
            snd user = touch_login (now env) u /\
            db1 = set_users (insert (fst user) (snd user)) db.
Proof.
  intros Hrun.
  destruct (protect_cases hd env db) as [(uid & u & Hres & Hrun')|[_ [msg Hrun']]];
    rewrite Hrun' in Hrun; [|discriminate].
  injection Hrun as <- <-. exists u. repeat split. exact Hres.
Qed.

(** [protect] writes to the users only, and keeps every user's role. *)
Lemma protect_frame hd env db s db1 :
  protect hd env db = (s, db1) ->
  products db1 = products db /\ orders db1 = orders db /\
  (forall k, is_Some (users db1 !! k) <-> is_Some (users db !! k)).
Proof.
  intros Hrun.
  destruct (protect_cases hd env db) as [(uid & u & Hres & Hrun')|[_ [msg Hrun']]];
    rewrite Hrun' in Hrun; injection Hrun as <- <-; [|tauto].
  split; [reflexivity|]. split; [reflexivity|].
  intros k. cbn. destruct Hres as (h & tok & _ & _ & _ & _ & _ & Hu & _).
  destruct (decide (uid = k)) as [Heq|Hne].
  - subst k. rewrite lookup_insert_eq, Hu. split; eauto.
  - now rewrite lookup_insert_ne.
Qed.

(** A second [protect] on the same request finds the same user and writes
    the same time again. *)
Lemma protect_again hd env db user db1 :
  protect hd env db = (Next user, db1) ->
  protect hd env db1 = (Next user, db1).
Proof.
  intros Hrun. destruct (protect_Next_inv _ _ _ _ _ Hrun) as (u & Hres & Hu & ->).
  destruct user as [uid u']. cbn [fst snd] in *. subst u'.
  destruct Hres as (h & tok & Hh & Hpre & Htok & Hne & Hv & Hlook & Hact).
  rewrite (protect_resolved hd env _ uid (touch_login (now env) u)).
  - rewrite touch_login_idem. f_equal.
    unfold set_users. cbn. now rewrite insert_insert_eq.
  - exists h, tok. repeat split; try assumption.
    cbn. apply lookup_insert_eq.
Qed.

Lemma requireRole_after_protect roles hd env db user db1 :
  protect hd env db = (Next user, db1) ->
  requireRole roles hd env db1 =
    if includes_role roles (user_role (snd user)) then (Next user, db1)
    else (Respond (fail 403 ("Access denied. Required role: "
                               ++ join_or (role_name <$> roles))), db1).
Proof.
  intros Hrun. unfold requireRole.
  rewrite (bind_Next _ _ _ _ _ (protect_again _ _ _ _ _ Hrun)).
  now destruct (includes_role roles (user_role (snd user))).
Qed.

Lemma includes_role_singleton r r' : includes_role [r] r' = bool_decide (r' = r).
Proof.
  unfold includes_role. apply bool_decide_ext. rewrite list_elem_of_singleton. tauto.
Qed.

(** ** POST /api/orders *)

Lemma create_invalid user env b db :
  orderValidation b <> [] ->
  create_order_handler user env b db = (Respond (invalid (orderValidation b)), db).
Proof.
  intros Hv. unfold create_order_handler.
  destruct (orderValidation b); [congruence|reflexivity].
Qed.

Lemma create_rejected user env b db :
  orderValidation b = [] ->
  forallb (item_available db) (req_items b) = false ->
  exists msg, create_order_handler user env b db = (Respond (fail 400 msg), db).
Proof.
  intros Hv Hav. unfold create_order_handler. rewrite Hv.
  pose proof (collect_items_run (req_items b) [] 0%float db) as Hrun.
  destruct (collect_items (req_items b) [] 0%float db) as [[[ls sub]|r|] db'] eqn:Hc.
  - destruct Hrun as (_ & Hall & _). congruence.
  - destruct Hrun as (-> & _ & msg & ->). exists msg.
    apply try_catch_Respond. now apply bind_Respond.
  - contradiction.
Qed.

Lemma create_accepted user env b db :
  orderValidation b = [] ->
  forallb (item_available db) (req_items b) = true ->
  create_order_handler user env b db =
    if insert_refused env (placed_order user env b db) db
    then (Respond (fail 500 "Server error while creating order"), db)
    else (Respond (created (fresh_id env, placed_order user env b db)),
          set_products (reserve (req_items b))
            (set_orders (insert (fresh_id env) (placed_order user env b db)) db)).
Proof.
  intros Hv Hav. unfold create_order_handler. rewrite Hv.
  pose proof (collect_items_run (req_items b) [] 0%float db) as Hrun.
  destruct (collect_items (req_items b) [] 0%float db) as [[[ls sub]|r|] db'] eqn:Hc.
  2:{ destruct Hrun as (_ & Hall & _). congruence. }
  2:{ contradiction. }
  destruct Hrun as (-> & _ & -> & ->). cbn [app].
  fold (sum_item_totals (order_lines db (req_items b))).
  unfold try_catch. rewrite (bind_Next _ _ _ _ _ Hc). cbn [fst snd].
  unfold bind at 1. rewrite Order_save_new. cbn [fst snd].
  fold (placed_order user env b db). unfold insert_refused.
  destruct (bool_decide _ || _); [reflexivity|].
  unfold bind. rewrite update_stock_run. reflexivity.
Qed.

(** The three refusals of [POST /api/orders] and its one success. *)
Lemma create_order_handler_cases user env b db :
  (orderValidation b <> [] /\
   create_order_handler user env b db = (Respond (invalid (orderValidation b)), db))
  \/ (forallb (item_available db) (req_items b) = false /\
      exists msg, create_order_handler user env b db = (Respond (fail 400 msg), db))
  \/ (insert_refused env (placed_order user env b db) db = true /\
      create_order_handler user env b db
        = (Respond (fail 500 "Server error while creating order"), db))
  \/ (orderValidation b = [] /\
      forallb (item_available db) (req_items b) = true /\
      insert_refused env (placed_order user env b db) db = false /\
      create_order_handler user env b db =
        (Respond (created (fresh_id env, placed_order user env b db)),
         set_products (reserve (req_items b))
           (set_orders (insert (fresh_id env) (placed_order user env b db)) db))).
Proof.
  destruct (orderValidation b) as [|e errs] eqn:Hv.
  2:{ left. split; [congruence|]. rewrite <- Hv. apply create_invalid. congruence. }
  right.
  destruct (forallb (item_available db) (req_items b)) eqn:Hav.
  2:{ left. split; [reflexivity|]. now apply create_rejected. }
  right. pose proof (create_accepted user env b db Hv Hav) as Hrun.
  destruct (insert_refused env (placed_order user env b db) db) eqn:Hins.
  - left. split; [reflexivity|exact Hrun].
  - right. repeat split; assumption.
Qed.

Lemma POST_orders_authenticated hd env b db user db1 :
  protect hd env db = (Next user, db1) ->
  POST_orders hd env b db =
    if bool_decide (user_role (snd user) = customer)
    then create_order_handler user env b db1
    else (Respond (fail 403 "Access denied. Required role: customer"), db1).
Proof.
  intros Hrun. unfold POST_orders.
  rewrite (bind_Next _ _ _ _ _ Hrun).
  unfold bind. unfold requireCustomer.
  rewrite (requireRole_after_protect _ _ _ _ _ _ Hrun), includes_role_singleton.
  now destruct (bool_decide (user_role (snd user) = customer)).
Qed.

(** ** checkOrderAccess *)

Lemma checkOrderAccess_absent user id db :
  orders db !! id = None ->
  checkOrderAccess user id db = (Respond (fail 404 "Order not found"), db).
Proof.
  intros Hno. unfold checkOrderAccess, try_catch, bind, get_db. cbn.
  now rewrite Hno.
Qed.

Lemma checkOrderAccess_stored user id db o :
  orders db !! id = Some o ->
  checkOrderAccess user id db =
    match order_access user o db with
    | Granted => (Next (id, o), db)
    | Denied => (Respond (fail 403 "Access denied. You cannot access this order."), db)
    | Crashed => (Respond (fail 500 "Server error"), db)
    end.
Proof.
  intros Ho. unfold checkOrderAccess, order_access, try_catch, bind, get_db.
  cbn. rewrite Ho. unfold populate_user.
  destruct user as [uid u]. cbn [fst snd].
  destruct (user_role u); cbn.
  - reflexivity.
  - now destruct (bool_decide (0 < size _)%nat).
  - destruct (users db !! order_customer o); cbn; [|reflexivity].
    now destruct (bool_decide (order_customer o = uid)).
  - destruct (deliveryAgent (order_delivery o)) as [a|]; cbn; [|reflexivity].
    destruct (users db !! a); cbn; [|reflexivity].
    now destruct (bool_decide (a = uid)).
Qed.

(** [checkOrderAccess] reads the store and never writes to it. *)
Lemma checkOrderAccess_cases user id db :
  (exists o, orders db !! id = Some o /\ order_access user o db = Granted /\
             checkOrderAccess user id db = (Next (id, o), db))
  \/ (exists r, checkOrderAccess user id db = (Respond r, db) /\
                (code r = 404 \/ code r = 403 \/ code r = 500)).
Proof.
  destruct (orders db !! id) as [o|] eqn:Ho.
  - rewrite (checkOrderAccess_stored _ _ _ _ Ho).
    destruct (order_access user o db) eqn:Hacc.
    + left. eauto.
    + right. eexists. split; [reflexivity|]. cbn. tauto.
    + right. eexists. split; [reflexivity|]. cbn. tauto.
  - right. rewrite (checkOrderAccess_absent _ _ _ Ho).
    eexists. split; [reflexivity|]. cbn. tauto.
Qed.


(** ** DELETE /api/orders/:id *)

Lemma cancel_pending env id o db :
  order_status o = pending ->
  cancel_order_handler env (id, o) db =
    (Respond cancelled_reply,
     set_products (release (order_items o))
       (set_orders (insert id (Order_pre_save env (with_status cancelled o))) db)).
Proof.
  intros Hst. unfold cancel_order_handler. cbn [fst snd]. rewrite Hst.
  rewrite bool_decide_eq_true_2 by reflexivity. cbn [negb].
  apply try_catch_Respond.
  rewrite (bind_Next _ _ _ _ _ (Order_save_existing _ _ _)). cbn [fst snd].
  destruct (Order_pre_save_fields env (with_status cancelled o)) as (-> & _).
  cbn [with_status order_items].
  unfold bind. rewrite restore_stock_run. reflexivity.
Qed.

Lemma cancel_not_pending env id o db :
  order_status o <> pending ->
  cancel_order_handler env (id, o) db =
    (Respond (fail 400 "Only pending orders can be cancelled"), db).
Proof.
  intros Hst. unfold cancel_order_handler. cbn [fst snd].
  rewrite bool_decide_eq_false_2 by assumption. reflexivity.
Qed.

Lemma DELETE_order_authenticated hd env id db user db1 :
  protect hd env db = (Next user, db1) ->
  DELETE_order hd env id db =
    match checkOrderAccess user id db1 with
    | (Next order, db2) => cancel_order_handler env order db2
    | (Respond r, db2) => (Respond r, db2)
    | (Throw, db2) => (Throw, db2)
    end.
Proof.
  intros Hrun. unfold DELETE_order. rewrite (bind_Next _ _ _ _ _ Hrun).
  unfold bind. now destruct (checkOrderAccess user id db1) as [[order|r|] db2].
Qed.

(** A cancel request either cancels a pending order that the caller has
    access to, or replies with an error and writes to the users only. *)
Lemma DELETE_order_cases hd env id db :
  (exists user db1 o,
     protect hd env db = (Next user, db1) /\
     orders db !! id = Some o /\ order_access user o db1 = Granted /\
     order_status o = pending /\
     DELETE_order hd env id db =
       (Respond cancelled_reply,
        set_products (release (order_items o))
          (set_orders (insert id (Order_pre_save env (with_status cancelled o))) db1)))
  \/ (exists r db1,
        DELETE_order hd env id db = (Respond r, db1) /\ code r <> 200 /\
        orders db1 = orders db /\ products db1 = products db).
Proof.
  destruct (protect hd env db) as [[user|r|] db1] eqn:Hrun.
  - destruct (protect_frame _ _ _ _ _ Hrun) as (Hprod & Hord & _).
    rewrite (DELETE_order_authenticated _ _ _ _ _ _ Hrun).
    destruct (checkOrderAccess_cases user id db1)
      as [(o & Ho & Hacc & ->)|(r & -> & Hcode)].
    + destruct (decide (order_status o = pending)) as [Hst|Hst].
      * left. exists user, db1, o. rewrite <- Hord.
        repeat split; try assumption. now apply cancel_pending.
      * right. rewrite (cancel_not_pending _ _ _ _ Hst).
        eexists _, db1. split; [reflexivity|]. cbn. split; [lia|]. tauto.
    + right. exists r, db1. split; [reflexivity|]. split; [lia|]. tauto.
  - right. destruct (protect_frame _ _ _ _ _ Hrun) as (Hprod & Hord & _).
    exists r, db1. unfold DELETE_order. rewrite (bind_Respond _ _ _ _ _ Hrun).
    split; [reflexivity|]. split; [|tauto].
    destruct (protect_cases hd env db) as [(? & ? & _ & Hrun')|[_ [msg Hrun']]];
      rewrite Hrun' in Hrun; [discriminate|].
    injection Hrun as <- _. cbn. lia.
  - exfalso.
    destruct (protect_cases hd env db) as [(? & ? & _ & Hrun')|[_ [msg Hrun']]];
      rewrite Hrun' in Hrun; discriminate.
Qed.





Lemma cancel_granted hd env id db user db1 o :
  protect hd env db = (Next user, db1) ->
  orders db1 !! id = Some o -> order_access user o db1 = Granted ->
  order_status o = pending ->
  DELETE_order hd env id db =
    (Respond cancelled_reply,
     set_products (release (order_items o))
       (set_orders (insert id (Order_pre_save env (with_status cancelled o))) db1)).
Proof.
  intros Hrun Ho Hacc Hst.
  rewrite (DELETE_order_authenticated _ _ _ _ _ _ Hrun).
  rewrite (checkOrderAccess_stored _ _ _ _ Ho), Hacc.
  now apply cancel_pending.
Qed.

Lemma cancelled_status env o :
  order_status (Order_pre_save env (with_status cancelled o)) = cancelled.
Proof.
  destruct (Order_pre_save_fields env (with_status cancelled o)) as (_ & -> & _).
  reflexivity.
Qed.


(** ** PATCH /api/orders/:id/status *)

(** Evaluates the role tests of a goal once the role is a constructor. *)
Ltac eval_role_tests :=
  repeat match goal with
  | |- context [includes_role ?l ?r] =>
      let b := eval vm_compute in (includes_role l r) in
      change (includes_role l r) with b
  | |- context [@bool_decide (@eq Role ?a ?b) ?d] =>
      let v := eval vm_compute in (@bool_decide (@eq Role a b) d) in
      change (@bool_decide (@eq Role a b) d) with v
  end.

Lemma parse_status_name t : parse_status (status_name t) = Some t.
Proof. now destruct t. Qed.

Lemma update_status_handler_run user env id o t db :
  user_role (snd user) <> customer ->
  update_status_handler user env (id, o) (status_name t) db =
    if target_allowed (user_role (snd user)) t
    then (Respond (status_reply (id, Order_pre_save env (status_written user t o))),
          set_orders (insert id (Order_pre_save env (status_written user t o))) db)
    else (Respond (fail 403
                     (if bool_decide (user_role (snd user) = seller)
                      then "Sellers can only confirm orders"
                      else "Delivery agents can only update shipping status")),
          db).
Proof.
  intros Hrole. unfold update_status_handler, status_written.
  rewrite parse_status_name. cbn [fst snd].
  destruct user as [uid u]. cbn [fst snd] in *.
  destruct (user_role u); [| | congruence |]; destruct t; reflexivity.
Qed.

Lemma PATCH_order_status_authenticated hd env id text db user db1 :
  protect hd env db = (Next user, db1) ->
  PATCH_order_status hd env id text db =
    if bool_decide (user_role (snd user) = customer) then
      (Respond (fail 403
         "Access denied. Only admins, sellers, and delivery agents can manage orders."),
       db1)
    else
      match checkOrderAccess user id db1 with
      | (Next order, db2) => update_status_handler user env order text db2
      | (Respond r, db2) => (Respond r, db2)
      | (Throw, db2) => (Throw, db2)
      end.
Proof.
  intros Hrun. unfold PATCH_order_status. rewrite (bind_Next _ _ _ _ _ Hrun).
  unfold canManageOrders. destruct user as [uid u]. cbn [fst snd].
  destruct (user_role u); eval_role_tests; cbn iota;
    try (unfold bind at 1, ret; cbn iota; unfold bind;
         now destruct (checkOrderAccess (uid, u) id db1) as [[order|r|] db2]).
Qed.

(** C1 (amended).  For an authenticated caller whom [checkOrderAccess] lets
    through to the order, a status update to the target [t] succeeds, and
    the order is stored with status [t], exactly when [t] is on the list of
    the caller's role: pending or confirmed for a seller; confirmed, shipped
    or delivered for a delivery agent; any status for an admin.  The order's
    current status plays no part.  A target off the list is answered 403,
    and so is every request of a customer; the orders are then unchanged. *)
Theorem status_update_gated_by_role_and_target hd env id db user db1 t :
  protect hd env db = (Next user, db1) ->
  (forall o,
     user_role (snd user) <> customer ->
     checkOrderAccess user id db1 = (Next (id, o), db1) ->
     (target_allowed (user_role (snd user)) t = true ->
      exists o',
        PATCH_order_status hd env id (status_name t) db
          = (Respond (status_reply (id, o')), set_orders (insert id o') db1) /\
        order_status o' = t /\ order_items o' = order_items o /\
        orders (set_orders (insert id o') db1) !! id = Some o')
     /\ (target_allowed (user_role (snd user)) t = false ->
         exists msg,
           PATCH_order_status hd env id (status_name t) db
             = (Respond (fail 403 msg), db1) /\
           orders db1 = orders db))
  /\ (user_role (snd user) = customer ->
      target_allowed (user_role (snd user)) t = false /\
      exists msg,
        PATCH_order_status hd env id (status_name t) db = (Respond (fail 403 msg), db1) /\
        orders db1 = orders db).
Proof.
  intros Hrun.
  destruct (protect_frame _ _ _ _ _ Hrun) as (_ & Hord & _).
  rewrite (PATCH_order_status_authenticated _ _ _ _ _ _ _ Hrun).
  split.
  - intros o Hrole Hcheck.
    rewrite bool_decide_eq_false_2 by exact Hrole.
    rewrite Hcheck, (update_status_handler_run _ _ _ _ _ _ Hrole).
    split; intros Hallowed; rewrite Hallowed.
    + eexists. split; [reflexivity|].
      destruct (Order_pre_save_fields env (status_written user t o)) as (Hi & Hs & _).
      rewrite Hi, Hs. cbn. rewrite lookup_insert_eq.
      unfold status_written.
      destruct (bool_decide (t = shipped) && _); repeat split; reflexivity.
    + eexists. split; [reflexivity|exact Hord].
  - intros Hrole. rewrite bool_decide_eq_true_2 by exact Hrole.
    rewrite Hrole. split; [reflexivity|].
    eexists. split; [reflexivity|exact Hord].
Qed.

(** ** Listings *)

Lemma skip_limit_sublist {A} skip limit (l found : list A) db db' :
  skip_limit skip limit l db = (Next found, db') ->
  db' = db /\ forall x, x ∈ found -> x ∈ l.
Proof.
  unfold skip_limit. destruct (skip <? 0)%Z; [discriminate|].
  unfold ret. intros [= <- <-]. split; [reflexivity|].
  intros x Hx. destruct (limit =? 0)%Z.
  - now apply (subseteq_drop (Z.to_nat skip) l).
  - apply (subseteq_drop (Z.to_nat skip) l).
    now apply (subseteq_take (Z.to_nat (Z.abs limit))).
Qed.

(** A query returns stored documents that pass its filter. *)
Lemma Order_find_sound f sort skip limit db found db' :
  Order_find f sort skip limit db = (Next found, db') ->
  db' = db /\
  forall doc, doc ∈ found -> orders db !! fst doc = Some (snd doc) /\ f doc = true.
Proof.
  unfold Order_find, bind, get_db. intros Hrun.
  apply skip_limit_sublist in Hrun as [-> Hsub]. split; [reflexivity|].
  intros [id o] Hdoc. apply Hsub in Hdoc.
  rewrite (query_sort_perm sort _) in Hdoc.
  apply elem_of_map_to_list in Hdoc.
  apply map_lookup_filter_Some in Hdoc as [Ho Hf]. cbn in *.
  split; [exact Ho|]. now apply Is_true_true.
Qed.

Lemma all_of_true fs doc f :
  all_of fs doc = true -> f ∈ fs -> f doc = true.
Proof.
  unfold all_of. rewrite forallb_forall. intros Hall Hin.
  apply Hall. now apply list_elem_of_In.
Qed.

(** The seller's filter: some line of the order is a stored product of
    the seller. *)
Lemma items_product_in_seller uid db doc :
  items_product_in (seller_product_ids uid db) doc = true ->
  exists it p,
    it ∈ order_items (snd doc) /\
    products db !! item_product it = Some p /\ product_seller p = uid.
Proof.
  unfold items_product_in. rewrite existsb_exists.
  intros (it & Hit & Hin). apply bool_decide_eq_true in Hin.
  unfold seller_product_ids in Hin.
  apply list_elem_of_fmap in Hin as ([pid p] & Hpid & Hp). cbn in Hpid.
  apply elem_of_map_to_list in Hp.
  unfold products_of_seller in Hp.
  apply map_lookup_filter_Some in Hp as [Hp Hseller]. cbn in Hseller.
  exists it, p. split; [now apply list_elem_of_In|]. split; congruence.
Qed.

Lemma list_orders_handler_inv user q db r db' found page limit total :
  list_orders_handler user q db = (Respond r, db') ->
  body r = Success None (DOrders found page limit total) ->
  forall doc, doc ∈ found ->
    orders db !! fst doc = Some (snd doc) /\
    order_isActive (snd doc) = true /\ role_filter user db doc = true.
Proof.
  unfold list_orders_handler, try_catch. unfold bind at 1, get_db at 1.
  unfold bind at 1.
  destruct (Order_find _ _ _ _ db) as [[l|r0|] db0] eqn:Hfind.
  - apply Order_find_sound in Hfind as [-> Hsound].
    unfold bind, Order_countDocuments, get_db, ret, respond.
    intros [= <- <-]. cbn [body]. intros [= <- _ _ _] doc Hdoc.
    destruct (Hsound doc Hdoc) as [Ho Hf]. split; [exact Ho|]. split.
    + apply (all_of_true _ _ active_filter Hf). repeat constructor.
    + apply (all_of_true _ _ (role_filter user db) Hf). repeat constructor.
  - intros [= <- <-] Hbody.
    unfold Order_find, bind, get_db, skip_limit in Hfind.
    destruct (_ <? 0)%Z; discriminate.
  - intros [= <- <-]. discriminate.
Qed.

Lemma seller_orders_handler_inv user q db r db' found page limit total :
  seller_orders_handler user q db = (Respond r, db') ->
  body r = Success None (DOrders found page limit total) ->
  forall doc, doc ∈ found ->
    orders db !! fst doc = Some (snd doc) /\
    items_product_in (seller_product_ids (fst user) db) doc = true.
Proof.
  unfold seller_orders_handler, try_catch. unfold bind at 1, get_db at 1.
  unfold bind at 1.
  destruct (Order_find _ _ _ _ db) as [[l|r0|] db0] eqn:Hfind.
  - apply Order_find_sound in Hfind as [-> Hsound].
    unfold bind, Order_countDocuments, get_db, ret, respond.
    intros [= <- <-]. cbn [body]. intros [= <- _ _ _] doc Hdoc.
    destruct (Hsound doc Hdoc) as [Ho Hf]. split; [exact Ho|].
    apply (all_of_true _ _ _ Hf). repeat constructor.
  - intros [= <- <-] Hbody.
    unfold Order_find, bind, get_db, skip_limit in Hfind.
    destruct (_ <? 0)%Z; discriminate.
  - intros [= <- <-]. discriminate.
Qed.

Lemma GET_orders_authenticated hd env q db user db1 :
  protect hd env db = (Next user, db1) ->
  GET_orders hd env q db = list_orders_handler user q db1.
Proof. intros Hrun. unfold GET_orders. now rewrite (bind_Next _ _ _ _ _ Hrun). Qed.

Lemma GET_seller_orders_authenticated hd env q db user db1 :
  protect hd env db = (Next user, db1) ->
  GET_seller_orders hd env q db =
    if bool_decide (user_role (snd user) = seller)
    then seller_orders_handler user q db1
    else (Respond (fail 403 "Access denied. Required role: seller"), db1).
Proof.
  intros Hrun. unfold GET_seller_orders.
  rewrite (bind_Next _ _ _ _ _ Hrun).
  unfold bind, requireSeller.
  rewrite (requireRole_after_protect _ _ _ _ _ _ Hrun), includes_role_singleton.
  now destruct (bool_decide (user_role (snd user) = seller)).
Qed.

(** C8.  Every order in the reply of [GET /api/orders] to a seller, and in
    the reply of [GET /api/seller/orders], is a stored order with at least
    one line whose product is stored with that seller as its owner; every
    order in the reply of [GET /api/orders] to a customer is a stored order
    of that customer. *)
Theorem listings_are_scoped_to_the_caller hd env q db user db1 r db' found page limit total :
  protect hd env db = (Next user, db1) ->
  body r = Success None (DOrders found page limit total) ->
  (user_role (snd user) = seller ->
   GET_orders hd env q db = (Respond r, db') ->
   forall doc, doc ∈ found ->
     orders db !! fst doc = Some (snd doc) /\
     exists it p, it ∈ order_items (snd doc) /\
       products db !! item_product it = Some p /\ product_seller p = fst user)
  /\ (GET_seller_orders hd env q db = (Respond r, db') ->
      forall doc, doc ∈ found ->
        orders db !! fst doc = Some (snd doc) /\
        exists it p, it ∈ order_items (snd doc) /\
          products db !! item_product it = Some p /\ product_seller p = fst user)
  /\ (user_role (snd user) = customer ->
      GET_orders hd env q db = (Respond r, db') ->
      forall doc, doc ∈ found ->
        orders db !! fst doc = Some (snd doc) /\ order_customer (snd doc) = fst user).
Proof.
  intros Hrun Hbody.
  destruct (protect_frame _ _ _ _ _ Hrun) as (Hprod & Hord & _).
  assert (Hids : forall uid, seller_product_ids uid db1 = seller_product_ids uid db).
  { intros uid. unfold seller_product_ids, products_of_seller. now rewrite Hprod. }
  split; [|split].
  - intros Hrole Hget doc Hdoc.
    rewrite (GET_orders_authenticated _ _ _ _ _ _ Hrun) in Hget.
    destruct (list_orders_handler_inv _ _ _ _ _ _ _ _ _ Hget Hbody doc Hdoc)
      as (Ho & _ & Hf).
    rewrite Hord in Ho. split; [exact Ho|].
    unfold role_filter in Hf. rewrite Hrole, Hids in Hf.
    now apply items_product_in_seller.
  - intros Hget doc Hdoc.
    rewrite (GET_seller_orders_authenticated _ _ _ _ _ _ Hrun) in Hget.
    case_bool_decide as Hrole.
    2:{ injection Hget as <- _. discriminate. }
    destruct (seller_orders_handler_inv _ _ _ _ _ _ _ _ _ Hget Hbody doc Hdoc)
      as (Ho & Hf).
    rewrite Hord in Ho. split; [exact Ho|].
    rewrite Hids in Hf. now apply items_product_in_seller.
  - intros Hrole Hget doc Hdoc.
    rewrite (GET_orders_authenticated _ _ _ _ _ _ Hrun) in Hget.
    destruct (list_orders_handler_inv _ _ _ _ _ _ _ _ _ Hget Hbody doc Hdoc)
      as (Ho & _ & Hf).
    rewrite Hord in Ho. split; [exact Ho|].
    unfold role_filter in Hf. rewrite Hrole in Hf.
    now apply bool_decide_eq_true in Hf.
Qed.

(** ** Absent and hidden orders *)


Lemma delivery_route_authenticated {A} hd env db user db1 (k : Doc User -> Handler A) :
  protect hd env db = (Next user, db1) ->
  user_role (snd user) = delivery ->
  (run protect hd env then let* u := requireDelivery hd env in k u) db = k user db1.
Proof.
  intros Hrun Hrole. rewrite (bind_Next _ _ _ _ _ Hrun).
  unfold bind, requireDelivery.
  rewrite (requireRole_after_protect _ _ _ _ _ _ Hrun), includes_role_singleton.
  now rewrite bool_decide_eq_true_2.
Qed.


(** An assigned delivery agent sets any of the three delivery targets on
    the delivery route, whatever the order's status is. *)
Lemma delivery_route_sets_listed_target hd env id db user db1 o t est :
  protect hd env db = (Next user, db1) ->
  user_role (snd user) = delivery ->
  orders db !! id = Some o ->
  deliveryAgent (order_delivery o) = Some (fst user) ->
  t ∈ delivery_targets ->
  exists r db2 o',
    PATCH_delivery_order_status hd env id
      {| ds_status := status_name t; ds_estimatedDelivery := est |} db
    = (Respond r, db2) /\
    code r = 200 /\ orders db2 !! id = Some o' /\ order_status o' = t.
Proof.
  intros Hrun Hrole Ho Hagent Ht.
  destruct (protect_frame _ _ _ _ _ Hrun) as (_ & Hord & _).
  rewrite <- Hord in Ho.
  unfold PATCH_delivery_order_status.
  rewrite (delivery_route_authenticated _ _ _ _ _ _ Hrun Hrole).
  unfold delivery_status_handler. cbn [ds_status ds_estimatedDelivery].
  rewrite parse_status_name, bool_decide_eq_true_2 by exact Ht. cbn [negb].
  assert (Hfind : Order_findOne_assigned id (fst user) db1 = (Next (Some (id, o)), db1)).
  { unfold Order_findOne_assigned, bind, get_db, ret. rewrite Ho.
    unfold agent_filter. cbn [snd]. now rewrite bool_decide_eq_true_2. }
  unfold try_catch. rewrite (bind_Next _ _ _ _ _ Hfind). cbn [fst snd].
  rewrite (bind_Next _ _ _ _ _ (Order_save_existing _ _ _)). cbn [fst snd].
  unfold respond. do 3 eexists. split; [reflexivity|]. split; [reflexivity|].
  cbn. rewrite lookup_insert_eq. split; [reflexivity|].
  match goal with |- order_status (Order_pre_save env ?x) = _ =>
    destruct (Order_pre_save_fields env x) as (_ & -> & _) end.
  reflexivity.
Qed.

(** ** Totals *)


(** What the second pre-save hook establishes on an order with lines. *)
Lemma Order_pre_save_totals env o :
  order_items o <> [] ->
  let o' := Order_pre_save env o in
  order_subtotal o' = sum_item_totals (order_items o') /\
  order_total o'
  = PrimFloat.add (PrimFloat.add (order_subtotal o') (order_tax o')) (order_shippingCost o').
Proof.
  intros Hne. unfold Order_pre_save, calc_totals, gen_orderNumber.
  destruct (is_empty (orderNumber o)); cbn;
    destruct (order_items o) eqn:Hitems; try congruence; cbn; rewrite ?Hitems;
    split; reflexivity.
Qed.



(** X1.  A request with an item that fails a check of the first loop (its
    product is not stored, is not active, or has less stock than the line
    asks for) is answered with an error, and neither the orders nor the
    products change: nothing is reserved for the lines before the failing
    one. *)
Lemma create_rejects_whole_order hd env b db :
  forallb (item_available db) (req_items b) = false ->
  exists r db',
    POST_orders hd env b db = (Respond r, db') /\ code r <> 201 /\
    orders db' = orders db /\ products db' = products db.
Proof.
  intros Hav.
  destruct (protect hd env db) as [[user|r0|] db1] eqn:Hrun.
  - destruct (protect_frame _ _ _ _ _ Hrun) as (Hprod & Hord & _).
    rewrite (POST_orders_authenticated _ _ _ _ _ _ Hrun).
    case_bool_decide as Hrole.
    2:{ eexists _, db1. split; [reflexivity|]. cbn. split; [lia|tauto]. }
    assert (Hav1 : forallb (item_available db1) (req_items b) = false).
    { unfold item_available in *. now rewrite Hprod. }
    destruct (create_order_handler_cases user env b db1)
      as [[_ Hc]|[[_ [msg Hc]]|[[_ Hc]|(_ & Hav' & _)]]]; [| | |congruence];
      rewrite Hc; eexists _, db1; (split; [reflexivity|]); cbn;
      (split; [lia|tauto]).
  - destruct (protect_frame _ _ _ _ _ Hrun) as (Hprod & Hord & _).
    unfold POST_orders. rewrite (bind_Respond _ _ _ _ _ Hrun).
    exists r0, db1. split; [reflexivity|]. split; [|tauto].
    destruct (protect_cases hd env db) as [(? & ? & _ & Hp')|[_ [msg Hp']]];
      rewrite Hp' in Hrun; [discriminate|].
    injection Hrun as <- _. cbn. lia.
  - exfalso.
    destruct (protect_cases hd env db) as [(? & ? & _ & Hp')|[_ [msg Hp']]];
      rewrite Hp' in Hrun; discriminate.
Qed.





(** Every [save] of an order with lines stores it with the subtotal of its
    lines and the total of its parts. *)
Lemma saved_orders_are_consistent env isNew doc db saved db' :
  Order_save env isNew doc db = (Next saved, db') ->
  order_items (snd doc) <> [] ->
  orders db' !! fst doc = Some (snd saved) /\
  order_subtotal (snd saved) = sum_item_totals (order_items (snd saved)) /\
  order_total (snd saved)
  = PrimFloat.add (PrimFloat.add (order_subtotal (snd saved)) (order_tax (snd saved)))
                  (order_shippingCost (snd saved)).
Proof.
  intros Hsave Hlines.
  assert (Hres : saved = (fst doc, Order_pre_save env (snd doc)) /\
                 db' = set_orders (insert (fst doc) (Order_pre_save env (snd doc))) db).
  { destruct isNew.
    - rewrite Order_save_new in Hsave.
      destruct (bool_decide _ || _); [discriminate|].
      injection Hsave as <- <-. split; reflexivity.
    - rewrite Order_save_existing in Hsave.
      injection Hsave as <- <-. split; reflexivity. }
  destruct Hres as [-> ->]. cbn [fst snd].
  split; [cbn; apply lookup_insert_eq|].
  exact (Order_pre_save_totals env (snd doc) Hlines).
Qed.

End Facts.

(** * The routes at work in the small shop *)

Section Shop.
Import Demo.
#[local] Existing Instance Demo.ext.

(** C1, counterexample.  Sam, a seller with a product on Cara's delivered
    order 101, sets that order back to confirmed: the transition (seller,
    delivered, confirmed) is not in the table, and the update succeeds and is
    stored.  Sue, a seller with no product on the pending order 100, asks
    for the transition (seller, pending, confirmed) of the table and is
    answered 403; the order stays pending. *)
Lemma seller_sets_delivered_order_back :
  (spec_transition seller delivered confirmed = false /\
   let out := PATCH_order_status (bearer "sam") env 101%N "confirmed" db in
   user_role <$> users db !! 2%N = Some seller /\
   order_status <$> orders db !! 101%N = Some delivered /\
   reply_code (fst out) = Some 200 /\
   order_status <$> orders (snd out) !! 101%N = Some confirmed)
  /\ (spec_transition seller pending confirmed = true /\
      let out := PATCH_order_status (bearer "sue") env 100%N "confirmed" db in
      user_role <$> users db !! 6%N = Some seller /\
      order_status <$> orders db !! 100%N = Some pending /\
      fst out = Respond (fail 403 "Access denied. You cannot access this order.") /\
      order_status <$> orders (snd out) !! 100%N = Some pending).
Proof. vm_compute. repeat split; reflexivity. Qed.

(** C1, witness: Sam confirms the pending order 100, and is refused the
    target shipped. *)
Lemma status_update_gated_witness :
  (exists o',
     PATCH_order_status (bearer "sam") env 100%N "confirmed" db
       = (Respond (status_reply (100%N, o')),
          set_orders (insert 100%N o') (after_login 2%N sam db)) /\
     order_status o' = confirmed /\ order_items o' = order_items order100 /\
     orders (set_orders (insert 100%N o') (after_login 2%N sam db)) !! 100%N = Some o')
  /\ (exists msg,
        PATCH_order_status (bearer "sam") env 100%N "shipped" db
          = (Respond (fail 403 msg), after_login 2%N sam db) /\
        orders (after_login 2%N sam db) = orders db).
Proof.
  assert (Hsam : protect (bearer "sam") env db
                 = (Next (logged_in 2%N sam), after_login 2%N sam db))
    by (vm_compute; reflexivity).
  assert (Hcheck : checkOrderAccess (logged_in 2%N sam) 100%N (after_login 2%N sam db)
                   = (Next (100%N, order100), after_login 2%N sam db))
    by (vm_compute; reflexivity).
  assert (Hrole : user_role (snd (logged_in 2%N sam)) <> customer)
    by (vm_compute; discriminate).
  split.
  - apply (proj1 (status_update_gated_by_role_and_target
                    (bearer "sam") env 100%N db (logged_in 2%N sam)
                    (after_login 2%N sam db) confirmed Hsam) order100 Hrole Hcheck).
    vm_compute. reflexivity.
  - apply (proj1 (status_update_gated_by_role_and_target
                    (bearer "sam") env 100%N db (logged_in 2%N sam)
                    (after_login 2%N sam db) shipped Hsam) order100 Hrole Hcheck).
    vm_compute. reflexivity.
Defined.



(** C4, the failing requests.  Sam is a seller and not the customer of
    order 100; Dan is the delivery agent assigned to order 102.  Each of them
    cancels the pending order: the reply is 200, the order is stored as
    cancelled, and the stock and sales of the product move back. *)
Theorem seller_and_agent_cancel_orders :
  (let out := DELETE_order (bearer "sam") env 100%N db in
   user_role <$> users db !! 2%N = Some seller /\
   order_customer <$> orders db !! 100%N = Some 3%N /\
   order_status <$> orders db !! 100%N = Some pending /\
   fst out = Respond cancelled_reply /\
   order_status <$> orders (snd out) !! 100%N = Some cancelled /\
   product_stock <$> products db !! 10%N = Some 8 /\
   product_stock <$> products (snd out) !! 10%N = Some 10 /\
   product_sales <$> products (snd out) !! 10%N = Some 2)
  /\ (let out := DELETE_order (bearer "dan") env 102%N db in
      user_role <$> users db !! 4%N = Some delivery /\
      order_customer <$> orders db !! 102%N = Some 3%N /\
      fst out = Respond cancelled_reply /\
      order_status <$> orders (snd out) !! 102%N = Some cancelled /\
      product_stock <$> products (snd out) !! 10%N = Some 9).
Proof. vm_compute. repeat split; reflexivity. Qed.



(** C6, the failing requests.  Order 100 is stored with subtotal 60, tax
    4.8, no shipping cost and total 64.8.  Ada, the admin, sends a body with
    [total: 1] to [PUT /api/orders/100]: the order is stored with total 1
    beside the same subtotal, tax and shipping cost.  She sends a body with
    one line of five units and line total 150: the order is stored with
    that line and still with subtotal 60 and total 64.8. *)
Theorem admin_update_bypasses_totals :
  (order_subtotal order100 = sum_item_totals (order_items order100) /\
   order_total order100
   = total_of (order_subtotal order100) (order_tax order100) (order_shippingCost order100))
  /\ (let out := PUT_order (bearer "ada") env 100%N total_update db in
      reply_code (fst out) = Some 200 /\
      order_total <$> orders (snd out) !! 100%N = Some 1%float /\
      (fun o => total_of (order_subtotal o) (order_tax o) (order_shippingCost o))
        <$> orders (snd out) !! 100%N = Some 64.8%float)
  /\ (let out := PUT_order (bearer "ada") env 100%N items_update db in
      reply_code (fst out) = Some 200 /\
      order_subtotal <$> orders (snd out) !! 100%N = Some 60%float /\
      order_total <$> orders (snd out) !! 100%N = Some 64.8%float /\
      (fun o => sum_item_totals (order_items o))
        <$> orders (snd out) !! 100%N = Some 150%float).
Proof. vm_compute. repeat split; reflexivity. Qed.



(** C8, witness: the listings of Sam, who sells the lamp of all three
    orders, and the listing of Cara, who placed them. *)
Lemma listings_scoped_witness :
  (orders db !! 100%N = Some order100 /\
   exists it p, it ∈ order_items order100 /\
     products db !! item_product it = Some p /\ product_seller p = 2%N)
  /\ (orders db !! 101%N = Some order101 /\
      exists it p, it ∈ order_items order101 /\
        products db !! item_product it = Some p /\ product_seller p = 2%N)
  /\ (orders db !! 102%N = Some order102 /\ order_customer order102 = 3%N).
Proof.
  assert (Hsam : protect (bearer "sam") env db
                 = (Next (logged_in 2%N sam), after_login 2%N sam db))
    by (vm_compute; reflexivity).
  assert (Hcara : protect (bearer "cara") env db
                  = (Next (logged_in 3%N cara), after_login 3%N cara db))
    by (vm_compute; reflexivity).
  pose proof (listings_are_scoped_to_the_caller (bearer "sam") env page1 db
                (logged_in 2%N sam) (after_login 2%N sam db)
                (listing all_orders) (after_login 2%N sam db) all_orders 1 10 3%nat
                Hsam eq_refl) as (Hseller & Hroute & _).
  pose proof (listings_are_scoped_to_the_caller (bearer "cara") env page1 db
                (logged_in 3%N cara) (after_login 3%N cara db)
                (listing all_orders) (after_login 3%N cara db) all_orders 1 10 3%nat
                Hcara eq_refl) as (_ & _ & Hcustomer).
  split; [|split].
  - apply (Hseller eq_refl ltac:(vm_compute; reflexivity) (100%N, order100)).
    repeat constructor.
  - apply (Hroute ltac:(vm_compute; reflexivity) (101%N, order101)).
    repeat constructor.
  - apply (Hcustomer eq_refl ltac:(vm_compute; reflexivity) (102%N, order102)).
    repeat constructor.
Defined.

(** C9, witness: Cara's token resolves her and stamps the time of the
    request; no header, a token that does not verify, a token of nobody in
    the store and the token of the deactivated Ivo are answered 401. *)
Lemma protect_witness :
  (protect (bearer "cara") env db = (Next (logged_in 3%N cara), after_login 3%N cara db) /\
   user_lastLogin <$> users (after_login 3%N cara db) !! 3%N = Some (Some (now env)))
  /\ protect {| authorization := None |} env db
     = (Respond (fail 401 "Not authorized, no token"), db)
  /\ protect {| authorization := Some "Basic abc" |} env db
     = (Respond (fail 401 "Not authorized, no token"), db)
  /\ protect (bearer "forged") env db
     = (Respond (fail 401 "Not authorized, token failed"), db)
  /\ protect (bearer "ghost") env db = (Respond (fail 401 "User not found"), db)
  /\ protect (bearer "ivo") env db
     = (Respond (fail 401 "User account is deactivated"), db).
Proof.
  split; [|split; [|split; [|split; [|split]]]].
  - destruct (proj1 (protect_authenticates_or_rejects (bearer "cara") env db))
      as [(uid & u & _ & Hone & Hrun & Hstored & _)|[Hno _]].
    + assert (Hres : resolves (bearer "cara") db 3%N cara).
      { exists "Bearer cara", "cara". vm_compute. repeat split; reflexivity. }
      destruct (Hone 3%N cara Hres) as [Huid Hu]. subst uid u.
      rewrite Hrun in Hstored. cbn [snd] in Hstored.
      split; [exact Hrun|]. unfold after_login. now rewrite Hstored.
    + exfalso. apply (Hno 3%N cara).
      exists "Bearer cara", "cara". vm_compute. repeat split; reflexivity.
  - apply (proj1 (proj2 (protect_authenticates_or_rejects
                           {| authorization := None |} env db))).
    reflexivity.
  - apply (proj1 (proj2 (proj2 (protect_authenticates_or_rejects
                                  {| authorization := Some "Basic abc" |} env db)))
             "Basic abc"); reflexivity.
  - apply (proj1 (proj2 (proj2 (proj2 (protect_authenticates_or_rejects
                                         (bearer "forged") env db))))
             "Bearer forged"); vm_compute; reflexivity.
  - apply (proj1 (proj2 (proj2 (proj2 (proj2 (protect_authenticates_or_rejects
                                                (bearer "ghost") env db)))))
             "Bearer ghost" 8%N); vm_compute; reflexivity.
  - apply (proj2 (proj2 (proj2 (proj2 (proj2 (protect_authenticates_or_rejects
                                                (bearer "ivo") env db)))))
             "Bearer ivo" 7%N (user "Ivo" customer false)); vm_compute; reflexivity.
Defined.


End Shop.


(** * Properties of the further code *)

Section MoreFacts.
Context `{External}.

(** ** Authentication *)

Lemma protect_Respond_inv hd env db r db1 :
  protect hd env db = (Respond r, db1) -> db1 = db /\ exists msg, r = fail 401 msg.
Proof.
  intros Hrun.
  destruct (protect_cases hd env db) as [(? & ? & _ & Hrun')|[_ [msg Hrun']]];
    rewrite Hrun' in Hrun; [discriminate|].
  injection Hrun as <- <-. eauto.
Qed.

Lemma protect_no_Throw hd env db db1 : protect hd env db = (Throw, db1) -> False.
Proof.
  intros Hrun.
  destruct (protect_cases hd env db) as [(? & ? & _ & Hrun')|[_ [msg Hrun']]];
    rewrite Hrun' in Hrun; discriminate.
Qed.

(** A route behind [protect, requireRole(roles)]. *)
Lemma role_route_authenticated {A} roles hd env db user db1 (k : Doc User -> Handler A) :
  protect hd env db = (Next user, db1) ->
  (run protect hd env then let* u := requireRole roles hd env in k u) db =
    if includes_role roles (user_role (snd user)) then k user db1
    else (Respond (fail 403 ("Access denied. Required role: "
                               ++ join_or (role_name <$> roles))), db1).
Proof.
  intros Hrun. rewrite (bind_Next _ _ _ _ _ Hrun). unfold bind.
  rewrite (requireRole_after_protect _ _ _ _ _ _ Hrun).
  now destruct (includes_role roles (user_role (snd user))).
Qed.

(** A route behind [protect, requireRole(roles)] whose caller [protect]
    turns away. *)
Lemma role_route_rejected {A} roles hd env db r db1 (k : Doc User -> Handler A) :
  protect hd env db = (Respond r, db1) ->
  (run protect hd env then let* u := requireRole roles hd env in k u) db = (Respond r, db1).
Proof. intros Hrun. now rewrite (bind_Respond _ _ _ _ _ Hrun). Qed.

Lemma getUser_resolved hd db uid u :
  resolves hd db uid u -> getUser hd db = (Next (Some (uid, u)), db).
Proof.
  intros (h & tok & Hh & Hpre & Htok & Hne & Hv & Hu & Hact).
  unfold getUser. rewrite Hh, Hpre, Htok.
  unfold catch_continue, verify_token. rewrite Hne, Hv.
  unfold bind, ret, User_findById, get_db. cbn. rewrite Hu. cbn.
  now rewrite Hact.
Qed.

Lemma getUser_unresolved hd db :
  (forall uid u, ~ resolves hd db uid u) -> getUser hd db = (Next None, db).
Proof.
  intros Hno. unfold getUser.
  destruct (authorization hd) as [h|] eqn:Hh; [|reflexivity].
  destruct (String.prefix "Bearer" h) eqn:Hpre; [|reflexivity].
  unfold catch_continue, verify_token.
  destruct (bearer_token h) as [tok|] eqn:Htok; [|reflexivity].
  destruct (is_empty tok) eqn:Hne; [reflexivity|].
  destruct (jwt_verify tok) as [uid|] eqn:Hv; [|reflexivity].
  unfold bind, ret, User_findById, get_db. cbn.
  destruct (users db !! uid) as [u|] eqn:Hu; cbn; [|reflexivity].
  destruct (user_isActive u) eqn:Hact; [|reflexivity].
  exfalso. apply (Hno uid u). exists h, tok. repeat split; assumption.
Qed.

(** X3.  [getUser] never replies and never writes: it hands on the stored,
    active user that the bearer credential names, and nothing in every other
    case.  It finds a user exactly when [protect] lets the request through,
    so [getUser] followed by [isAuthenticated] admits the requests that
    [protect] admits (without the write of the last-login time) and answers
    401 to the others, and [getUser] followed by [isNotAuthenticated] does
    the opposite with 400. *)
Theorem getUser_finds_whom_protect_admits hd env db :
  exists found,
    getUser hd db = (Next found, db) /\
    (forall uid u, found = Some (uid, u) <-> resolves hd db uid u) /\
    match found with
    | Some (uid, u) =>
        protect hd env db
        = (Next (uid, touch_login (now env) u),
           set_users (insert uid (touch_login (now env) u)) db) /\
        (let* user := getUser hd in isAuthenticated user) db = (Next (uid, u), db) /\
        (let* user := getUser hd in isNotAuthenticated user) db
        = (Respond (fail 400 "User is already authenticated"), db)
    | None =>
        (exists msg, protect hd env db = (Respond (fail 401 msg), db)) /\
        (let* user := getUser hd in isAuthenticated user) db
        = (Respond (fail 401 "Authentication required"), db) /\
        (let* user := getUser hd in isNotAuthenticated user) db = (Next tt, db)
    end.
Proof.
  destruct (protect_cases hd env db) as [(uid & u & Hres & Hrun)|[Hno Hrun]].
  - exists (Some (uid, u)).
    pose proof (getUser_resolved _ _ _ _ Hres) as Hget.
    split; [exact Hget|]. split.
    + intros uid' u'. split.
      * intros [= <- <-]. exact Hres.
      * intros Hres'. destruct (resolves_functional _ _ _ _ _ _ Hres Hres') as [-> ->].
        reflexivity.
    + split; [exact Hrun|].
      split; now rewrite (bind_Next _ _ _ _ _ Hget).
  - exists None.
    pose proof (getUser_unresolved _ _ Hno) as Hget.
    split; [exact Hget|]. split.
    + intros uid u. split; [discriminate|]. intros Hres. now apply Hno in Hres.
    + split; [exact Hrun|].
      split; now rewrite (bind_Next _ _ _ _ _ Hget).
Qed.

Lemma verifyToken_run hd db :
  verifyToken hd db =
    match authorization hd with
    | Some h =>
        if String.prefix "Bearer" h then
          match bearer_token h with
          | Some tok =>
              if is_empty tok then (Respond (fail 401 "Invalid token"), db)
              else match jwt_verify tok with
                   | Some uid => (Next uid, db)
                   | None => (Respond (fail 401 "Invalid token"), db)
                   end
          | None => (Respond (fail 401 "Invalid token"), db)
          end
        else (Respond (fail 401 "No token provided"), db)
    | None => (Respond (fail 401 "No token provided"), db)
    end.
Proof.
  unfold verifyToken.
  destruct (authorization hd) as [h|]; [|reflexivity].
  destruct (String.prefix "Bearer" h); [|reflexivity].
  unfold try_catch, verify_token.
  destruct (bearer_token h) as [tok|]; [|reflexivity].
  destruct (is_empty tok); [reflexivity|].
  now destruct (jwt_verify tok).
Qed.

(** X4.  [verifyToken] looks at the header only: its answer is the same
    over every store, and it leaves the store alone.  It passes the decoded
    id on, or replies 401 with one of its two messages.  Whenever [protect]
    admits a request, [verifyToken] admits it with the id of the same user;
    a request that [verifyToken] admits is refused by [protect] only because
    the user is not stored or is deactivated. *)
Theorem verifyToken_reads_the_header_only hd db :
  (forall db', verifyToken hd db' = (fst (verifyToken hd db), db'))
  /\ ((exists uid, verifyToken hd db = (Next uid, db))
      \/ verifyToken hd db = (Respond (fail 401 "Invalid token"), db)
      \/ verifyToken hd db = (Respond (fail 401 "No token provided"), db))
  /\ (forall env user db1,
        protect hd env db = (Next user, db1) ->
        verifyToken hd db = (Next (fst user), db))
  /\ (forall env uid,
        verifyToken hd db = (Next uid, db) ->
        match users db !! uid with
        | None => protect hd env db = (Respond (fail 401 "User not found"), db)
        | Some u =>
            if user_isActive u then
              protect hd env db
              = (Next (uid, touch_login (now env) u),
                 set_users (insert uid (touch_login (now env) u)) db)
            else protect hd env db = (Respond (fail 401 "User account is deactivated"), db)
        end).
Proof.
  split; [|split; [|split]].
  - intros db'. rewrite !verifyToken_run.
    destruct (authorization hd) as [h|]; [|reflexivity].
    destruct (String.prefix "Bearer" h); [|reflexivity].
    destruct (bearer_token h) as [tok|]; [|reflexivity].
    destruct (is_empty tok); [reflexivity|].
    now destruct (jwt_verify tok).
  - rewrite verifyToken_run.
    destruct (authorization hd) as [h|]; [|tauto].
    destruct (String.prefix "Bearer" h); [|tauto].
    destruct (bearer_token h) as [tok|]; [|tauto].
    destruct (is_empty tok); [tauto|].
    destruct (jwt_verify tok); [eauto|tauto].
  - intros env user db1 Hrun.
    destruct (protect_Next_inv _ _ _ _ _ Hrun)
      as (u & (h & tok & Hh & Hpre & Htok & Hne & Hv & _) & _).
    rewrite verifyToken_run. now rewrite Hh, Hpre, Htok, Hne, Hv.
  - intros env uid Hrun. rewrite verifyToken_run in Hrun.
    destruct (authorization hd) as [h|] eqn:Hh; [|discriminate].
    destruct (String.prefix "Bearer" h) eqn:Hpre; [|discriminate].
    destruct (bearer_token h) as [tok|] eqn:Htok; [|discriminate].
    destruct (is_empty tok) eqn:Hne; [discriminate|].
    destruct (jwt_verify tok) as [uid'|] eqn:Hv; [|discriminate].
    injection Hrun as <-.
    unfold protect. rewrite Hh, Hpre, Htok.
    unfold try_catch, verify_token. rewrite Hne, Hv.
    unfold bind, ret, User_findById, get_db. cbn.
    destruct (users db !! uid') as [u|]; cbn; [|reflexivity].
    now destruct (user_isActive u).
Qed.

(** X5.  [requireRole(roles)] lets a request through exactly when its
    credential names a stored, active user whose role is listed.  A user
    with a valid credential and another role is answered 403, and the time
    of the request is still written as that user's last login; every other
    request is answered 401 and the store is left as it was.  A longer list
    admits whatever a shorter one admits. *)
Theorem requireRole_admits_the_listed_roles roles hd env db :
  ((exists uid u,
      resolves hd db uid u /\
      requireRole roles hd env db =
        if includes_role roles (user_role u)
        then (Next (uid, touch_login (now env) u),
              set_users (insert uid (touch_login (now env) u)) db)
        else (Respond (fail 403 ("Access denied. Required role: "
                                   ++ join_or (role_name <$> roles))),
              set_users (insert uid (touch_login (now env) u)) db))
   \/ ((forall uid u, ~ resolves hd db uid u) /\
       exists msg, requireRole roles hd env db = (Respond (fail 401 msg), db)))
  /\ (forall roles' user db1,
        roles ⊆ roles' ->
        requireRole roles hd env db = (Next user, db1) ->
        requireRole roles' hd env db = (Next user, db1)).
Proof.
  assert (Hcases :
    (exists uid u,
      resolves hd db uid u /\
      forall rs, requireRole rs hd env db =
        if includes_role rs (user_role u)
        then (Next (uid, touch_login (now env) u),
              set_users (insert uid (touch_login (now env) u)) db)
        else (Respond (fail 403 ("Access denied. Required role: "
                                   ++ join_or (role_name <$> rs))),
              set_users (insert uid (touch_login (now env) u)) db))
    \/ ((forall uid u, ~ resolves hd db uid u) /\
        forall rs, exists msg, requireRole rs hd env db = (Respond (fail 401 msg), db))).
  { destruct (protect_cases hd env db) as [(uid & u & Hres & Hrun)|[Hno [msg Hrun]]].
    - left. exists uid, u. split; [exact Hres|]. intros rs.
      unfold requireRole. rewrite (bind_Next _ _ _ _ _ Hrun). cbn [snd touch_login user_role].
      now destruct (includes_role rs (user_role u)).
    - right. split; [exact Hno|]. intros rs. exists msg.
      unfold requireRole. now rewrite (bind_Respond _ _ _ _ _ Hrun). }
  split.
  - destruct Hcases as [(uid & u & Hres & Hrun)|[Hno Hrun]].
    + left. exists uid, u. split; [exact Hres|apply Hrun].
    + right. split; [exact Hno|apply Hrun].
  - intros roles' user db1 Hsub.
    destruct Hcases as [(uid & u & Hres & Hrun)|[Hno Hrun]].
    + rewrite !Hrun. unfold includes_role.
      case_bool_decide as Hin; [|discriminate].
      now rewrite bool_decide_eq_true_2 by (apply Hsub, Hin).
    + destruct (Hrun roles) as [msg ->]. discriminate.
Qed.

(** ** Deleting a product *)

Lemma delete_product_handler_run id db :
  delete_product_handler id db =
    match products db !! id with
    | None => (Respond (fail 404 "Product not found"), db)
    | Some _ => (Respond product_deleted, set_products (delete id) db)
    end.
Proof.
  unfold delete_product_handler, try_catch, Product_findByIdAndDelete, bind, get_db.
  cbn. now destruct (products db !! id).
Qed.

Lemma seller_delete_product_handler_run user id db :
  seller_delete_product_handler user id db =
    match products db !! id with
    | Some p =>
        if bool_decide (product_seller p = fst user)
        then (Respond product_deleted, set_products (delete id) db)
        else (Respond (fail 404 "Product not found"), db)
    | None => (Respond (fail 404 "Product not found"), db)
    end.
Proof.
  unfold seller_delete_product_handler, try_catch, Product_findOneAndDelete_owned,
    bind, get_db.
  cbn. destruct (products db !! id) as [p|]; [|reflexivity].
  now destruct (bool_decide (product_seller p = fst user)).
Qed.

Lemma checkOwnership_products_run user id db :
  checkOwnership products product_seller user id db =
    match products db !! id with
    | None => (Respond (fail 404 "Resource not found"), db)
    | Some p =>
        if bool_decide (user_role (snd user) = admin)
           || bool_decide (product_seller p = fst user)
        then (Next (id, p), db)
        else (Respond (fail 403 "Access denied. You can only manage your own resources."),
              db)
    end.
Proof.
  unfold checkOwnership, try_catch, bind, get_db. cbn.
  destruct (products db !! id) as [p|]; [|reflexivity].
  destruct (bool_decide (user_role (snd user) = admin)); [reflexivity|].
  now destruct (bool_decide (product_seller p = fst user)).
Qed.

Lemma DELETE_product_authenticated hd env id db user db1 :
  protect hd env db = (Next user, db1) ->
  DELETE_product hd env id db =
    if bool_decide (user_role (snd user) = admin)
       || bool_decide (user_role (snd user) = seller)
    then
      match products db1 !! id with
      | None => (Respond (fail 404 "Resource not found"), db1)
      | Some p =>
          if bool_decide (user_role (snd user) = admin)
             || bool_decide (product_seller p = fst user)
          then (Respond product_deleted, set_products (delete id) db1)
          else (Respond (fail 403 "Access denied. You can only manage your own resources."),
                db1)
      end
    else (Respond (fail 403 "Access denied. Only admins and sellers can manage products."),
          db1).
Proof.
  intros Hrun. unfold DELETE_product. rewrite (bind_Next _ _ _ _ _ Hrun).
  unfold canManageProducts.
  destruct (bool_decide (user_role (snd user) = admin)
            || bool_decide (user_role (snd user) = seller)); [|reflexivity].
  unfold bind at 1, ret. unfold bind. rewrite checkOwnership_products_run.
  destruct (products db1 !! id) as [p|] eqn:Hp; [|reflexivity].
  destruct (bool_decide (user_role (snd user) = admin)
            || bool_decide (product_seller p = fst user)); [|reflexivity].
  rewrite delete_product_handler_run. now rewrite Hp.
Qed.

Lemma DELETE_admin_product_authenticated hd env id db user db1 :
  protect hd env db = (Next user, db1) ->
  DELETE_admin_product hd env id db =
    if bool_decide (user_role (snd user) = admin)
    then delete_product_handler id db1
    else (Respond (fail 403 "Access denied. Required role: admin"), db1).
Proof.
  intros Hrun. unfold DELETE_admin_product, requireAdmin.
  rewrite (role_route_authenticated _ _ _ _ _ _ _ Hrun), includes_role_singleton.
  reflexivity.
Qed.

Lemma DELETE_seller_product_authenticated hd env id db user db1 :
  protect hd env db = (Next user, db1) ->
  DELETE_seller_product hd env id db =
    if bool_decide (user_role (snd user) = seller)
    then seller_delete_product_handler user id db1
    else (Respond (fail 403 "Access denied. Required role: seller"), db1).
Proof.
  intros Hrun. unfold DELETE_seller_product, requireSeller.
  rewrite (role_route_authenticated _ _ _ _ _ _ _ Hrun), includes_role_singleton.
  reflexivity.
Qed.

(** X6.  [DELETE /api/products/:id] removes a stored product for an admin
    and for the seller who owns it, and for nobody else.  The reply is 200
    exactly in that case, and the store then differs by that one product;
    in every other case the reply is 403 or 404 and neither the products nor
    the orders change.  A customer or a delivery agent is answered 403
    whether or not the product is stored. *)
Theorem product_delete_needs_admin_or_owner hd env id db user db1 :
  protect hd env db = (Next user, db1) ->
  exists r db',
    DELETE_product hd env id db = (Respond r, db') /\
    orders db' = orders db /\
    (code r = 200 <->
     exists p, products db !! id = Some p /\
       (user_role (snd user) = admin
        \/ (user_role (snd user) = seller /\ product_seller p = fst user))) /\
    (code r = 200 -> products db' = delete id (products db)) /\
    (code r <> 200 ->
     products db' = products db /\ (code r = 403 \/ code r = 404)) /\
    (user_role (snd user) = customer \/ user_role (snd user) = delivery -> code r = 403).
Proof.
  intros Hrun.
  destruct (protect_frame _ _ _ _ _ Hrun) as (Hprod & Hord & _).
  rewrite (DELETE_product_authenticated _ _ _ _ _ _ Hrun), Hprod.
  destruct user as [uid u]. cbn [fst snd].
  destruct (user_role u) eqn:Hrole; cbn [orb];
    try rewrite (bool_decide_eq_false_2 (_ = admin)) by discriminate;
    try rewrite (bool_decide_eq_true_2 (_ = admin)) by reflexivity;
    try rewrite (bool_decide_eq_false_2 (_ = seller)) by discriminate;
    try rewrite (bool_decide_eq_true_2 (_ = seller)) by reflexivity;
    cbn [orb].
  - (* admin *)
    destruct (products db !! id) as [p|] eqn:Hp.
    + eexists _, _. split; [reflexivity|]. cbn. rewrite Hprod.
      repeat split; try tauto; try lia; try (intros [?|?]; discriminate).
      intros _. exists p. tauto.
    + eexists _, _. split; [reflexivity|]. cbn.
      repeat split; try tauto; try lia; try discriminate;
        try (intros [?|?]; discriminate).
      intros (p & Hp' & _). discriminate.
  - (* seller *)
    destruct (products db !! id) as [p|] eqn:Hp.
    + case_bool_decide as Hown.
      * eexists _, _. split; [reflexivity|]. cbn. rewrite Hprod.
        repeat split; try tauto; try lia; try (intros [?|?]; discriminate).
        intros _. exists p. tauto.
      * eexists _, _. split; [reflexivity|]. cbn.
        repeat split; try tauto; try lia; try discriminate;
          try (intros [?|?]; discriminate).
        intros (p' & [= <-] & [?|[_ ?]]); [discriminate|contradiction].
    + eexists _, _. split; [reflexivity|]. cbn.
      repeat split; try tauto; try lia; try discriminate;
        try (intros [?|?]; discriminate).
      intros (p & Hp' & _). discriminate.
  - (* customer *)
    eexists _, _. split; [reflexivity|]. cbn.
    repeat split; try tauto; try lia; try discriminate.
    intros (p & _ & [?|[? _]]); discriminate.
  - (* delivery *)
    eexists _, _. split; [reflexivity|]. cbn.
    repeat split; try tauto; try lia; try discriminate.
    intros (p & _ & [?|[? _]]); discriminate.
Qed.

(** X7.  On the sellers' own route a product of another seller gets the
    very reply of a product that is not stored, 404 with one message, and
    nothing is deleted; [DELETE /api/products/:id] tells the two apart (403
    for the stored one, 404 for the other).  The seller's own product is
    deleted by both routes, with the same reply and the same store. *)
Theorem seller_route_hides_foreign_products hd env id db user db1 :
  protect hd env db = (Next user, db1) ->
  user_role (snd user) = seller ->
  ((forall p, products db !! id = Some p -> product_seller p <> fst user) ->
   DELETE_seller_product hd env id db = (Respond (fail 404 "Product not found"), db1) /\
   products db1 = products db /\
   (products db !! id = None ->
    DELETE_product hd env id db = (Respond (fail 404 "Resource not found"), db1)) /\
   (is_Some (products db !! id) ->
    DELETE_product hd env id db
    = (Respond (fail 403 "Access denied. You can only manage your own resources."), db1)))
  /\ (forall p, products db !! id = Some p -> product_seller p = fst user ->
      DELETE_seller_product hd env id db
      = (Respond product_deleted, set_products (delete id) db1) /\
      DELETE_product hd env id db = DELETE_seller_product hd env id db /\
      products (set_products (delete id) db1) !! id = None).
Proof.
  intros Hrun Hrole.
  destruct (protect_frame _ _ _ _ _ Hrun) as (Hprod & _ & _).
  rewrite (DELETE_seller_product_authenticated _ _ _ _ _ _ Hrun),
    (DELETE_product_authenticated _ _ _ _ _ _ Hrun),
    seller_delete_product_handler_run, Hprod.
  rewrite Hrole.
  rewrite (bool_decide_eq_false_2 (seller = admin)) by discriminate.
  rewrite (bool_decide_eq_true_2 (seller = seller)) by reflexivity. cbn [orb].
  split.
  - intros Hforeign.
    destruct (products db !! id) as [p|] eqn:Hp.
    + rewrite bool_decide_eq_false_2 by (now apply Hforeign).
      repeat split; try assumption; try reflexivity. discriminate.
    + repeat split; try assumption; try reflexivity. intros [? ?]. discriminate.
  - intros p Hp Hown. rewrite Hp.
    rewrite bool_decide_eq_true_2 by exact Hown.
    repeat split. cbn. apply lookup_delete_eq.
Qed.

Lemma deletes_or_refuses id db r db1 db' (found : option Product) :
  products db1 = products db -> orders db1 = orders db ->
  (forall k, is_Some (users db1 !! k) <-> is_Some (users db !! k)) ->
  ((r, db') = (product_deleted, set_products (delete id) db1) /\ is_Some found)
  \/ (db' = db1 /\ code r <> 200) ->
  orders db' = orders db /\
  (forall k, is_Some (users db' !! k) <-> is_Some (users db !! k)) /\
  (forall k, k <> id -> products db' !! k = products db !! k) /\
  (code r = 200 -> is_Some found /\ products db' !! id = None) /\
  (code r <> 200 -> products db' = products db).
Proof.
  intros Hprod Hord Husers [[[= -> ->] Hsome]|[-> Hcode]].
  - cbn. rewrite Hprod. split; [exact Hord|]. split; [exact Husers|].
    split; [intros k Hk; now apply lookup_delete_ne|].
    split; [intros _; split; [exact Hsome|apply lookup_delete_eq]|].
    intros Hne. now contradiction Hne.
  - split; [exact Hord|]. split; [exact Husers|].
    split; [intros k _; now rewrite Hprod|].
    split; [intros Hc; contradiction|]. intros _. exact Hprod.
Qed.

(** X8.  Each of the three routes that delete a product,
    [DELETE /api/products/:id], [DELETE /api/admin/products/:id] and
    [DELETE /api/seller/products/:id], always replies, never touches an
    order or another product, and neither adds nor removes a user; a reply
    200 means that the product was stored and is gone, and any other reply
    that the catalog is as it was. *)
Theorem product_delete_routes_remove_one_product :
  removes_at_most_one_product DELETE_product
  /\ removes_at_most_one_product DELETE_admin_product
  /\ removes_at_most_one_product DELETE_seller_product.
Proof.
  split; [|split]; intros hd env id db;
    destruct (protect hd env db) as [[user|r0|] db1] eqn:Hrun;
    try (exfalso; exact (protect_no_Throw _ _ _ _ Hrun));
    destruct (protect_frame _ _ _ _ _ Hrun) as (Hprod & Hord & Husers).
  - rewrite (DELETE_product_authenticated _ _ _ _ _ _ Hrun), Hprod.
    destruct (bool_decide (user_role (snd user) = admin)
              || bool_decide (user_role (snd user) = seller)).
    2:{ eexists _, _. split; [reflexivity|].
        apply (deletes_or_refuses id db _ db1 _ _ Hprod Hord Husers).
        right. split; [reflexivity|]. cbn. lia. }
    destruct (products db !! id) as [p|] eqn:Hp.
    2:{ eexists _, _. split; [reflexivity|].
        apply (deletes_or_refuses id db _ db1 _ _ Hprod Hord Husers).
        right. split; [reflexivity|]. cbn. lia. }
    destruct (bool_decide (user_role (snd user) = admin)
              || bool_decide (product_seller p = fst user)).
    + eexists _, _. split; [reflexivity|].
      apply (deletes_or_refuses id db _ db1 _ _ Hprod Hord Husers).
      left. split; [reflexivity|eauto].
    + eexists _, _. split; [reflexivity|].
      apply (deletes_or_refuses id db _ db1 _ _ Hprod Hord Husers).
      right. split; [reflexivity|]. cbn. lia.
  - unfold DELETE_product. rewrite (bind_Respond _ _ _ _ _ Hrun).
    destruct (protect_Respond_inv _ _ _ _ _ Hrun) as (-> & msg & ->).
    eexists _, _. split; [reflexivity|].
    apply (deletes_or_refuses id db _ db _ _ Hprod Hord Husers).
    right. split; [reflexivity|]. cbn. lia.
  - rewrite (DELETE_admin_product_authenticated _ _ _ _ _ _ Hrun).
    destruct (bool_decide (user_role (snd user) = admin)).
    2:{ eexists _, _. split; [reflexivity|].
        apply (deletes_or_refuses id db _ db1 _ _ Hprod Hord Husers).
        right. split; [reflexivity|]. cbn. lia. }
    rewrite delete_product_handler_run, Hprod.
    destruct (products db !! id) as [p|] eqn:Hp.
    + eexists _, _. split; [reflexivity|].
      apply (deletes_or_refuses id db _ db1 _ _ Hprod Hord Husers).
      left. split; [reflexivity|eauto].
    + eexists _, _. split; [reflexivity|].
      apply (deletes_or_refuses id db _ db1 _ _ Hprod Hord Husers).
      right. split; [reflexivity|]. cbn. lia.
  - unfold DELETE_admin_product, requireAdmin.
    rewrite (role_route_rejected _ _ _ _ _ _ _ Hrun).
    destruct (protect_Respond_inv _ _ _ _ _ Hrun) as (-> & msg & ->).
    eexists _, _. split; [reflexivity|].
    apply (deletes_or_refuses id db _ db _ _ Hprod Hord Husers).
    right. split; [reflexivity|]. cbn. lia.
  - rewrite (DELETE_seller_product_authenticated _ _ _ _ _ _ Hrun).
    destruct (bool_decide (user_role (snd user) = seller)).
    2:{ eexists _, _. split; [reflexivity|].
        apply (deletes_or_refuses id db _ db1 _ _ Hprod Hord Husers).
        right. split; [reflexivity|]. cbn. lia. }
    rewrite seller_delete_product_handler_run, Hprod.
    destruct (products db !! id) as [p|] eqn:Hp.
    + destruct (bool_decide (product_seller p = fst user)).
      * eexists _, _. split; [reflexivity|].
        apply (deletes_or_refuses id db _ db1 _ _ Hprod Hord Husers).
        left. split; [reflexivity|eauto].
      * eexists _, _. split; [reflexivity|].
        apply (deletes_or_refuses id db _ db1 _ _ Hprod Hord Husers).
        right. split; [reflexivity|]. cbn. lia.
    + eexists _, _. split; [reflexivity|].
      apply (deletes_or_refuses id db _ db1 _ _ Hprod Hord Husers).
      right. split; [reflexivity|]. cbn. lia.
  - unfold DELETE_seller_product, requireSeller.
    rewrite (role_route_rejected _ _ _ _ _ _ _ Hrun).
    destruct (protect_Respond_inv _ _ _ _ _ Hrun) as (-> & msg & ->).
    eexists _, _. split; [reflexivity|].
    apply (deletes_or_refuses id db _ db _ _ Hprod Hord Husers).
    right. split; [reflexivity|]. cbn. lia.
Qed.

(** ** What the routes write *)

Lemma kept_fields_refl o : kept_fields o o.
Proof. unfold kept_fields. tauto. Qed.

Lemma kept_fields_trans o1 o2 o3 :
  kept_fields o1 o2 -> kept_fields o2 o3 -> kept_fields o1 o3.
Proof.
  unfold kept_fields.
  intros (A1 & A2 & A3 & A4 & A5 & A6 & A7 & A8 & A9 & A10)
         (B1 & B2 & B3 & B4 & B5 & B6 & B7 & B8 & B9 & B10).
  repeat split; try congruence.
  intros Hne. rewrite B10; [now apply A10|]. now rewrite A10.
Qed.

Lemma kept_with_status st o : kept_fields o (with_status st o).
Proof. unfold kept_fields. cbn. tauto. Qed.

Lemma kept_with_delivery d o : kept_fields o (with_delivery d o).
Proof. unfold kept_fields. cbn. tauto. Qed.

Lemma Order_pre_save_kept env o : kept_fields o (Order_pre_save env o).
Proof.
  unfold kept_fields, Order_pre_save, calc_totals, gen_orderNumber.
  destruct (orderNumber o) eqn:Hn; cbn;
    destruct (order_items o) eqn:Hi; cbn; rewrite ?Hi, ?Hn;
    repeat split; congruence.
Qed.

Lemma unchanged_keeps db db' : orders db' = orders db -> keeps_orders db db'.
Proof.
  intros Hord id o Ho. exists o. rewrite Hord. split; [exact Ho|apply kept_fields_refl].
Qed.

Lemma saved_keeps env id o o1 db db' :
  orders db !! id = Some o -> kept_fields o o1 ->
  orders db' = <[id := Order_pre_save env o1]> (orders db) ->
  keeps_orders db db'.
Proof.
  intros Ho Hkept Hord k ok Hk. rewrite Hord.
  destruct (decide (id = k)) as [<-|Hne].
  - rewrite lookup_insert_eq. eexists. split; [reflexivity|].
    assert (ok = o) by congruence; subst ok.
    exact (kept_fields_trans _ _ _ Hkept (Order_pre_save_kept env o1)).
  - rewrite lookup_insert_ne by exact Hne. exists ok.
    split; [exact Hk|apply kept_fields_refl].
Qed.

Lemma saves_at_most_keeps env id db db' : saves_at_most env id db db' -> keeps_orders db db'.
Proof.
  intros [_ [Hord|(o & o1 & Ho & Hkept & Hord)]]; [now apply unchanged_keeps|].
  exact (saved_keeps _ _ _ _ _ _ Ho Hkept Hord).
Qed.

Lemma same_products_moves db db' : products db' = products db -> moves_units db db'.
Proof.
  intros Hprod pid. exists 0. rewrite Hprod.
  destruct (products db !! pid) as [p|]; cbn; [|reflexivity].
  now rewrite inc_zero.
Qed.

Lemma totals_consistent_saved env o : totals_consistent (Order_pre_save env o).
Proof.
  intros Hne. apply (Order_pre_save_totals env o).
  destruct (Order_pre_save_fields env o) as (Hi & _). cbn zeta in Hi. now rewrite <- Hi.
Qed.

Lemma saves_at_most_consistent env id db db' :
  saves_at_most env id db db' -> store_consistent db -> store_consistent db'.
Proof.
  unfold store_consistent.
  intros [_ [Hord|(o & o1 & Ho & Hkept & Hord)]] Hcons; rewrite Hord; [exact Hcons|].
  apply map_Forall_insert_2; [apply totals_consistent_saved|exact Hcons].
Qed.

Ltac store_unchanged :=
  split; [cbn; assumption | left; cbn; assumption].

Lemma PATCH_order_status_writes hd env id text db :
  saves_at_most env id db (snd (PATCH_order_status hd env id text db)).
Proof.
  destruct (protect hd env db) as [[user|r|] db1] eqn:Hrun;
    [| |exfalso; exact (protect_no_Throw _ _ _ _ Hrun)];
    destruct (protect_frame _ _ _ _ _ Hrun) as (Hprod & Hord & _).
  2:{ unfold PATCH_order_status. rewrite (bind_Respond _ _ _ _ _ Hrun). store_unchanged. }
  rewrite (PATCH_order_status_authenticated _ _ _ _ _ _ _ Hrun).
  case_bool_decide as Hrole; [store_unchanged|].
  destruct (checkOrderAccess_cases user id db1) as [(o & Ho & _ & ->)|(r & -> & _)];
    [|store_unchanged].
  unfold update_status_handler. cbn [fst snd].
  destruct (parse_status text) as [t|]; [|store_unchanged].
  destruct (bool_decide (user_role (snd user) = seller) && _); [store_unchanged|].
  destruct (bool_decide (user_role (snd user) = delivery) && negb _); [store_unchanged|].
  unfold try_catch. rewrite (bind_Next _ _ _ _ _ (Order_save_existing _ _ _)).
  cbn [fst snd]. split; [exact Hprod|]. right. rewrite <- Hord.
  eexists o, _. split; [exact Ho|]. split; [|reflexivity].
  destruct (bool_decide (t = shipped) && _).
  - exact (kept_fields_trans _ _ _ (kept_with_status t o) (kept_with_delivery _ _)).
  - apply kept_with_status.
Qed.

Lemma POST_order_tracking_authenticated hd env id tr db user db1 :
  protect hd env db = (Next user, db1) ->
  POST_order_tracking hd env id tr db =
    match checkOrderAccess user id db1 with
    | (Next order, db2) => tracking_handler user env order tr db2
    | (Respond r, db2) => (Respond r, db2)
    | (Throw, db2) => (Throw, db2)
    end.
Proof.
  intros Hrun. unfold POST_order_tracking. rewrite (bind_Next _ _ _ _ _ Hrun).
  unfold bind. now destruct (checkOrderAccess user id db1) as [[order|r|] db2].
Qed.

Lemma tracking_handler_run user env id o tr db :
  tracking_handler user env (id, o) tr db =
    if is_empty (trim tr) then
      (Respond (invalid ["Tracking number is required"]), db)
    else if bool_decide (user_role (snd user) = delivery) then
      let o1 := with_delivery
                  (with_agent (Some (fst user))
                     (with_tracking (Some (trim tr)) (order_delivery o))) o in
      (Respond (tracking_added (id, Order_pre_save env o1)),
       set_orders (insert id (Order_pre_save env o1)) db)
    else (Respond (fail 403 "Only delivery agents can add tracking information"), db).
Proof.
  unfold tracking_handler. cbn [fst snd].
  destruct (is_empty (trim tr)); [reflexivity|].
  now destruct (bool_decide (user_role (snd user) = delivery)).
Qed.

Lemma POST_order_tracking_writes hd env id tr db :
  saves_at_most env id db (snd (POST_order_tracking hd env id tr db)).
Proof.
  destruct (protect hd env db) as [[user|r|] db1] eqn:Hrun;
    [| |exfalso; exact (protect_no_Throw _ _ _ _ Hrun)];
    destruct (protect_frame _ _ _ _ _ Hrun) as (Hprod & Hord & _).
  2:{ unfold POST_order_tracking. rewrite (bind_Respond _ _ _ _ _ Hrun). store_unchanged. }
  rewrite (POST_order_tracking_authenticated _ _ _ _ _ _ _ Hrun).
  destruct (checkOrderAccess_cases user id db1) as [(o & Ho & _ & ->)|(r & -> & _)];
    [|store_unchanged].
  rewrite tracking_handler_run.
  destruct (is_empty (trim tr)); [store_unchanged|].
  destruct (bool_decide (user_role (snd user) = delivery)); [|store_unchanged].
  cbn [fst snd]. split; [exact Hprod|]. right. rewrite <- Hord.
  eexists o, _. split; [exact Ho|]. split; [|reflexivity].
  apply kept_with_delivery.
Qed.

Lemma Order_findOne_assigned_run id uid db :
  Order_findOne_assigned id uid db =
    (Next (match orders db !! id with
           | Some o =>
               if bool_decide (deliveryAgent (order_delivery o) = Some uid)
               then Some (id, o) else None
           | None => None
           end), db).
Proof. reflexivity. Qed.

Lemma Order_findOne_ready_run id uid db :
  Order_findOne_ready id uid db =
    (Next (match orders db !! id with
           | Some o =>
               if bool_decide (deliveryAgent (order_delivery o) = Some uid)
                  && bool_decide (order_status o ∈ completion_targets)
               then Some (id, o) else None
           | None => None
           end), db).
Proof. reflexivity. Qed.

(** A route behind [protect, requireDelivery], request by request. *)
Lemma delivery_route_cases {A} hd env db (k : Doc User -> Handler A) :
  (exists user db1,
     protect hd env db = (Next user, db1) /\ user_role (snd user) = delivery /\
     products db1 = products db /\ orders db1 = orders db /\
     (run protect hd env then let* u := requireDelivery hd env in k u) db = k user db1)
  \/ (exists r db1,
        products db1 = products db /\ orders db1 = orders db /\
        (code r = 401 \/ code r = 403) /\
        (run protect hd env then let* u := requireDelivery hd env in k u) db
        = (Respond r, db1)).
Proof.
  destruct (protect hd env db) as [[user|r|] db1] eqn:Hrun;
    [| |exfalso; exact (protect_no_Throw _ _ _ _ Hrun)];
    destruct (protect_frame _ _ _ _ _ Hrun) as (Hprod & Hord & _).
  - unfold requireDelivery.
    rewrite (role_route_authenticated _ _ _ _ _ _ _ Hrun), includes_role_singleton.
    case_bool_decide as Hrole.
    + left. exists user, db1. repeat split; assumption.
    + right. eexists _, db1. repeat split; try assumption. cbn. tauto.
  - right. unfold requireDelivery. rewrite (role_route_rejected _ _ _ _ _ _ _ Hrun).
    destruct (protect_Respond_inv _ _ _ _ _ Hrun) as (-> & msg & ->).
    eexists _, db. repeat split. cbn. tauto.
Qed.

Lemma delivery_status_handler_run user env id b db :
  delivery_status_handler user env id b db =
    match parse_status (ds_status b) with
    | Some t =>
        if bool_decide (t ∈ delivery_targets) then
          match orders db !! id with
          | Some o =>
              if bool_decide (deliveryAgent (order_delivery o) = Some (fst user)) then
                let o1 := with_status t o in
                let d1 := match ds_estimatedDelivery b with
                          | Some e => with_estimated (Some e) (order_delivery o1)
                          | None => order_delivery o1
                          end in
                let d2 := if bool_decide (t = delivered)
                          then with_actual (Some (now env)) d1 else d1 in
                let o2 := Order_pre_save env (with_delivery d2 o1) in
                (Respond {| code := 200;
                            body := Success (Some "Delivery status updated successfully")
                                      (DOrder (id, o2)) |},
                 set_orders (insert id o2) db)
              else (Respond not_assigned, db)
          | None => (Respond not_assigned, db)
          end
        else (Respond (invalid ["Invalid status for delivery agent"]), db)
    | None => (Respond (invalid ["Invalid status for delivery agent"]), db)
    end.
Proof.
  unfold delivery_status_handler.
  destruct (parse_status (ds_status b)) as [t|]; [|reflexivity].
  destruct (bool_decide (t ∈ delivery_targets)); [|reflexivity]. cbn [negb].
  unfold try_catch. rewrite (bind_Next _ _ _ _ _ (Order_findOne_assigned_run _ _ _)).
  destruct (orders db !! id) as [o|]; [|reflexivity].
  now destruct (bool_decide (deliveryAgent (order_delivery o) = Some (fst user))).
Qed.

Lemma delivery_tracking_handler_run user env id tr db :
  delivery_tracking_handler user env id tr db =
    if is_empty (trim tr) then
      (Respond (invalid ["Tracking number is required"]), db)
    else
      match orders db !! id with
      | Some o =>
          if bool_decide (deliveryAgent (order_delivery o) = Some (fst user)) then
            let o1 := with_delivery
                        (with_tracking (Some (trim tr)) (order_delivery o)) o in
            (Respond (tracking_added (id, Order_pre_save env o1)),
             set_orders (insert id (Order_pre_save env o1)) db)
          else (Respond not_assigned, db)
      | None => (Respond not_assigned, db)
      end.
Proof.
  unfold delivery_tracking_handler.
  destruct (is_empty (trim tr)); [reflexivity|].
  unfold try_catch. rewrite (bind_Next _ _ _ _ _ (Order_findOne_assigned_run _ _ _)).
  destruct (orders db !! id) as [o|]; [|reflexivity].
  now destruct (bool_decide (deliveryAgent (order_delivery o) = Some (fst user))).
Qed.

Lemma complete_delivery_handler_run user env id db :
  complete_delivery_handler user env id db =
    match orders db !! id with
    | Some o =>
        if bool_decide (deliveryAgent (order_delivery o) = Some (fst user))
           && bool_decide (order_status o ∈ completion_targets)
        then
          let o1 := with_status delivered o in
          let o2 := Order_pre_save env
                      (with_delivery (with_actual (Some (now env)) (order_delivery o1)) o1) in
          (Respond (completed (id, o2)), set_orders (insert id o2) db)
        else (Respond not_ready, db)
    | None => (Respond not_ready, db)
    end.
Proof.
  unfold complete_delivery_handler.
  unfold try_catch. rewrite (bind_Next _ _ _ _ _ (Order_findOne_ready_run _ _ _)).
  destruct (orders db !! id) as [o|]; [|reflexivity].
  now destruct (bool_decide _ && bool_decide _).
Qed.

Lemma PATCH_delivery_order_status_writes hd env id b db :
  saves_at_most env id db (snd (PATCH_delivery_order_status hd env id b db)).
Proof.
  unfold PATCH_delivery_order_status.
  destruct (delivery_route_cases hd env db (fun u => delivery_status_handler u env id b))
    as [(user & db1 & _ & _ & Hprod & Hord & ->)|(r & db1 & Hprod & Hord & _ & ->)];
    [|store_unchanged].
  rewrite delivery_status_handler_run.
  destruct (parse_status (ds_status b)) as [t|]; [|store_unchanged].
  destruct (bool_decide (t ∈ delivery_targets)); [|store_unchanged].
  destruct (orders db1 !! id) as [o|] eqn:Ho; [|store_unchanged].
  destruct (bool_decide (deliveryAgent (order_delivery o) = Some (fst user)));
    [|store_unchanged].
  cbn [fst snd]. split; [exact Hprod|]. right. rewrite <- Hord.
  eexists o, _. split; [exact Ho|]. split; [|reflexivity].
  exact (kept_fields_trans _ _ _ (kept_with_status t o) (kept_with_delivery _ _)).
Qed.

Lemma POST_delivery_order_tracking_writes hd env id tr db :
  saves_at_most env id db (snd (POST_delivery_order_tracking hd env id tr db)).
Proof.
  unfold POST_delivery_order_tracking.
  destruct (delivery_route_cases hd env db (fun u => delivery_tracking_handler u env id tr))
    as [(user & db1 & _ & _ & Hprod & Hord & ->)|(r & db1 & Hprod & Hord & _ & ->)];
    [|store_unchanged].
  rewrite delivery_tracking_handler_run.
  destruct (is_empty (trim tr)); [store_unchanged|].
  destruct (orders db1 !! id) as [o|] eqn:Ho; [|store_unchanged].
  destruct (bool_decide (deliveryAgent (order_delivery o) = Some (fst user)));
    [|store_unchanged].
  cbn [fst snd]. split; [exact Hprod|]. right. rewrite <- Hord.
  eexists o, _. split; [exact Ho|]. split; [|reflexivity].
  apply kept_with_delivery.
Qed.

Lemma POST_delivery_order_complete_writes hd env id db :
  saves_at_most env id db (snd (POST_delivery_order_complete hd env id db)).
Proof.
  unfold POST_delivery_order_complete.
  destruct (delivery_route_cases hd env db (fun u => complete_delivery_handler u env id))
    as [(user & db1 & _ & _ & Hprod & Hord & ->)|(r & db1 & Hprod & Hord & _ & ->)];
    [|store_unchanged].
  rewrite complete_delivery_handler_run.
  destruct (orders db1 !! id) as [o|] eqn:Ho; [|store_unchanged].
  destruct (bool_decide _ && bool_decide _); [|store_unchanged].
  cbn [fst snd]. split; [exact Hprod|]. right. rewrite <- Hord.
  eexists o, _. split; [exact Ho|]. split; [|reflexivity].
  exact (kept_fields_trans _ _ _ (kept_with_status delivered o) (kept_with_delivery _ _)).
Qed.

Lemma DELETE_order_writes hd env id db :
  let db' := snd (DELETE_order hd env id db) in
  (orders db' = orders db /\ products db' = products db)
  \/ (exists o,
        orders db !! id = Some o /\ order_status o = pending /\
        orders db' = <[id := Order_pre_save env (with_status cancelled o)]> (orders db) /\
        products db' = release (order_items o) (products db)).
Proof.
  destruct (DELETE_order_cases hd env id db)
    as [(user & db1 & o & Hrun & Ho & _ & Hst & ->)|(r & db1 & -> & _ & Hord & Hprod)].
  - right. destruct (protect_frame _ _ _ _ _ Hrun) as (Hprod & Hord & _).
    exists o. cbn. rewrite Hprod, Hord. repeat split; assumption.
  - left. cbn. split; assumption.
Qed.

Lemma POST_orders_writes hd env b db :
  let db' := snd (POST_orders hd env b db) in
  (orders db' = orders db /\ products db' = products db)
  \/ (exists o,
        orders db !! fresh_id env = None /\
        orders db' = <[fresh_id env := Order_pre_save env o]> (orders db) /\
        products db' = reserve (req_items b) (products db)).
Proof.
  destruct (protect hd env db) as [[user|r|] db1] eqn:Hrun;
    [| |exfalso; exact (protect_no_Throw _ _ _ _ Hrun)];
    destruct (protect_frame _ _ _ _ _ Hrun) as (Hprod & Hord & _).
  2:{ unfold POST_orders. rewrite (bind_Respond _ _ _ _ _ Hrun). left. cbn. tauto. }
  rewrite (POST_orders_authenticated _ _ _ _ _ _ Hrun).
  case_bool_decide as Hrole; [|left; cbn; tauto].
  destruct (create_order_handler_cases user env b db1)
    as [[_ ->]|[[_ [msg ->]]|[[_ ->]|(_ & _ & Hins & ->)]]];
    try (left; cbn; tauto).
  right. unfold placed_order. eexists. cbn. rewrite Hprod, Hord.
  split; [|split; reflexivity].
  unfold insert_refused in Hins. apply orb_false_iff in Hins as [Hins _].
  apply bool_decide_eq_false in Hins. rewrite <- Hord.
  destruct (orders db1 !! fresh_id env); [exfalso; eauto|reflexivity].
Qed.

Lemma PUT_order_authenticated hd env id u db user db1 :
  protect hd env db = (Next user, db1) ->
  PUT_order hd env id u db =
    match checkOrderAccess user id db1 with
    | (Next _, db2) => put_order_handler user id u db2
    | (Respond r, db2) => (Respond r, db2)
    | (Throw, db2) => (Throw, db2)
    end.
Proof.
  intros Hrun. unfold PUT_order. rewrite (bind_Next _ _ _ _ _ Hrun).
  unfold bind. now destruct (checkOrderAccess user id db1) as [[order|r|] db2].
Qed.

Lemma put_order_handler_run user id u db :
  put_order_handler user id u db =
    if bool_decide (user_role (snd user) = admin) then
      if update_valid u then
        match orders db !! id with
        | Some o =>
            (Respond {| code := 200;
                        body := Success (Some "Order updated successfully")
                                  (DOrder (id, apply_update u o)) |},
             set_orders (insert id (apply_update u o)) db)
        | None => (Respond (fail 404 "Order not found"), db)
        end
      else (Respond (fail 500 "Server error while updating order"), db)
    else (Respond (fail 403 "Only admins can update orders"), db).
Proof.
  unfold put_order_handler.
  destruct (bool_decide (user_role (snd user) = admin)); [|reflexivity]. cbn [negb].
  unfold Order_findByIdAndUpdate.
  destruct (update_valid u); [|reflexivity]. cbn [negb].
  unfold try_catch, bind, get_db. cbn.
  now destruct (orders db !! id).
Qed.

(** X9.  No route of the order and delivery files that saves an order
    ever deletes one or rewrites its fixed part: after a request to create
    an order, to set a status, to cancel, to add tracking data or to complete
    a delivery, whatever its outcome, every order that was stored is still
    stored under the same id with the same customer, lines, tax, shipping
    cost, addresses, payment and notes, and with the same order number if it
    had one.  Only the status, the delivery data, the subtotal and the total
    of an order can differ. *)
Theorem orders_are_never_dropped hd env db :
  (forall b, keeps_orders db (snd (POST_orders hd env b db)))
  /\ (forall id text, keeps_orders db (snd (PATCH_order_status hd env id text db)))
  /\ (forall id, keeps_orders db (snd (DELETE_order hd env id db)))
  /\ (forall id tr, keeps_orders db (snd (POST_order_tracking hd env id tr db)))
  /\ (forall id b, keeps_orders db (snd (PATCH_delivery_order_status hd env id b db)))
  /\ (forall id tr, keeps_orders db (snd (POST_delivery_order_tracking hd env id tr db)))
  /\ (forall id, keeps_orders db (snd (POST_delivery_order_complete hd env id db))).
Proof.
  split; [|split; [|split; [|split; [|split; [|split]]]]].
  - intros b. destruct (POST_orders_writes hd env b db) as [[Hord _]|(o & Hnew & Hord & _)].
    + now apply unchanged_keeps.
    + intros k ok Hk. rewrite Hord.
      assert (fresh_id env <> k) by congruence.
      rewrite lookup_insert_ne by assumption. exists ok.
      split; [exact Hk|apply kept_fields_refl].
  - intros id text. exact (saves_at_most_keeps _ _ _ _ (PATCH_order_status_writes _ _ _ _ _)).
  - intros id. destruct (DELETE_order_writes hd env id db)
      as [[Hord _]|(o & Ho & _ & Hord & Hprod)].
    + now apply unchanged_keeps.
    + exact (saved_keeps _ _ _ _ _ _ Ho (kept_with_status cancelled o) Hord).
  - intros id tr. exact (saves_at_most_keeps _ _ _ _ (POST_order_tracking_writes _ _ _ _ _)).
  - intros id b.
    exact (saves_at_most_keeps _ _ _ _ (PATCH_delivery_order_status_writes _ _ _ _ _)).
  - intros id tr.
    exact (saves_at_most_keeps _ _ _ _ (POST_delivery_order_tracking_writes _ _ _ _ _)).
  - intros id.
    exact (saves_at_most_keeps _ _ _ _ (POST_delivery_order_complete_writes _ _ _ _)).
Qed.

Lemma saves_at_most_moves env id db db' : saves_at_most env id db db' -> moves_units db db'.
Proof. intros [Hprod _]. now apply same_products_moves. Qed.

Lemma PUT_order_keeps_products hd env id u db :
  products (snd (PUT_order hd env id u db)) = products db.
Proof.
  destruct (protect hd env db) as [[user|r|] db1] eqn:Hrun;
    [| |exfalso; exact (protect_no_Throw _ _ _ _ Hrun)];
    destruct (protect_frame _ _ _ _ _ Hrun) as (Hprod & _ & _).
  2:{ unfold PUT_order. now rewrite (bind_Respond _ _ _ _ _ Hrun). }
  rewrite (PUT_order_authenticated _ _ _ _ _ _ _ Hrun).
  destruct (checkOrderAccess_cases user id db1) as [(o & Ho & _ & ->)|(r & -> & _)];
    [|exact Hprod].
  rewrite put_order_handler_run.
  destruct (bool_decide (user_role (snd user) = admin)); [|exact Hprod].
  destruct (update_valid u); [|exact Hprod].
  rewrite Ho. exact Hprod.
Qed.

(** X10.  The routes of the order and delivery files never add a product,
    never remove one and never change a price, a name or an owner: after
    any request to them each product is the product it was, with some number
    of units moved between its stock and its sales counter, so the sum of
    stock and sales of every product stays what it was. *)
Theorem order_routes_only_move_units hd env db :
  (forall b, moves_units db (snd (POST_orders hd env b db)))
  /\ (forall id text, moves_units db (snd (PATCH_order_status hd env id text db)))
  /\ (forall id u, moves_units db (snd (PUT_order hd env id u db)))
  /\ (forall id, moves_units db (snd (DELETE_order hd env id db)))
  /\ (forall id tr, moves_units db (snd (POST_order_tracking hd env id tr db)))
  /\ (forall id b, moves_units db (snd (PATCH_delivery_order_status hd env id b db)))
  /\ (forall id tr, moves_units db (snd (POST_delivery_order_tracking hd env id tr db)))
  /\ (forall id, moves_units db (snd (POST_delivery_order_complete hd env id db)))
  /\ (forall db', moves_units db db' ->
      forall pid p', products db' !! pid = Some p' ->
        exists p, products db !! pid = Some p /\
          product_stock p' + product_sales p' = product_stock p + product_sales p /\
          product_price p' = product_price p /\ product_name p' = product_name p /\
          product_seller p' = product_seller p /\
          product_isActive p' = product_isActive p)
  /\ (forall db', moves_units db db' ->
      forall pid, is_Some (products db' !! pid) <-> is_Some (products db !! pid)).
Proof.
  split; [|split; [|split; [|split; [|split; [|split; [|split; [|split; [|split]]]]]]]].
  - intros b. destruct (POST_orders_writes hd env b db) as [[_ Hprod]|(o & _ & _ & Hprod)].
    + now apply same_products_moves.
    + intros pid. exists (requested pid (req_items b)).
      rewrite Hprod. apply reserve_lookup.
  - intros id text. exact (saves_at_most_moves _ _ _ _ (PATCH_order_status_writes _ _ _ _ _)).
  - intros id u. apply same_products_moves. apply PUT_order_keeps_products.
  - intros id. destruct (DELETE_order_writes hd env id db)
      as [[_ Hprod]|(o & _ & _ & _ & Hprod)].
    + now apply same_products_moves.
    + intros pid. exists (- ordered pid (order_items o)).
      rewrite Hprod, release_lookup.
      now replace (- - ordered pid (order_items o)) with (ordered pid (order_items o)) by lia.
  - intros id tr. exact (saves_at_most_moves _ _ _ _ (POST_order_tracking_writes _ _ _ _ _)).
  - intros id b.
    exact (saves_at_most_moves _ _ _ _ (PATCH_delivery_order_status_writes _ _ _ _ _)).
  - intros id tr.
    exact (saves_at_most_moves _ _ _ _ (POST_delivery_order_tracking_writes _ _ _ _ _)).
  - intros id.
    exact (saves_at_most_moves _ _ _ _ (POST_delivery_order_complete_writes _ _ _ _)).
  - intros db' Hmoves pid p' Hp'. destruct (Hmoves pid) as [n Hn].
    rewrite Hp' in Hn. destruct (products db !! pid) as [p|]; [|discriminate].
    injection Hn as ->. exists p. cbn. repeat split; lia.
  - intros db' Hmoves pid. destruct (Hmoves pid) as [n ->].
    now rewrite fmap_is_Some.
Qed.

(** X11.  Saving keeps the books right.  When every stored order with
    lines has the sum of its line totals as its subtotal and subtotal plus
    tax plus shipping cost as its total, this is still so after any request
    to create an order, to set a status, to cancel, to add tracking data or
    to complete a delivery. *)
Theorem saving_routes_keep_totals_consistent hd env db :
  store_consistent db ->
  (forall b, store_consistent (snd (POST_orders hd env b db)))
  /\ (forall id text, store_consistent (snd (PATCH_order_status hd env id text db)))
  /\ (forall id, store_consistent (snd (DELETE_order hd env id db)))
  /\ (forall id tr, store_consistent (snd (POST_order_tracking hd env id tr db)))
  /\ (forall id b, store_consistent (snd (PATCH_delivery_order_status hd env id b db)))
  /\ (forall id tr, store_consistent (snd (POST_delivery_order_tracking hd env id tr db)))
  /\ (forall id, store_consistent (snd (POST_delivery_order_complete hd env id db))).
Proof.
  intros Hcons.
  split; [|split; [|split; [|split; [|split; [|split]]]]].
  - intros b. unfold store_consistent.
    destruct (POST_orders_writes hd env b db) as [[-> _]|(o & _ & -> & _)];
      [exact Hcons|].
    apply map_Forall_insert_2; [apply totals_consistent_saved|exact Hcons].
  - intros id text.
    exact (saves_at_most_consistent _ _ _ _ (PATCH_order_status_writes _ _ _ _ _) Hcons).
  - intros id. unfold store_consistent.
    destruct (DELETE_order_writes hd env id db) as [[-> _]|(o & _ & _ & -> & _)];
      [exact Hcons|].
    apply map_Forall_insert_2; [apply totals_consistent_saved|exact Hcons].
  - intros id tr.
    exact (saves_at_most_consistent _ _ _ _ (POST_order_tracking_writes _ _ _ _ _) Hcons).
  - intros id b.
    exact (saves_at_most_consistent _ _ _ _
             (PATCH_delivery_order_status_writes _ _ _ _ _) Hcons).
  - intros id tr.
    exact (saves_at_most_consistent _ _ _ _
             (POST_delivery_order_tracking_writes _ _ _ _ _) Hcons).
  - intros id.
    exact (saves_at_most_consistent _ _ _ _
             (POST_delivery_order_complete_writes _ _ _ _) Hcons).
Qed.

(** X12.  [PUT /api/orders/:id] changes the store for an admin only: a
    reply 200 means that the credential names an admin, that the body passes
    the schema's rules and that the order is stored, and the order is then
    written with the fields of the body.  Every other request, of a
    customer, seller or delivery agent with access to the order included,
    leaves the orders as they were; no request changes a product. *)
Theorem only_admins_update_orders hd env id u db :
  let out := PUT_order hd env id u db in
  products (snd out) = products db /\
  (orders (snd out) = orders db /\ reply_code (fst out) <> Some 200
   \/ exists uid a o,
        resolves hd db uid a /\ user_role a = admin /\ update_valid u = true /\
        orders db !! id = Some o /\
        orders (snd out) = <[id := apply_update u o]> (orders db) /\
        reply_code (fst out) = Some 200).
Proof.
  destruct (protect hd env db) as [[user|r|] db1] eqn:Hrun;
    [| |exfalso; exact (protect_no_Throw _ _ _ _ Hrun)];
    destruct (protect_frame _ _ _ _ _ Hrun) as (Hprod & Hord & _).
  2:{ unfold PUT_order. rewrite (bind_Respond _ _ _ _ _ Hrun).
      destruct (protect_Respond_inv _ _ _ _ _ Hrun) as (-> & msg & ->).
      cbn. split; [reflexivity|]. left. split; [reflexivity|discriminate]. }
  rewrite (PUT_order_authenticated _ _ _ _ _ _ _ Hrun).
  destruct (checkOrderAccess_cases user id db1) as [(o & Ho & _ & ->)|(r & -> & Hcode)].
  2:{ cbn. split; [exact Hprod|]. left. split; [exact Hord|].
      intros [= Hc]. lia. }
  rewrite put_order_handler_run.
  case_bool_decide as Hrole.
  2:{ cbn. split; [exact Hprod|]. left. split; [exact Hord|discriminate]. }
  destruct (update_valid u) eqn:Hvalid.
  2:{ cbn. split; [exact Hprod|]. left. split; [exact Hord|discriminate]. }
  rewrite Ho. cbn. split; [exact Hprod|]. right.
  destruct (protect_Next_inv _ _ _ _ _ Hrun) as (a & Hres & Ha & _).
  exists (fst user), a, o. rewrite <- Hord.
  rewrite Ha in Hrole. cbn in Hrole. repeat split; assumption.
Qed.

(** ** Delivery routes *)

(** The next request with the same credential, over a store that has the
    users as the first request left them. *)
Lemma protect_next_request hd env db user db1 env' db2 :
  protect hd env db = (Next user, db1) ->
  users db2 = users db1 ->
  protect hd env' db2 =
    (Next (fst user, touch_login (now env') (snd user)),
     set_users (insert (fst user) (touch_login (now env') (snd user))) db2).
Proof.
  intros Hrun Husers.
  destruct (protect_Next_inv _ _ _ _ _ Hrun) as (u & Hres & Hu & ->).
  destruct Hres as (h & tok & Hh & Hpre & Htok & Hne & Hv & Hlook & Hact).
  apply protect_resolved. exists h, tok. repeat split; try assumption.
  - rewrite Husers. cbn. apply lookup_insert_eq.
  - rewrite Hu. exact Hact.
Qed.

Lemma delivery_route_run {A} hd env db user db1 (k : Doc User -> Handler A) :
  protect hd env db = (Next user, db1) ->
  user_role (snd user) = delivery ->
  (run protect hd env then let* u := requireDelivery hd env in k u) db = k user db1.
Proof.
  intros Hrun Hrole. unfold requireDelivery.
  rewrite (role_route_authenticated _ _ _ _ _ _ _ Hrun), includes_role_singleton.
  now rewrite bool_decide_eq_true_2.
Qed.

Lemma delivered_fields env o :
  let o' := Order_pre_save env
              (with_delivery
                 (with_actual (Some (now env)) (order_delivery (with_status delivered o)))
                 (with_status delivered o)) in
  order_status o' = delivered /\
  actualDelivery (order_delivery o') = Some (now env) /\
  deliveryAgent (order_delivery o') = deliveryAgent (order_delivery o) /\
  trackingNumber (order_delivery o') = trackingNumber (order_delivery o) /\
  estimatedDelivery (order_delivery o') = estimatedDelivery (order_delivery o) /\
  kept_fields o o'.
Proof.
  cbn zeta.
  match goal with |- context [Order_pre_save env ?x] =>
    destruct (Order_pre_save_fields env x) as (_ & Hs & _ & _ & _ & Hd & _);
    pose proof (Order_pre_save_kept env x) as Hk end.
  rewrite Hs, Hd. cbn [order_status order_delivery with_delivery with_status with_actual
                        actualDelivery deliveryAgent trackingNumber estimatedDelivery].
  do 5 (split; [reflexivity|]).
  exact (kept_fields_trans _ _ _
           (kept_fields_trans _ _ _ (kept_with_status delivered o)
              (kept_with_delivery _ (with_status delivered o))) Hk).
Qed.

(** X13.  [POST /api/delivery/orders/:id/complete] completes an order for
    the delivery agent it is assigned to while its status is confirmed or
    shipped: the order is then stored as delivered with the time of the
    request as its delivery time, and its agent, tracking number, lines and
    customer are as before.  A second request for the same order is answered
    404 and changes no order.  An order that is not stored, is assigned to
    somebody else or has another status gets that same 404, and nothing is
    written. *)
Theorem completion_delivers_once hd env id db user db1 :
  protect hd env db = (Next user, db1) ->
  user_role (snd user) = delivery ->
  (forall o,
     orders db !! id = Some o ->
     deliveryAgent (order_delivery o) = Some (fst user) ->
     order_status o ∈ completion_targets ->
     exists o',
       POST_delivery_order_complete hd env id db
       = (Respond (completed (id, o')), set_orders (insert id o') db1) /\
       order_status o' = delivered /\
       actualDelivery (order_delivery o') = Some (now env) /\
       deliveryAgent (order_delivery o') = Some (fst user) /\
       trackingNumber (order_delivery o') = trackingNumber (order_delivery o) /\
       kept_fields o o' /\
       forall env',
         let again := POST_delivery_order_complete hd env' id
                        (set_orders (insert id o') db1) in
         fst again = Respond not_ready /\
         orders (snd again) = <[id := o']> (orders db))
  /\ ((forall o, orders db !! id = Some o ->
         deliveryAgent (order_delivery o) <> Some (fst user)
         \/ order_status o ∉ completion_targets) ->
      POST_delivery_order_complete hd env id db = (Respond not_ready, db1)).
Proof.
  intros Hrun Hrole.
  destruct (protect_frame _ _ _ _ _ Hrun) as (_ & Hord & _).
  assert (Hfirst : POST_delivery_order_complete hd env id db
                   = complete_delivery_handler user env id db1)
    by exact (delivery_route_run _ _ _ _ _ _ Hrun Hrole).
  assert (Hnext : forall env' db2, users db2 = users db1 ->
            POST_delivery_order_complete hd env' id db2
            = complete_delivery_handler (fst user, touch_login (now env') (snd user)) env' id
                (set_users (insert (fst user) (touch_login (now env') (snd user))) db2)).
  { intros env' db2 Husers.
    exact (delivery_route_run _ _ _ _ _ _
             (protect_next_request _ _ _ _ _ env' db2 Hrun Husers) Hrole). }
  rewrite Hfirst, complete_delivery_handler_run, Hord. split.
  - intros o Ho Hagent Hst. rewrite Ho.
    rewrite !bool_decide_eq_true_2 by assumption. cbn [andb].
    destruct (delivered_fields env o) as (Hs & Ha & Hag & Htr & _ & Hk).
    cbn zeta in *. eexists. split; [reflexivity|].
    rewrite Hag, Hagent.
    split; [exact Hs|]. split; [exact Ha|]. split; [reflexivity|].
    split; [exact Htr|]. split; [exact Hk|]. intros env'. cbn zeta.
    match goal with |- context [POST_delivery_order_complete hd env' id ?d] =>
      rewrite (Hnext env' d eq_refl) end.
    rewrite complete_delivery_handler_run.
    cbn [orders set_orders set_users]. rewrite lookup_insert_eq, Hs.
    rewrite (bool_decide_eq_false_2 (delivered ∈ completion_targets)).
    + rewrite andb_false_r. cbn. now rewrite Hord.
    + unfold completion_targets. rewrite !elem_of_cons, elem_of_nil.
      intros [?|[?|[]]]; discriminate.
  - intros Hnot. destruct (orders db !! id) as [o|] eqn:Ho; [|reflexivity].
    destruct (Hnot o eq_refl) as [Hagent|Hst].
    + now rewrite (bool_decide_eq_false_2 _ Hagent).
    + rewrite (bool_decide_eq_false_2 _ Hst). now rewrite andb_false_r.
Qed.

Lemma with_agent_same d a : deliveryAgent d = a -> with_agent a d = d.
Proof. intros <-. now destruct d. Qed.

Lemma PATCH_delivery_order_status_assigned hd env id db user db1 o t est :
  protect hd env db = (Next user, db1) ->
  user_role (snd user) = delivery ->
  orders db !! id = Some o ->
  deliveryAgent (order_delivery o) = Some (fst user) ->
  t ∈ delivery_targets ->
  PATCH_delivery_order_status hd env id
    {| ds_status := status_name t; ds_estimatedDelivery := est |} db =
    let o1 := with_status t o in
    let d1 := match est with
              | Some e => with_estimated (Some e) (order_delivery o1)
              | None => order_delivery o1
              end in
    let d2 := if bool_decide (t = delivered)
              then with_actual (Some (now env)) d1 else d1 in
    let o2 := Order_pre_save env (with_delivery d2 o1) in
    (Respond {| code := 200;
                body := Success (Some "Delivery status updated successfully")
                          (DOrder (id, o2)) |},
     set_orders (insert id o2) db1).
Proof.
  intros Hrun Hrole Ho Hagent Ht.
  destruct (protect_frame _ _ _ _ _ Hrun) as (_ & Hord & _).
  unfold PATCH_delivery_order_status.
  rewrite (delivery_route_run _ _ _ _ _ _ Hrun Hrole), delivery_status_handler_run.
  cbn [ds_status ds_estimatedDelivery].
  rewrite parse_status_name, (bool_decide_eq_true_2 _ Ht), Hord, Ho.
  now rewrite (bool_decide_eq_true_2 _ Hagent).
Qed.

(** X14.  Three pieces of code mark an order as delivered: the completion
    route, the delivery agents' status route with the status delivered, and
    the model method [markAsDelivered].  For the agent an order is assigned
    to, the status route always succeeds and leaves the store that
    [markAsDelivered] leaves.  The completion route leaves that same store
    when the order is confirmed or shipped, and refuses with 404 in every
    other status: its status check does not bind the status route, which
    also delivers a pending, a cancelled or an already delivered order. *)
Theorem three_ways_to_deliver hd env id db user db1 o :
  protect hd env db = (Next user, db1) ->
  user_role (snd user) = delivery ->
  orders db !! id = Some o ->
  deliveryAgent (order_delivery o) = Some (fst user) ->
  let patch := PATCH_delivery_order_status hd env id
                 {| ds_status := "delivered"; ds_estimatedDelivery := None |} db in
  let complete := POST_delivery_order_complete hd env id db in
  let method := Order_markAsDelivered env (id, o) db1 in
  reply_code (fst patch) = Some 200 /\
  snd patch = snd method /\
  (exists o',
     fst method = Next (id, o') /\ orders (snd method) !! id = Some o' /\
     order_status o' = delivered /\
     actualDelivery (order_delivery o') = Some (now env)) /\
  (order_status o ∈ completion_targets ->
   reply_code (fst complete) = Some 200 /\ snd complete = snd patch) /\
  (order_status o ∉ completion_targets -> complete = (Respond not_ready, db1)).
Proof.
  intros Hrun Hrole Ho Hagent. cbn zeta.
  destruct (protect_frame _ _ _ _ _ Hrun) as (_ & Hord & _).
  assert (Hin : delivered ∈ delivery_targets) by (unfold delivery_targets; set_solver).
  pose proof (PATCH_delivery_order_status_assigned hd env id db user db1 o delivered None
                Hrun Hrole Ho Hagent Hin) as Hpatch.
  change (status_name delivered) with "delivered" in Hpatch.
  rewrite Hpatch. cbn zeta. rewrite (bool_decide_eq_true_2 (delivered = delivered) eq_refl).
  unfold Order_markAsDelivered. rewrite Order_save_existing. cbn [fst snd reply_code code].
  destruct (delivered_fields env o) as (Hs & Ha & _). cbn zeta in Hs, Ha.
  split; [reflexivity|]. split; [reflexivity|]. split.
  { eexists. split; [reflexivity|]. cbn [orders set_orders].
    rewrite lookup_insert_eq. repeat split; assumption. }
  unfold POST_delivery_order_complete.
  rewrite (delivery_route_run _ _ _ _ _ _ Hrun Hrole), complete_delivery_handler_run.
  rewrite Hord, Ho, (bool_decide_eq_true_2 _ Hagent). cbn [andb]. split.
  - intros Hst. rewrite (bool_decide_eq_true_2 _ Hst). split; reflexivity.
  - intros Hst. now rewrite (bool_decide_eq_false_2 _ Hst).
Qed.

(** X15.  On [PATCH /api/delivery/orders/:id/status] the status an order
    has plays no part: for the agent it is assigned to, each of the targets
    confirmed, shipped and delivered is stored, on a cancelled or delivered
    order as on any other.  The delivery time is set to the time of the
    request exactly when the target is delivered, the estimated delivery is
    set when the body gives one, the agent, the lines and the customer stay,
    and no product changes (the units that a cancellation gave back are not
    taken again). *)
Theorem delivery_status_ignores_the_current_status hd env id db user db1 o t est :
  protect hd env db = (Next user, db1) ->
  user_role (snd user) = delivery ->
  orders db !! id = Some o ->
  deliveryAgent (order_delivery o) = Some (fst user) ->
  t ∈ delivery_targets ->
  exists o',
    PATCH_delivery_order_status hd env id
      {| ds_status := status_name t; ds_estimatedDelivery := est |} db
    = (Respond {| code := 200;
                  body := Success (Some "Delivery status updated successfully")
                            (DOrder (id, o')) |},
       set_orders (insert id o') db1) /\
    order_status o' = t /\
    actualDelivery (order_delivery o')
    = (if bool_decide (t = delivered) then Some (now env)
       else actualDelivery (order_delivery o)) /\
    estimatedDelivery (order_delivery o')
    = (match est with Some e => Some e | None => estimatedDelivery (order_delivery o) end) /\
    deliveryAgent (order_delivery o') = Some (fst user) /\
    trackingNumber (order_delivery o') = trackingNumber (order_delivery o) /\
    kept_fields o o' /\
    products (set_orders (insert id o') db1) = products db.
Proof.
  intros Hrun Hrole Ho Hagent Ht.
  destruct (protect_frame _ _ _ _ _ Hrun) as (Hprod & _ & _).
  rewrite (PATCH_delivery_order_status_assigned _ _ _ _ _ _ _ _ est Hrun Hrole Ho Hagent Ht).
  cbn zeta. eexists. split; [reflexivity|].
  match goal with |- context [Order_pre_save env ?x] =>
    destruct (Order_pre_save_fields env x) as (_ & Hs & _ & _ & _ & Hd & _);
    pose proof (Order_pre_save_kept env x) as Hk end.
  cbn zeta in Hs, Hd. rewrite Hs, Hd.
  cbn [order_status order_delivery with_delivery with_status].
  split; [reflexivity|].
  split; [destruct (bool_decide (t = delivered)), est; reflexivity|].
  split; [destruct (bool_decide (t = delivered)), est; reflexivity|].
  split; [destruct (bool_decide (t = delivered)), est; exact Hagent|].
  split; [destruct (bool_decide (t = delivered)), est; reflexivity|].
  split; [|exact Hprod].
  exact (kept_fields_trans _ _ _
           (kept_fields_trans _ _ _ (kept_with_status t o)
              (kept_with_delivery _ (with_status t o))) Hk).
Qed.




(** ** Listings, page by page *)

Lemma matching_ext (f g : Filter) db :
  (forall kp, f kp = g kp) -> matching f db = matching g db.
Proof.
  intros Hfg. unfold matching. apply map_filter_ext. intros i x _. now rewrite Hfg.
Qed.

Lemma listing_reply_ext (f g : Filter) q db :
  (forall kp, f kp = g kp) -> listing_reply f q db = listing_reply g q db.
Proof. intros Hfg. unfold listing_reply. now rewrite (matching_ext f g db Hfg). Qed.


Lemma query_run (f : Filter) q (r : Response) db :
  try_catch
    (let* found := Order_find f (q_sort q) ((q_page q - 1) * q_limit q) (q_limit q) in
     let* total := Order_countDocuments f in
     respond {| code := 200;
                body := Success None (DOrders found (q_page q) (q_limit q) total) |})
    (fail 500 "Server error while fetching orders") db
  = listing_reply f q db.
Proof.
  unfold listing_reply, try_catch, bind, Order_find, Order_countDocuments, get_db,
    skip_limit, page_of, matching.
  now destruct (_ <? 0)%Z.
Qed.

Lemma list_orders_handler_run user q db :
  list_orders_handler user q db
  = listing_reply (all_of [active_filter; role_filter user db; status_filter (q_status q)])
      q db.
Proof.
  rewrite <- (query_run _ q (fail 500 "")). reflexivity.
Qed.

Lemma seller_orders_handler_run user q db :
  seller_orders_handler user q db
  = listing_reply (all_of [items_product_in (seller_product_ids (fst user) db);
                           active_filter; status_filter (q_status q)]) q db.
Proof.
  rewrite <- (query_run _ q (fail 500 "")). reflexivity.
Qed.

Lemma delivery_orders_handler_run user q db :
  delivery_orders_handler user q db
  = listing_reply (all_of [agent_filter (fst user); active_filter;
                           status_filter (q_status q)]) q db.
Proof.
  rewrite <- (query_run _ q (fail 500 "")). reflexivity.
Qed.


(** X18.  The sellers' own listing and the delivery agents' own listing
    are the general listing seen by that role: for a seller
    [GET /api/seller/orders] gives the reply of [GET /api/orders], and for a
    delivery agent [GET /api/delivery/orders] does, for every query (page,
    limit, status and sort), error replies included.  The replies are
    compared as the embedding has them, with the orders as they are stored:
    the same orders in the same sequence, the same page, limit and total.
    Which fields of the referenced users and products [populate] copies into
    a reply differs from route to route and is left out. *)
Theorem role_listings_agree hd env q db user db1 :
  protect hd env db = (Next user, db1) ->
  (user_role (snd user) = seller ->
   GET_seller_orders hd env q db = GET_orders hd env q db)
  /\ (user_role (snd user) = delivery ->
      GET_delivery_orders hd env q db = GET_orders hd env q db).
Proof.
  intros Hrun.
  rewrite (GET_orders_authenticated _ _ _ _ _ _ Hrun), list_orders_handler_run.
  split; intros Hrole.
  - rewrite (GET_seller_orders_authenticated _ _ _ _ _ _ Hrun).
    rewrite (bool_decide_eq_true_2 _ Hrole), seller_orders_handler_run.
    apply listing_reply_ext. intros kp. unfold all_of, role_filter. rewrite Hrole. cbn.
    now destruct (items_product_in _ kp), (active_filter kp).
  - unfold GET_delivery_orders, requireDelivery.
    rewrite (role_route_authenticated _ _ _ _ _ _ _ Hrun), includes_role_singleton.
    rewrite (bool_decide_eq_true_2 _ Hrole), delivery_orders_handler_run.
    apply listing_reply_ext. intros kp. unfold all_of, role_filter. rewrite Hrole. cbn.
    now destruct (agent_filter _ kp), (active_filter kp).
Qed.



(** ** Deleted products and deleted users *)

(** A seller has access to an order exactly when one of its lines is a
    stored product of that seller. *)
Lemma seller_access_iff user o db :
  user_role (snd user) = seller ->
  order_access user o db = Granted <->
  exists it q, it ∈ order_items o /\ products db !! item_product it = Some q /\
               product_seller q = fst user.
Proof.
  intros Hrole. unfold order_access. rewrite Hrole.
  case_bool_decide as Hsize; split; try discriminate; try reflexivity.
  - intros _.
    assert (Hne : size (products_of_seller_among (item_products o) (fst user) db) <> 0%nat)
      by lia.
    apply map_size_ne_0_lookup in Hne as (k & q & Hk).
    apply map_lookup_filter_Some in Hk as (Hk & Hin & Hseller). cbn in Hin, Hseller.
    apply list_elem_of_fmap in Hin as (it & -> & Hit).
    exists it, q. repeat split; assumption.
  - intros (it & q & Hit & Hq & Hseller). exfalso. apply Hsize.
    assert (Hne : size (products_of_seller_among (item_products o) (fst user) db) <> 0%nat);
      [|lia].
    apply map_size_ne_0_lookup. exists (item_product it), q.
    apply map_lookup_filter_Some. split; [exact Hq|]. cbn. split; [|exact Hseller].
    unfold item_products. now apply list_elem_of_fmap_2.
Qed.

Lemma seller_access_cases user o db :
  user_role (snd user) = seller ->
  order_access user o db = Granted \/ order_access user o db = Denied.
Proof.
  intros Hrole. unfold order_access. rewrite Hrole.
  case_bool_decide; tauto.
Qed.

Lemma GET_order_authenticated hd env id db user db1 :
  protect hd env db = (Next user, db1) ->
  GET_order hd env id db =
    match checkOrderAccess user id db1 with
    | (Next order, db2) =>
        (Respond {| code := 200; body := Success None (DOrder order) |}, db2)
    | (Respond r, db2) => (Respond r, db2)
    | (Throw, db2) => (Throw, db2)
    end.
Proof.
  intros Hrun. unfold GET_order. rewrite (bind_Next _ _ _ _ _ Hrun).
  unfold bind. now destruct (checkOrderAccess user id db1) as [[order|r|] db2].
Qed.

(** X20.  A seller who deletes a product loses the orders that held it.
    When the product is the seller's only product on a stored order, the
    seller reads the order before the deletion, and after it
    [GET /api/orders/:id] answers 403 to the same seller and no page of
    [GET /api/seller/orders] shows the order any more; the order itself
    stays stored as it was. *)
Theorem deleting_a_product_hides_its_orders hd env env' pid id db user db1 p o :
  protect hd env db = (Next user, db1) ->
  user_role (snd user) = seller ->
  products db !! pid = Some p -> product_seller p = fst user ->
  orders db !! id = Some o ->
  pid ∈ item_products o ->
  (forall it q, it ∈ order_items o -> products db !! item_product it = Some q ->
                product_seller q = fst user -> item_product it = pid) ->
  let db2 := snd (DELETE_seller_product hd env pid db) in
  GET_order hd env id db
  = (Respond {| code := 200; body := Success None (DOrder (id, o)) |}, db1)
  /\ fst (DELETE_seller_product hd env pid db) = Respond product_deleted
  /\ orders db2 !! id = Some o
  /\ fst (GET_order hd env' id db2)
     = Respond (fail 403 "Access denied. You cannot access this order.")
  /\ (forall q r db3 found page limit total,
        GET_seller_orders hd env' q db2 = (Respond r, db3) ->
        body r = Success None (DOrders found page limit total) ->
        (id, o) ∉ found).
Proof.
  intros Hrun Hrole Hp Hown Ho Hin Honly db2.
  destruct (protect_frame _ _ _ _ _ Hrun) as (Hprod & Hord & _).
  assert (Hdb2 : DELETE_seller_product hd env pid db
                 = (Respond product_deleted, set_products (delete pid) db1)).
  { rewrite (DELETE_seller_product_authenticated _ _ _ _ _ _ Hrun).
    rewrite (bool_decide_eq_true_2 _ Hrole), seller_delete_product_handler_run.
    rewrite Hprod, Hp. now rewrite (bool_decide_eq_true_2 _ Hown). }
  subst db2. rewrite Hdb2. cbn [fst snd].
  pose proof (protect_next_request hd env db user db1 env'
                (set_products (delete pid) db1) Hrun eq_refl) as Hrun2.
  set (user2 := (fst user, touch_login (now env') (snd user))) in *.
  set (db3 := set_users (insert (fst user) (touch_login (now env') (snd user)))
                (set_products (delete pid) db1)) in *.
  assert (Hrole2 : user_role (snd user2) = seller) by exact Hrole.
  assert (Hord3 : orders db3 = orders db) by exact Hord.
  assert (Hprod3 : products db3 = delete pid (products db))
    by (cbn; now rewrite Hprod).
  assert (Hnone : forall it q, it ∈ order_items o ->
            products db3 !! item_product it = Some q ->
            product_seller q = fst user2 -> False).
  { intros it q Hit Hq Hseller. rewrite Hprod3 in Hq.
    apply lookup_delete_Some in Hq as [Hne Hq].
    apply Hne. symmetry. exact (Honly it q Hit Hq Hseller). }
  split; [|split; [reflexivity|split; [cbn; now rewrite Hord|split]]].
  - rewrite (GET_order_authenticated _ _ _ _ _ _ Hrun).
    rewrite <- Hord in Ho. rewrite (checkOrderAccess_stored _ _ _ _ Ho).
    assert (Hacc : order_access user o db1 = Granted).
    { apply (seller_access_iff _ _ _ Hrole).
      unfold item_products in Hin. apply list_elem_of_fmap in Hin as (it & -> & Hit).
      exists it, p. rewrite Hprod. repeat split; assumption. }
    now rewrite Hacc.
  - rewrite (GET_order_authenticated _ _ _ _ _ _ Hrun2).
    assert (Ho3 : orders db3 !! id = Some o) by (now rewrite Hord3).
    rewrite (checkOrderAccess_stored _ _ _ _ Ho3).
    destruct (seller_access_cases user2 o db3 Hrole2) as [Hacc|Hacc]; rewrite Hacc.
    + exfalso. apply (seller_access_iff _ _ _ Hrole2) in Hacc as (it & q & Hit & Hq & Hs).
      exact (Hnone it q Hit Hq Hs).
    + reflexivity.
  - intros q r db4 found page limit total Hget Hbody Hfound.
    rewrite (GET_seller_orders_authenticated _ _ _ _ _ _ Hrun2) in Hget.
    rewrite (bool_decide_eq_true_2 _ Hrole2) in Hget.
    destruct (seller_orders_handler_inv _ _ _ _ _ _ _ _ _ Hget Hbody _ Hfound) as (_ & Hf).
    apply items_product_in_seller in Hf as (it & q' & Hit & Hq & Hs).
    exact (Hnone it q' Hit Hq Hs).
Qed.

Lemma delete_user_handler_run user id db :
  delete_user_handler user id db =
    match users db !! id with
    | None => (Respond (fail 404 "User not found"), db)
    | Some _ =>
        if bool_decide (id = fst user)
        then (Respond (fail 400 "Cannot delete your own account"), db)
        else (Respond user_deleted, set_users (delete id) db)
    end.
Proof.
  unfold delete_user_handler, try_catch, User_findById, bind, get_db, ret. cbn.
  destruct (users db !! id); cbn; [|reflexivity].
  now destruct (bool_decide (id = fst user)).
Qed.

Lemma DELETE_admin_user_authenticated hd env id db user db1 :
  protect hd env db = (Next user, db1) ->
  DELETE_admin_user hd env id db =
    if bool_decide (user_role (snd user) = admin)
    then delete_user_handler user id db1
    else (Respond (fail 403 "Access denied. Required role: admin"), db1).
Proof.
  intros Hrun. unfold DELETE_admin_user, requireAdmin.
  rewrite (role_route_authenticated _ _ _ _ _ _ _ Hrun), includes_role_singleton.
  reflexivity.
Qed.

(** X21.  [DELETE /api/admin/users/:id] is for admins, and an admin cannot
    delete the own account: that request is answered 400 and the account
    stays.  An id that names no user is answered 404.  Any other user is
    removed, and only that user; the orders and products stay.  From then
    on every request with the removed user's credential is answered 401 by
    [protect], while [verifyToken] still accepts the credential. *)
Theorem admin_deletes_other_users hd env id db user db1 :
  protect hd env db = (Next user, db1) ->
  (user_role (snd user) <> admin ->
   DELETE_admin_user hd env id db
   = (Respond (fail 403 "Access denied. Required role: admin"), db1))
  /\ (user_role (snd user) = admin ->
      (id = fst user ->
       DELETE_admin_user hd env id db
       = (Respond (fail 400 "Cannot delete your own account"), db1) /\
       is_Some (users db1 !! id))
      /\ (users db !! id = None ->
          DELETE_admin_user hd env id db = (Respond (fail 404 "User not found"), db1))
      /\ (id <> fst user -> is_Some (users db !! id) ->
          let db2 := set_users (delete id) db1 in
          DELETE_admin_user hd env id db = (Respond user_deleted, db2) /\
          users db2 !! id = None /\
          (forall k, k <> id -> users db2 !! k = users db1 !! k) /\
          orders db2 = orders db /\ products db2 = products db /\
          forall hd' env' u,
            resolves hd' db id u ->
            protect hd' env' db2 = (Respond (fail 401 "User not found"), db2) /\
            verifyToken hd' db2 = (Next id, db2))).
Proof.
  intros Hrun.
  destruct (protect_frame _ _ _ _ _ Hrun) as (Hprod & Hord & _).
  destruct (protect_Next_inv _ _ _ _ _ Hrun) as (a & Hres & Ha & Hdb1).
  rewrite (DELETE_admin_user_authenticated _ _ _ _ _ _ Hrun).
  split.
  - intros Hrole. now rewrite (bool_decide_eq_false_2 _ Hrole).
  - intros Hrole. rewrite (bool_decide_eq_true_2 _ Hrole), delete_user_handler_run.
    split; [|split].
    + intros ->. rewrite Hdb1. cbn. rewrite lookup_insert_eq.
      rewrite bool_decide_eq_true_2 by reflexivity. split; [reflexivity|eauto].
    + intros Hnone.
      assert (Hne : fst user <> id).
      { intros <-. destruct Hres as (? & ? & _ & _ & _ & _ & _ & Hu & _). congruence. }
      rewrite Hdb1. cbn. now rewrite lookup_insert_ne, Hnone.
    + intros Hne [t Ht]. cbn zeta.
      assert (Hlook : users db1 !! id = Some t).
      { rewrite Hdb1. cbn. rewrite lookup_insert_ne by congruence. exact Ht. }
      rewrite Hlook, (bool_decide_eq_false_2 _ Hne).
      split; [reflexivity|]. split; [cbn; apply lookup_delete_eq|].
      split; [intros k Hk; cbn; now apply lookup_delete_ne|].
      split; [exact Hord|]. split; [exact Hprod|].
      intros hd' env' u (h & tok & Hh & Hpre & Htok & Hempty & Hv & _).
      split.
      * unfold protect. rewrite Hh, Hpre, Htok. apply try_catch_Respond.
        unfold verify_token. rewrite Hempty, Hv.
        unfold bind, ret, User_findById, get_db. cbn.
        now rewrite lookup_delete_eq.
      * rewrite verifyToken_run. now rewrite Hh, Hpre, Htok, Hempty, Hv.
Qed.

(** X22.  An order whose customer is no longer stored cannot be read by
    any customer: [checkOrderAccess] fails on the customer reference that
    [populate] left [null] and answers 500, on each of the four routes on
    which a customer reaches it (reading, updating, cancelling, tracking).
    An admin still reads the order. *)
Theorem orders_of_a_deleted_customer hd env id db user db1 o :
  protect hd env db = (Next user, db1) ->
  orders db !! id = Some o ->
  users db !! order_customer o = None ->
  (user_role (snd user) = customer ->
   GET_order hd env id db = (Respond (fail 500 "Server error"), db1) /\
   (forall u, PUT_order hd env id u db = (Respond (fail 500 "Server error"), db1)) /\
   DELETE_order hd env id db = (Respond (fail 500 "Server error"), db1) /\
   (forall tr, POST_order_tracking hd env id tr db
               = (Respond (fail 500 "Server error"), db1)))
  /\ (user_role (snd user) = admin ->
      GET_order hd env id db
      = (Respond {| code := 200; body := Success None (DOrder (id, o)) |}, db1)).
Proof.
  intros Hrun Ho Hgone.
  destruct (protect_frame _ _ _ _ _ Hrun) as (_ & Hord & _).
  destruct (protect_Next_inv _ _ _ _ _ Hrun) as (a & Hres & Ha & Hdb1).
  rewrite <- Hord in Ho.
  pose proof (checkOrderAccess_stored user id db1 o Ho) as Hcheck.
  split.
  - intros Hrole.
    assert (Hacc : order_access user o db1 = Crashed).
    { unfold order_access. rewrite Hrole.
      assert (Hne : fst user <> order_customer o).
      { intros Heq. destruct Hres as (? & ? & _ & _ & _ & _ & _ & Hu & _).
        rewrite Heq in Hu. congruence. }
      rewrite Hdb1. cbn. now rewrite lookup_insert_ne, Hgone. }
    rewrite Hacc in Hcheck.
    split; [|split; [|split]].
    + rewrite (GET_order_authenticated _ _ _ _ _ _ Hrun). now rewrite Hcheck.
    + intros u. rewrite (PUT_order_authenticated _ _ _ _ _ _ _ Hrun). now rewrite Hcheck.
    + rewrite (DELETE_order_authenticated _ _ _ _ _ _ Hrun). now rewrite Hcheck.
    + intros tr. rewrite (POST_order_tracking_authenticated _ _ _ _ _ _ _ Hrun).
      now rewrite Hcheck.
  - intros Hrole.
    assert (Hacc : order_access user o db1 = Granted)
      by (unfold order_access; now rewrite Hrole).
    rewrite Hacc in Hcheck.
    rewrite (GET_order_authenticated _ _ _ _ _ _ Hrun). now rewrite Hcheck.
Qed.

(** ** Stock status *)

(** X23.  The low-stock listing and the stock status of a product agree:
    with the default threshold, [findLowStock] returns exactly the active
    products whose [stockStatus] is not [in_stock].  With a threshold it
    returns the active products whose stock is at most the threshold, and a
    larger threshold returns at least as much.  A stock below zero, which
    the creation of an order can leave, reads as [low_stock], not as
    [out_of_stock]: that status is kept for a stock of exactly zero. *)
Theorem low_stock_listing_matches_the_status db id p :
  (Product_findLowStock None db !! id = Some p <->
   products db !! id = Some p /\ product_isActive p = true /\ stockStatus p <> in_stock)
  /\ (forall t,
        Product_findLowStock (Some t) db !! id = Some p <->
        products db !! id = Some p /\ product_isActive p = true /\ product_stock p <= t)
  /\ (forall t t', t <= t' ->
        Product_findLowStock (Some t) db ⊆ Product_findLowStock (Some t') db)
  /\ (product_stock p < 0 -> stockStatus p = low_stock)
  /\ (stockStatus p = out_of_stock <-> product_stock p = 0).
Proof.
  split; [|split; [|split; [|split]]].
  - unfold Product_findLowStock. rewrite map_lookup_filter_Some. cbn.
    unfold stockStatus.
    destruct (product_stock p =? 0)%Z eqn:H0; [apply Z.eqb_eq in H0|apply Z.eqb_neq in H0];
      destruct (product_stock p <=? 5)%Z eqn:H5;
      try apply Z.leb_le in H5; try apply Z.leb_gt in H5;
      split; intros (Hp & A & B); repeat split; try assumption; try lia; try discriminate.
    contradiction.
  - intros t. unfold Product_findLowStock. rewrite map_lookup_filter_Some. cbn. tauto.
  - intros t t' Hle. unfold Product_findLowStock.
    apply map_filter_subseteq_ext. intros k q _ [Hst Hact]. cbn in *. split; [lia|exact Hact].
  - intros Hneg. unfold stockStatus.
    destruct (product_stock p =? 0)%Z eqn:H0; [apply Z.eqb_eq in H0; lia|].
    destruct (product_stock p <=? 5)%Z eqn:H5; [reflexivity|apply Z.leb_gt in H5; lia].
  - unfold stockStatus.
    destruct (product_stock p =? 0)%Z eqn:H0; [apply Z.eqb_eq in H0|apply Z.eqb_neq in H0].
    + tauto.
    + destruct (product_stock p <=? 5)%Z; split; (discriminate || contradiction).
Qed.

(** ** The status buttons of the front end *)

(** X24.  The front end offers only status changes that the back end
    accepts.  The button of an order card is offered to an admin, to a
    seller on a pending order and to a delivery agent on a confirmed or
    shipped order, never to a customer; the status it sends is the next one
    in the chain pending, confirmed, shipped, delivered, and it is on the
    list of targets that [PATCH /api/orders/:id/status] holds for the role.
    For a delivery agent the card offers what the two buttons of the
    delivery dashboard offer, and pressing a dashboard button on an order
    assigned to the agent is answered 200 and stores the status sent. *)
Theorem front_end_buttons_send_accepted_targets :
  (forall role st t,
     card_button role st = Some t ->
     target_allowed role t = true /\ getNextStatus st = Some t /\
     role <> customer /\
     (role = seller -> st = pending /\ t = confirmed) /\
     (role = delivery -> dashboard_button st = Some t))
  /\ (forall st, card_button delivery st = dashboard_button st)
  /\ (forall hd env id db user db1 o t,
        protect hd env db = (Next user, db1) ->
        user_role (snd user) = delivery ->
        orders db !! id = Some o ->
        deliveryAgent (order_delivery o) = Some (fst user) ->
        dashboard_button (order_status o) = Some t ->
        exists r db' o',
          PATCH_delivery_order_status hd env id
            {| ds_status := status_name t; ds_estimatedDelivery := None |} db
          = (Respond r, db') /\
          code r = 200 /\ orders db' !! id = Some o' /\ order_status o' = t).
Proof.
  split; [|split].
  - intros role st t. destruct role, st; vm_compute; intros [= <-];
      repeat split; try discriminate; try reflexivity.
  - intros st. now destruct st.
  - intros hd env id db user db1 o t Hrun Hrole Ho Hagent Hbutton.
    assert (Ht : t ∈ delivery_targets).
    { unfold delivery_targets. destruct (order_status o); cbn in Hbutton;
        try discriminate; injection Hbutton as <-; set_solver. }
    rewrite (PATCH_delivery_order_status_assigned _ _ _ _ _ _ _ _ None
               Hrun Hrole Ho Hagent Ht).
    cbn zeta. eexists _, _, _. split; [reflexivity|]. split; [reflexivity|].
    cbn [orders set_orders]. rewrite lookup_insert_eq. split; [reflexivity|].
    match goal with |- context [Order_pre_save env ?x] =>
      destruct (Order_pre_save_fields env x) as (_ & Hs & _) end.
    cbn zeta in Hs. rewrite Hs. reflexivity.
Qed.

(** ** The cart *)

Lemma cartCount_acc l a :
  fold_left (fun total item => total + cart_quantity item) l a = a + cartCount l.
Proof.
  unfold cartCount. revert a. induction l as [|x l IH]; intros a; cbn [fold_left]; [lia|].
  rewrite (IH (a + cart_quantity x)), (IH (0 + cart_quantity x)). lia.
Qed.

Lemma cartCount_cons x l : cartCount (x :: l) = cart_quantity x + cartCount l.
Proof. unfold cartCount at 1. cbn. now rewrite cartCount_acc. Qed.

Lemma cartCount_app l1 l2 : cartCount (l1 ++ l2) = cartCount l1 + cartCount l2.
Proof.
  induction l1 as [|x l1 IH]; [reflexivity|].
  cbn [app]. rewrite !cartCount_cons, IH. lia.
Qed.

Lemma getCartItem_notin id l : id ∉ cart_id <$> l -> getCartItem id l = None.
Proof.
  induction l as [|x l IH]; [reflexivity|].
  cbn [fmap list_fmap]. rewrite not_elem_of_cons. intros [Hne Hl].
  unfold getCartItem. cbn. rewrite bool_decide_eq_false_2 by congruence. now apply IH.
Qed.

Lemma getCartItem_None id l : getCartItem id l = None -> id ∉ cart_id <$> l.
Proof.
  induction l as [|x l IH]; [intros _; apply not_elem_of_nil|].
  unfold getCartItem. cbn. case_bool_decide as Hx; [discriminate|].
  intros Hl. cbn [fmap list_fmap]. apply not_elem_of_cons. split; [congruence|now apply IH].
Qed.

Lemma getCartItem_app id (l1 l2 : list CartItem) :
  getCartItem id (l1 ++ l2)
  = match getCartItem id l1 with
    | Some x => Some x
    | None => getCartItem id l2
    end.
Proof.
  induction l1 as [|x l1 IH]; [reflexivity|].
  unfold getCartItem in *. cbn [app List.find].
  now destruct (bool_decide (cart_id x = id)).
Qed.

Section Bump.
Variable f : Z -> Z.
Variable id : ObjectId.

Local Abbreviation bump :=
  (fun item : CartItem =>
     if bool_decide (cart_id item = id) then with_quantity (f (cart_quantity item)) item
     else item).

Lemma bump_ids (l : list CartItem) : cart_id <$> (bump <$> l) = cart_id <$> l.
Proof.
  induction l as [|x l IH]; [reflexivity|].
  cbn [fmap list_fmap] in *. rewrite IH. f_equal. now case_bool_decide.
Qed.

Lemma bump_get_same (l : list CartItem) :
  cart_quantity <$> getCartItem id (bump <$> l)
  = f <$> (cart_quantity <$> getCartItem id l).
Proof.
  induction l as [|x l IH]; [reflexivity|].
  rewrite fmap_cons. unfold getCartItem in *. cbn [List.find].
  destruct (decide (cart_id x = id)) as [Hx|Hx].
  - rewrite !(bool_decide_eq_true_2 _ Hx). reflexivity.
  - rewrite !(bool_decide_eq_false_2 _ Hx). exact IH.
Qed.

Lemma bump_get_other id' (l : list CartItem) :
  id' <> id -> getCartItem id' (bump <$> l) = getCartItem id' l.
Proof.
  intros Hne. induction l as [|x l IH]; [reflexivity|].
  rewrite fmap_cons. unfold getCartItem in *. cbn [List.find].
  destruct (decide (cart_id x = id)) as [Hx|Hx].
  - rewrite (bool_decide_eq_true_2 _ Hx). cbn [with_quantity cart_id].
    rewrite !bool_decide_eq_false_2 by congruence. exact IH.
  - rewrite (bool_decide_eq_false_2 _ Hx).
    destruct (bool_decide (cart_id x = id')); [reflexivity|exact IH].
Qed.

Lemma bump_absent (l : list CartItem) : id ∉ cart_id <$> l -> bump <$> l = l.
Proof.
  induction l as [|x l IH]; [reflexivity|].
  cbn [fmap list_fmap]. rewrite not_elem_of_cons. intros [Hne Hl].
  rewrite bool_decide_eq_false_2 by congruence. f_equal. now apply IH.
Qed.

Lemma bump_count (l : list CartItem) :
  NoDup (cart_id <$> l) ->
  cartCount (bump <$> l)
  = cartCount l + match getCartItem id l with
                  | Some x => f (cart_quantity x) - cart_quantity x
                  | None => 0
                  end.
Proof.
  induction l as [|x l IH]; [reflexivity|].
  rewrite !fmap_cons. intros [Hx Hl]%NoDup_cons.
  rewrite !cartCount_cons. unfold getCartItem. cbn [List.find].
  destruct (decide (cart_id x = id)) as [Hid|Hid].
  - rewrite !(bool_decide_eq_true_2 _ Hid). rewrite Hid in Hx.
    rewrite (bump_absent l Hx). cbn [with_quantity cart_quantity]. lia.
  - rewrite !(bool_decide_eq_false_2 _ Hid). fold (getCartItem id l).
    rewrite (IH Hl). lia.
Qed.

End Bump.

Lemma remove_ids_sub id l x :
  x ∈ cart_id <$> removeFromCart id l -> x ∈ cart_id <$> l /\ x <> id.
Proof.
  induction l as [|y l IH]; [intros Hx; now apply elem_of_nil in Hx|].
  unfold removeFromCart in *. cbn [List.filter].
  case_bool_decide as Hy; cbn [negb fmap list_fmap].
  - intros Hx. destruct (IH Hx) as [Hin Hne]. split; [now apply elem_of_cons; right|exact Hne].
  - rewrite !elem_of_cons. intros [->|Hx]; [split; [now left|exact Hy]|].
    destruct (IH Hx) as [Hin Hne]. split; [now right|exact Hne].
Qed.

Lemma remove_NoDup id l :
  NoDup (cart_id <$> l) -> NoDup (cart_id <$> removeFromCart id l).
Proof.
  induction l as [|y l IH]; [intros _; constructor|].
  cbn [fmap list_fmap]. intros [Hy Hl]%NoDup_cons.
  unfold removeFromCart in *. cbn [List.filter].
  case_bool_decide as Hid; cbn [negb fmap list_fmap]; [now apply IH|].
  apply NoDup_cons. split; [|now apply IH].
  intros Hin. apply Hy. now apply (remove_ids_sub id l).
Qed.

Lemma remove_get_other id id' l :
  id' <> id -> getCartItem id' (removeFromCart id l) = getCartItem id' l.
Proof.
  intros Hne. induction l as [|y l IH]; [reflexivity|].
  unfold removeFromCart, getCartItem in *. cbn [List.filter List.find].
  case_bool_decide as Hid; cbn [negb List.find].
  - rewrite bool_decide_eq_false_2 by congruence. exact IH.
  - destruct (bool_decide (cart_id y = id')); [reflexivity|exact IH].
Qed.

Lemma remove_absent id l : id ∉ cart_id <$> l -> removeFromCart id l = l.
Proof.
  induction l as [|y l IH]; [reflexivity|].
  cbn [fmap list_fmap]. rewrite not_elem_of_cons. intros [Hne Hl].
  unfold removeFromCart in *. cbn [List.filter].
  rewrite bool_decide_eq_false_2 by congruence. cbn [negb]. f_equal. now apply IH.
Qed.

Lemma remove_count id l :
  NoDup (cart_id <$> l) ->
  cartCount (removeFromCart id l)
  = cartCount l - default 0 (cart_quantity <$> getCartItem id l).
Proof.
  induction l as [|y l IH]; [reflexivity|].
  cbn [fmap list_fmap]. intros [Hy Hl]%NoDup_cons.
  unfold getCartItem. cbn [List.find].
  change (removeFromCart id (y :: l))
    with (if negb (bool_decide (cart_id y = id)) then y :: removeFromCart id l
          else removeFromCart id l).
  case_bool_decide as Hid; cbn [negb].
  - rewrite Hid in Hy. rewrite (remove_absent id l Hy), cartCount_cons. cbn. lia.
  - fold (getCartItem id l). rewrite !cartCount_cons, (IH Hl). lia.
Qed.

(** X25.  The cart holds at most one line for a product, and its counter
    follows its lines.  From a cart whose lines name pairwise distinct
    products, [addToCart] raises the quantity of the product's line by the
    quantity added (one when none is given) or appends a line with that
    quantity, and the count of the cart grows by the same number;
    [removeFromCart] drops the product's line and lowers the count by its
    quantity; [updateQuantity] with a quantity of zero or less is
    [removeFromCart], and with a positive quantity sets the quantity of the
    line that is there and adds none.  Each of them leaves the lines of the
    other products as they were and the products pairwise distinct. *)
Theorem cart_keeps_one_line_per_product cart :
  NoDup (cart_id <$> cart) ->
  (forall product quantity,
     let cart' := addToCart product quantity cart in
     NoDup (cart_id <$> cart') /\
     cartCount cart' = cartCount cart + default 1 quantity /\
     cart_quantity <$> getCartItem (fst product) cart'
     = Some (default 0 (cart_quantity <$> getCartItem (fst product) cart)
             + default 1 quantity) /\
     (forall id, id <> fst product -> getCartItem id cart' = getCartItem id cart))
  /\ (forall id,
        let cart' := removeFromCart id cart in
        NoDup (cart_id <$> cart') /\
        getCartItem id cart' = None /\
        cartCount cart' = cartCount cart - default 0 (cart_quantity <$> getCartItem id cart) /\
        (forall id', id' <> id -> getCartItem id' cart' = getCartItem id' cart))
  /\ (forall id q,
        let cart' := updateQuantity id q cart in
        NoDup (cart_id <$> cart') /\
        (q <= 0 -> cart' = removeFromCart id cart) /\
        (0 < q ->
         cart_quantity <$> getCartItem id cart' = (fun _ => q) <$> getCartItem id cart) /\
        (forall id', id' <> id -> getCartItem id' cart' = getCartItem id' cart)).
Proof.
  intros Hnodup. split; [|split].
  - intros [pid p] quantity. cbn zeta. unfold addToCart. cbn [fst snd].
    set (q := default 1 quantity).
    destruct (getCartItem pid cart) as [x|] eqn:Hget.
    + split; [now rewrite (bump_ids (fun n => n + q) pid)|].
      split; [rewrite (bump_count (fun n => n + q) pid cart Hnodup), Hget; lia|].
      split; [rewrite (bump_get_same (fun n => n + q) pid), Hget; reflexivity|].
      intros id Hne. now apply (bump_get_other (fun n => n + q) pid).
    + pose proof (getCartItem_None _ _ Hget) as Hnotin.
      split; [|split; [|split]].
      * rewrite fmap_app. apply NoDup_app. split; [exact Hnodup|].
        split; [|apply NoDup_singleton].
        intros y Hy Hy'. cbn in Hy'. apply list_elem_of_singleton in Hy'. congruence.
      * rewrite cartCount_app. unfold cartCount at 2. cbn. lia.
      * rewrite getCartItem_app, Hget. unfold getCartItem. cbn.
        rewrite bool_decide_eq_true_2 by reflexivity. reflexivity.
      * intros id Hne. rewrite getCartItem_app.
        destruct (getCartItem id cart); [reflexivity|]. unfold getCartItem. cbn.
        now rewrite bool_decide_eq_false_2 by congruence.
  - intros id. cbn zeta.
    split; [now apply remove_NoDup|].
    split; [|split; [now apply remove_count|intros id' Hne; now apply remove_get_other]].
    apply getCartItem_notin. intros Hin. now apply remove_ids_sub in Hin as [_ Hne].
  - intros id q. cbn zeta. unfold updateQuantity.
    destruct (q <=? 0)%Z eqn:Hq; [apply Z.leb_le in Hq|apply Z.leb_gt in Hq].
    + split; [now apply remove_NoDup|]. split; [reflexivity|].
      split; [lia|]. intros id' Hne. now apply remove_get_other.
    + split; [now rewrite (bump_ids (fun _ => q) id)|]. split; [lia|].
      split.
      * intros _. rewrite (bump_get_same (fun _ => q) id).
        now destruct (getCartItem id cart).
      * intros id' Hne. now apply (bump_get_other (fun _ => q) id).
Qed.

(** ** The methods of the order model *)

Lemma with_delivery_same o : with_delivery (order_delivery o) o = o.
Proof. now destruct o. Qed.

Lemma delivery_access_agent user o db :
  user_role (snd user) = delivery ->
  order_access user o db = Granted ->
  deliveryAgent (order_delivery o) = Some (fst user).
Proof.
  intros Hrole Hacc. unfold order_access in Hacc. rewrite Hrole in Hacc.
  destruct (deliveryAgent (order_delivery o)) as [ag|]; [|discriminate].
  destruct (users db !! ag); [|discriminate].
  case_bool_decide; [congruence|discriminate].
Qed.

Lemma status_written_with_access user t o db :
  order_access user o db = Granted ->
  status_written user t o = with_status t o.
Proof.
  intros Hacc. unfold status_written.
  destruct (bool_decide (t = shipped)); [|reflexivity]. cbn [andb].
  case_bool_decide as Hrole; [|reflexivity].
  pose proof (delivery_access_agent _ _ _ Hrole Hacc) as Hagent.
  rewrite (with_agent_same (order_delivery o) (Some (fst user)) Hagent).
  change (order_delivery o) with (order_delivery (with_status t o)).
  apply with_delivery_same.
Qed.


(** ** Role checks *)

(** Evaluates the tests on a role that is a constructor. *)
Ltac compute_role_tests :=
  repeat match goal with
  | |- context [includes_role ?l ?r] =>
      let b := eval vm_compute in (includes_role l r) in
      change (includes_role l r) with b
  | |- context [@bool_decide (@eq Role ?a ?b) ?d] =>
      let v := eval vm_compute in (@bool_decide (@eq Role a b) d) in
      change (@bool_decide (@eq Role a b) d) with v
  end.

(** X27.  The checks for admins and sellers agree.  For a user whom
    [protect] admitted, [canManageProducts], [canViewAnalytics] and
    [requireAdminOrSeller] let the request through for the same roles,
    admin and seller; [canManageOrders] lets through everyone but a
    customer, which are the roles for which [requireCustomer] refuses; and
    exactly one of [requireAdmin], [requireSeller], [requireCustomer] and
    [requireDelivery] lets the user through. *)
Theorem role_checks_agree hd env db user db1 :
  protect hd env db = (Next user, db1) ->
  let role := user_role (snd user) in
  (canManageProducts user db1 = (Next tt, db1) <-> role = admin \/ role = seller)
  /\ (canViewAnalytics user db1 = (Next tt, db1) <-> role = admin \/ role = seller)
  /\ (requireAdminOrSeller hd env db1 = (Next user, db1) <-> role = admin \/ role = seller)
  /\ (requireAdminOrDelivery hd env db1 = (Next user, db1)
      <-> role = admin \/ role = delivery)
  /\ (canManageOrders user db1 = (Next tt, db1) <-> role <> customer)
  /\ (requireCustomer hd env db1 = (Next user, db1) <-> role = customer)
  /\ (requireAdmin hd env db1 = (Next user, db1) <-> role = admin)
  /\ (requireSeller hd env db1 = (Next user, db1) <-> role = seller)
  /\ (requireDelivery hd env db1 = (Next user, db1) <-> role = delivery).
Proof.
  intros Hrun role.
  unfold requireAdminOrSeller, requireAdminOrDelivery, requireCustomer, requireAdmin,
    requireSeller, requireDelivery.
  rewrite !(requireRole_after_protect _ _ _ _ _ _ Hrun).
  unfold canManageProducts, canViewAnalytics, canManageOrders. subst role.
  destruct user as [uid u]. cbn [snd].
  destruct (user_role u); compute_role_tests; cbn [orb negb];
    repeat split; intros; try discriminate; try tauto; try congruence;
    try (destruct_or?; discriminate).
Qed.

(** ** Saving again *)

Lemma gen_orderNumber_numbered env o :
  is_empty (orderNumber (gen_orderNumber env o)) = false.
Proof.
  unfold gen_orderNumber. destruct (is_empty (orderNumber o)) eqn:Hempty;
    [reflexivity|exact Hempty].
Qed.

Lemma calc_totals_number o : orderNumber (calc_totals o) = orderNumber o.
Proof. unfold calc_totals. now destruct (order_items o). Qed.

Lemma calc_totals_idem o : calc_totals (calc_totals o) = calc_totals o.
Proof.
  unfold calc_totals. destruct (order_items o) eqn:Hitems; rewrite ?Hitems; cbn;
    rewrite ?Hitems; reflexivity.
Qed.

Lemma Order_pre_save_numbered env o : is_empty (orderNumber (Order_pre_save env o)) = false.
Proof.
  unfold Order_pre_save. rewrite calc_totals_number. apply gen_orderNumber_numbered.
Qed.

Lemma Order_pre_save_idem env env' o :
  Order_pre_save env' (Order_pre_save env o) = Order_pre_save env o.
Proof.
  unfold Order_pre_save at 1. unfold gen_orderNumber at 1.
  rewrite Order_pre_save_numbered. unfold Order_pre_save. apply calc_totals_idem.
Qed.

(** X28.  Saving an order a second time changes nothing.  The document
    that [save] returns has an order number, and a later [save] of that
    document, at any later time, keeps the number, the subtotal and the
    total, returns the same document and leaves the store as the first
    [save] left it: the number is generated once, and the totals are a
    function of the lines, the tax and the shipping cost. *)
Theorem saving_twice_is_saving_once env env' isNew doc db saved db1 :
  Order_save env isNew doc db = (Next saved, db1) ->
  Order_save env' false saved db1 = (Next saved, db1) /\
  is_empty (orderNumber (snd saved)) = false /\
  orders db1 !! fst saved = Some (snd saved) /\
  totals_consistent (snd saved).
Proof.
  intros Hsave.
  assert (Hres : saved = (fst doc, Order_pre_save env (snd doc)) /\
                 db1 = set_orders (insert (fst doc) (Order_pre_save env (snd doc))) db).
  { destruct isNew.
    - rewrite Order_save_new in Hsave.
      destruct (bool_decide _ || _); [discriminate|].
      injection Hsave as <- <-. split; reflexivity.
    - rewrite Order_save_existing in Hsave.
      injection Hsave as <- <-. split; reflexivity. }
  destruct Hres as [-> ->]. cbn [fst snd].
  split; [|split; [apply Order_pre_save_numbered|
           split; [cbn; apply lookup_insert_eq|apply totals_consistent_saved]]].
  rewrite Order_save_existing. cbn [fst snd]. rewrite Order_pre_save_idem.
  f_equal. destruct db as [us ps os]. unfold set_orders. cbn.
  now rewrite insert_insert_eq.
Qed.

(** ** Orders through several requests *)

Lemma seller_access_frame user user' o o' db db' :
  user_role (snd user) = seller -> user_role (snd user') = seller ->
  fst user' = fst user -> order_items o' = order_items o ->
  products db' = products db ->
  order_access user o db = Granted -> order_access user' o' db' = Granted.
Proof.
  intros Hrole Hrole' Hid Hitems Hprod Hacc.
  apply (seller_access_iff _ _ _ Hrole) in Hacc as (it & q & Hit & Hq & Hs).
  apply (seller_access_iff _ _ _ Hrole'). exists it, q.
  rewrite Hitems, Hprod, Hid. repeat split; assumption.
Qed.

(** X29.  A cancelled order can be opened again and cancelled again, and
    the second cancellation gives its units back once more.  An admin, or a
    seller with a product on the order, sets a cancelled order to pending
    through [PATCH /api/orders/:id/status]; the cancel request that follows
    is answered 200, and every product gets the units of the order added to
    its stock and taken from its sales counter, as at the first
    cancellation. *)
Theorem reopened_order_gives_its_units_back_again hd env env' id db user db1 o :
  protect hd env db = (Next user, db1) ->
  user_role (snd user) = admin \/ user_role (snd user) = seller ->
  orders db !! id = Some o ->
  order_access user o db1 = Granted ->
  order_status o = cancelled ->
  let reopened := PATCH_order_status hd env id "pending" db in
  reply_code (fst reopened) = Some 200 /\
  order_status <$> orders (snd reopened) !! id = Some pending /\
  products (snd reopened) = products db /\
  exists db3,
    DELETE_order hd env' id (snd reopened) = (Respond cancelled_reply, db3) /\
    order_status <$> orders db3 !! id = Some cancelled /\
    forall pid,
      products db3 !! pid
      = inc_stock_sales (ordered pid (order_items o)) (- ordered pid (order_items o))
          <$> products db !! pid.
Proof.
  intros Hrun Hrole Ho Hacc Hst reopened.
  destruct (protect_frame _ _ _ _ _ Hrun) as (Hprod & Hord & _).
  rewrite <- Hord in Ho.
  assert (Hnc : user_role (snd user) <> customer)
    by (destruct Hrole as [-> | ->]; discriminate).
  assert (Hallowed : target_allowed (user_role (snd user)) pending = true)
    by (destruct Hrole as [-> | ->]; reflexivity).
  assert (Hpatch : reopened
                   = (Respond (status_reply (id, Order_pre_save env (with_status pending o))),
                      set_orders (insert id (Order_pre_save env (with_status pending o))) db1)).
  { subst reopened. change "pending" with (status_name pending).
    rewrite (PATCH_order_status_authenticated _ _ _ _ _ _ _ Hrun).
    rewrite (bool_decide_eq_false_2 _ Hnc), (checkOrderAccess_stored _ _ _ _ Ho), Hacc.
    rewrite (update_status_handler_run _ _ _ _ _ _ Hnc), Hallowed.
    now rewrite (status_written_with_access _ _ _ _ Hacc). }
  rewrite Hpatch. cbn [fst snd reply_code status_reply code].
  set (o1 := Order_pre_save env (with_status pending o)).
  destruct (Order_pre_save_fields env (with_status pending o))
    as (Hitems & Hstatus & _). fold o1 in Hitems, Hstatus. cbn in Hitems, Hstatus.
  split; [reflexivity|].
  split; [cbn; rewrite lookup_insert_eq; cbn; now rewrite Hstatus|].
  split; [exact Hprod|].
  pose proof (protect_next_request hd env db user db1 env'
                (set_orders (insert id o1) db1) Hrun eq_refl) as Hrun2.
  set (user2 := (fst user, touch_login (now env') (snd user))) in *.
  set (db2 := set_users (insert (fst user) (touch_login (now env') (snd user)))
                (set_orders (insert id o1) db1)) in *.
  assert (Ho2 : orders db2 !! id = Some o1) by (cbn; apply lookup_insert_eq).
  assert (Hacc2 : order_access user2 o1 db2 = Granted).
  { destruct Hrole as [Hadmin|Hseller].
    - unfold order_access. cbn [snd user2 touch_login user_role]. now rewrite Hadmin.
    - apply (seller_access_frame user user2 o o1 db1 db2); try assumption; reflexivity. }
  eexists. split; [exact (cancel_granted _ _ _ _ _ _ _ Hrun2 Ho2 Hacc2 Hstatus)|].
  cbn [orders products set_orders set_products].
  rewrite lookup_insert_eq. cbn. rewrite cancelled_status.
  split; [reflexivity|]. intros pid.
  rewrite release_lookup, Hitems. cbn. now rewrite Hprod.
Qed.

End MoreFacts.

(** * The further code at work in the small shop *)

Section MoreShop.
Import Demo Depot.
#[local] Existing Instance Demo.ext.

(** X1, witness: Cara asks for one lamp and ninety-nine pens; three pens
    are in stock, and nothing is taken from the lamps either. *)
Lemma create_rejects_witness :
  exists r db',
    POST_orders (bearer "cara") env (request [item 10%N 1; item 11%N 99]) fresh_db
    = (Respond r, db') /\
    code r <> 201 /\ orders db' = orders fresh_db /\ products db' = products fresh_db.
Proof.
  apply (@create_rejects_whole_order Demo.ext). vm_compute. reflexivity.
Defined.


(** X6, witness: Sam deletes his lamp; Cara is refused. *)
Lemma product_delete_witness :
  (exists r db',
     DELETE_product (bearer "sam") env 10%N db = (Respond r, db') /\
     code r = 200 /\ products db' = delete 10%N (products db) /\ orders db' = orders db)
  /\ (exists r db',
        DELETE_product (bearer "cara") env 10%N db = (Respond r, db') /\
        code r = 403 /\ products db' = products db).
Proof.
  assert (Hsam : protect (bearer "sam") env db
                 = (Next (logged_in 2%N sam), after_login 2%N sam db))
    by (vm_compute; reflexivity).
  assert (Hcara : protect (bearer "cara") env db
                  = (Next (logged_in 3%N cara), after_login 3%N cara db))
    by (vm_compute; reflexivity).
  split.
  - destruct (product_delete_needs_admin_or_owner _ _ 10%N _ _ _ Hsam)
      as (r & db' & Hrun & Hord & Hiff & Hdel & _).
    assert (Hcode : code r = 200).
    { apply Hiff. exists lamp. split; [vm_compute; reflexivity|].
      right. split; reflexivity. }
    exists r, db'. repeat split; try assumption. now apply Hdel.
  - destruct (product_delete_needs_admin_or_owner _ _ 10%N _ _ _ Hcara)
      as (r & db' & Hrun & _ & _ & _ & Hkeep & Hrole).
    assert (Hcode : code r = 403) by (apply Hrole; left; reflexivity).
    exists r, db'. repeat split; try assumption.
    apply Hkeep. rewrite Hcode. discriminate.
Defined.

(** X7, witness: on the sellers' route Sam gets one reply for Sue's mug
    and for a product that is not stored; the general route answers 403 for
    the mug; Sam's own lamp is deleted. *)
Lemma seller_route_witness :
  DELETE_seller_product (bearer "sam") env 12%N db
  = (Respond (fail 404 "Product not found"), after_login 2%N sam db)
  /\ DELETE_seller_product (bearer "sam") env 99%N db
     = (Respond (fail 404 "Product not found"), after_login 2%N sam db)
  /\ DELETE_product (bearer "sam") env 12%N db
     = (Respond (fail 403 "Access denied. You can only manage your own resources."),
        after_login 2%N sam db)
  /\ DELETE_seller_product (bearer "sam") env 10%N db
     = (Respond product_deleted, set_products (delete 10%N) (after_login 2%N sam db)).
Proof.
  assert (Hsam : protect (bearer "sam") env db
                 = (Next (logged_in 2%N sam), after_login 2%N sam db))
    by (vm_compute; reflexivity).
  assert (Hmug : forall p, products db !! 12%N = Some p ->
                           product_seller p <> fst (logged_in 2%N sam)).
  { intros p Hp. vm_compute in Hp. injection Hp as <-. vm_compute. discriminate. }
  assert (Hnone : forall p, products db !! 99%N = Some p ->
                            product_seller p <> fst (logged_in 2%N sam)).
  { intros p Hp. vm_compute in Hp. discriminate. }
  destruct (seller_route_hides_foreign_products _ _ 12%N _ _ _ Hsam eq_refl)
    as [Hforeign _].
  destruct (seller_route_hides_foreign_products _ _ 99%N _ _ _ Hsam eq_refl)
    as [Habsent _].
  destruct (seller_route_hides_foreign_products _ _ 10%N _ _ _ Hsam eq_refl)
    as [_ Hown].
  destruct (Hforeign Hmug) as (H12 & _ & _ & H403).
  destruct (Habsent Hnone) as (H99 & _).
  destruct (Hown lamp ltac:(vm_compute; reflexivity) eq_refl) as (H10 & _).
  split; [exact H12|]. split; [exact H99|]. split; [|exact H10].
  apply H403. vm_compute. eauto.
Defined.

Lemma shop_is_consistent : store_consistent db.
Proof.
  unfold store_consistent, db. cbn [orders].
  rewrite !list_to_map_cons, list_to_map_nil.
  repeat (apply map_Forall_insert_2; [intros _; vm_compute; split; reflexivity|]).
  apply map_Forall_empty.
Defined.

(** X11, witness: the three orders of the shop are consistent, and they
    still are after Cara cancels order 100, after Dan delivers order 102
    and after Cara places a new order. *)
Lemma totals_consistent_witness :
  store_consistent (snd (DELETE_order (bearer "cara") env 100%N db))
  /\ store_consistent
       (snd (PATCH_delivery_order_status (bearer "dan") env 102%N delivered_body db))
  /\ store_consistent
       (snd (POST_orders (bearer "cara") env (request [item 11%N 1]) db)).
Proof.
  destruct (saving_routes_keep_totals_consistent (bearer "cara") env db shop_is_consistent)
    as (Hpost & _ & Hdel & _).
  destruct (saving_routes_keep_totals_consistent (bearer "dan") env db shop_is_consistent)
    as (_ & _ & _ & _ & Hpatch & _).
  split; [apply Hdel|]. split; [apply Hpatch|apply Hpost].
Defined.

(** X13, witness: Dan completes the confirmed order 102, and a second
    request is refused; the pending order 102 of the shop cannot be
    completed. *)
Lemma completion_witness :
  (exists o',
     POST_delivery_order_complete (bearer "dan") env 102%N (shop_with_102 confirmed)
     = (Respond (completed (102%N, o')),
        set_orders (insert 102%N o') (after_login 4%N dan (shop_with_102 confirmed))) /\
     order_status o' = delivered /\
     actualDelivery (order_delivery o') = Some (now env) /\
     fst (POST_delivery_order_complete (bearer "dan") later 102%N
            (set_orders (insert 102%N o') (after_login 4%N dan (shop_with_102 confirmed))))
     = Respond not_ready)
  /\ POST_delivery_order_complete (bearer "dan") env 102%N db
     = (Respond not_ready, after_login 4%N dan db).
Proof.
  assert (Hdan : protect (bearer "dan") env (shop_with_102 confirmed)
                 = (Next (logged_in 4%N dan), after_login 4%N dan (shop_with_102 confirmed)))
    by (vm_compute; reflexivity).
  assert (Hdan0 : protect (bearer "dan") env db
                  = (Next (logged_in 4%N dan), after_login 4%N dan db))
    by (vm_compute; reflexivity).
  split.
  - destruct (completion_delivers_once _ _ 102%N _ _ _ Hdan eq_refl) as [Hdone _].
    destruct (Hdone (order102_in confirmed))
      as (o' & Hrun & Hst & Hact & _ & _ & _ & Hagain).
    + vm_compute. reflexivity.
    + reflexivity.
    + vm_compute. repeat constructor.
    + exists o'. split; [exact Hrun|]. split; [exact Hst|]. split; [exact Hact|].
      apply (Hagain later).
  - destruct (completion_delivers_once _ _ 102%N _ _ _ Hdan0 eq_refl) as [_ Hnot].
    apply Hnot. intros o Ho. vm_compute in Ho. injection Ho as <-. right.
    unfold completion_targets. rewrite !elem_of_cons, elem_of_nil.
    intros [E|[E|[]]]; vm_compute in E; discriminate.
Defined.

(** X14, witness: Dan marks the cancelled order 102 as delivered through
    the status route, which the completion route refuses; on the shipped
    order 102 the two routes and [markAsDelivered] leave one store. *)
Lemma three_ways_witness :
  (reply_code (fst (PATCH_delivery_order_status (bearer "dan") env 102%N delivered_body
                      (shop_with_102 cancelled))) = Some 200 /\
   POST_delivery_order_complete (bearer "dan") env 102%N (shop_with_102 cancelled)
   = (Respond not_ready, after_login 4%N dan (shop_with_102 cancelled)))
  /\ (snd (POST_delivery_order_complete (bearer "dan") env 102%N (shop_with_102 shipped))
      = snd (PATCH_delivery_order_status (bearer "dan") env 102%N delivered_body
               (shop_with_102 shipped)) /\
      snd (PATCH_delivery_order_status (bearer "dan") env 102%N delivered_body
             (shop_with_102 shipped))
      = snd (Order_markAsDelivered env (102%N, order102_in shipped)
               (after_login 4%N dan (shop_with_102 shipped)))).
Proof.
  assert (Hdan : forall st, protect (bearer "dan") env (shop_with_102 st)
                 = (Next (logged_in 4%N dan), after_login 4%N dan (shop_with_102 st)))
    by (intros st; vm_compute; reflexivity).
  assert (Ho : forall st, orders (shop_with_102 st) !! 102%N = Some (order102_in st))
    by (intros st; apply lookup_insert_eq).
  split.
  - pose proof (three_ways_to_deliver _ _ 102%N _ _ _ (order102_in cancelled)
                  (Hdan cancelled) eq_refl (Ho cancelled) eq_refl) as Hways.
    cbn zeta in Hways. destruct Hways as (Hcode & _ & _ & _ & Hrefused).
    split; [exact Hcode|]. apply Hrefused.
    unfold completion_targets. rewrite !elem_of_cons, elem_of_nil.
    intros [E|[E|[]]]; vm_compute in E; discriminate.
  - pose proof (three_ways_to_deliver _ _ 102%N _ _ _ (order102_in shipped)
                  (Hdan shipped) eq_refl (Ho shipped) eq_refl) as Hways.
    cbn zeta in Hways. destruct Hways as (_ & Hsame & _ & Hready & _).
    split; [|exact Hsame]. apply Hready. vm_compute. repeat constructor.
Defined.

(** X15, witness: Dan sets the cancelled order 102 to confirmed; no
    product changes. *)
Lemma delivery_status_witness :
  exists o',
    PATCH_delivery_order_status (bearer "dan") env 102%N
      {| ds_status := "confirmed"; ds_estimatedDelivery := Some 1700000600000 |}
      (shop_with_102 cancelled)
    = (Respond {| code := 200;
                  body := Success (Some "Delivery status updated successfully")
                            (DOrder (102%N, o')) |},
       set_orders (insert 102%N o') (after_login 4%N dan (shop_with_102 cancelled))) /\
    order_status o' = confirmed /\
    actualDelivery (order_delivery o') = None /\
    estimatedDelivery (order_delivery o') = Some 1700000600000 /\
    products (set_orders (insert 102%N o') (after_login 4%N dan (shop_with_102 cancelled)))
    = products (shop_with_102 cancelled).
Proof.
  assert (Hdan : protect (bearer "dan") env (shop_with_102 cancelled)
                 = (Next (logged_in 4%N dan), after_login 4%N dan (shop_with_102 cancelled)))
    by (vm_compute; reflexivity).
  destruct (delivery_status_ignores_the_current_status _ _ 102%N _ _ _
              (order102_in cancelled) confirmed (Some 1700000600000)
              Hdan eq_refl (lookup_insert_eq _ _ _) eq_refl ltac:(repeat constructor))
    as (o' & Hrun & Hst & Hact & Hest & _ & _ & _ & Hprod).
  exists o'. split; [exact Hrun|]. split; [exact Hst|].
  split; [exact Hact|]. split; [exact Hest|exact Hprod].
Defined.



(** X18, witness: Sam's and Dan's own listings are their general
    listings. *)
Lemma role_listings_witness :
  GET_seller_orders (bearer "sam") env page1 db = GET_orders (bearer "sam") env page1 db
  /\ GET_delivery_orders (bearer "dan") env page1 db = GET_orders (bearer "dan") env page1 db.
Proof.
  assert (Hsam : protect (bearer "sam") env db
                 = (Next (logged_in 2%N sam), after_login 2%N sam db))
    by (vm_compute; reflexivity).
  assert (Hdan : protect (bearer "dan") env db
                 = (Next (logged_in 4%N dan), after_login 4%N dan db))
    by (vm_compute; reflexivity).
  split.
  - apply (proj1 (role_listings_agree (bearer "sam") env page1 db _ _ Hsam)).
    reflexivity.
  - apply (proj2 (role_listings_agree (bearer "dan") env page1 db _ _ Hdan)).
    reflexivity.
Defined.


(** X20, witness: order 100 holds the lamp and nothing else of Sam's.  Sam
    reads the order, deletes the lamp, and is then refused the order. *)
Lemma deleted_product_witness :
  GET_order (bearer "sam") env 100%N db
  = (Respond {| code := 200; body := Success None (DOrder (100%N, order100)) |},
     after_login 2%N sam db)
  /\ fst (DELETE_seller_product (bearer "sam") env 10%N db) = Respond product_deleted
  /\ orders (snd (DELETE_seller_product (bearer "sam") env 10%N db)) !! 100%N
     = Some order100
  /\ fst (GET_order (bearer "sam") later 100%N
            (snd (DELETE_seller_product (bearer "sam") env 10%N db)))
     = Respond (fail 403 "Access denied. You cannot access this order.").
Proof.
  assert (Hsam : protect (bearer "sam") env db
                 = (Next (logged_in 2%N sam), after_login 2%N sam db))
    by (vm_compute; reflexivity).
  assert (Hp : products db !! 10%N = Some lamp) by (vm_compute; reflexivity).
  assert (Ho : orders db !! 100%N = Some order100) by (vm_compute; reflexivity).
  assert (Hin : 10%N ∈ item_products order100) by (vm_compute; repeat constructor).
  assert (Honly : forall it q, it ∈ order_items order100 ->
            products db !! item_product it = Some q ->
            product_seller q = fst (logged_in 2%N sam) -> item_product it = 10%N).
  { intros it q Hit _ _. vm_compute in Hit.
    apply list_elem_of_singleton in Hit. subst it. reflexivity. }
  pose proof (deleting_a_product_hides_its_orders (bearer "sam") env later 10%N 100%N db
                _ _ lamp order100 Hsam eq_refl Hp eq_refl Ho Hin Honly) as Hhide.
  cbn zeta in Hhide. destruct Hhide as (Hbefore & Hdel & Hkept & Hafter & _).
  split; [exact Hbefore|]. split; [exact Hdel|]. split; [exact Hkept|exact Hafter].
Defined.

(** X21, witness: Ada cannot delete her own account; she deletes Cara's,
    and Cara's credential is then refused by [protect] and still accepted
    by [verifyToken]. *)
Lemma admin_delete_witness :
  DELETE_admin_user (bearer "ada") env 1%N db
  = (Respond (fail 400 "Cannot delete your own account"), after_login 1%N ada db)
  /\ DELETE_admin_user (bearer "ada") env 3%N db
     = (Respond user_deleted, set_users (delete 3%N) (after_login 1%N ada db))
  /\ protect (bearer "cara") later (set_users (delete 3%N) (after_login 1%N ada db))
     = (Respond (fail 401 "User not found"),
        set_users (delete 3%N) (after_login 1%N ada db))
  /\ verifyToken (bearer "cara") (set_users (delete 3%N) (after_login 1%N ada db))
     = (Next 3%N, set_users (delete 3%N) (after_login 1%N ada db)).
Proof.
  assert (Hada : protect (bearer "ada") env db
                 = (Next (logged_in 1%N ada), after_login 1%N ada db))
    by (vm_compute; reflexivity).
  assert (Hres : resolves (bearer "cara") db 3%N cara).
  { exists "Bearer cara", "cara". vm_compute. repeat split; reflexivity. }
  destruct (proj2 (admin_deletes_other_users _ _ 1%N _ _ _ Hada) eq_refl)
    as (Hself & _ & _).
  destruct (proj2 (admin_deletes_other_users _ _ 3%N _ _ _ Hada) eq_refl)
    as (_ & _ & Hother).
  split; [apply (Hself eq_refl)|].
  destruct Hother as (Hrun & _ & _ & _ & _ & Hlocked).
  { vm_compute. discriminate. }
  { vm_compute. eauto. }
  split; [exact Hrun|]. exact (Hlocked (bearer "cara") later cara Hres).
Defined.

(** X22, witness: with Cara's account gone, Cody's request for her order
    100 is answered 500, and Ada still reads it. *)
Lemma deleted_customer_witness :
  GET_order (bearer "cody") env 100%N shop_without_cara
  = (Respond (fail 500 "Server error"), after_login 5%N cody shop_without_cara)
  /\ DELETE_order (bearer "cody") env 100%N shop_without_cara
     = (Respond (fail 500 "Server error"), after_login 5%N cody shop_without_cara)
  /\ GET_order (bearer "ada") env 100%N shop_without_cara
     = (Respond {| code := 200; body := Success None (DOrder (100%N, order100)) |},
        after_login 1%N ada shop_without_cara).
Proof.
  assert (Hcody : protect (bearer "cody") env shop_without_cara
                  = (Next (logged_in 5%N cody), after_login 5%N cody shop_without_cara))
    by (vm_compute; reflexivity).
  assert (Hada : protect (bearer "ada") env shop_without_cara
                 = (Next (logged_in 1%N ada), after_login 1%N ada shop_without_cara))
    by (vm_compute; reflexivity).
  assert (Ho : orders shop_without_cara !! 100%N = Some order100)
    by (vm_compute; reflexivity).
  assert (Hgone : users shop_without_cara !! order_customer order100 = None)
    by (vm_compute; reflexivity).
  destruct (proj1 (orders_of_a_deleted_customer _ _ _ _ _ _ _ Hcody Ho Hgone) eq_refl)
    as (Hget & _ & Hdel & _).
  split; [exact Hget|]. split; [exact Hdel|].
  exact (proj2 (orders_of_a_deleted_customer _ _ _ _ _ _ _ Hada Ho Hgone) eq_refl).
Defined.

(** X24, witness: the dashboard shows "Start Delivery" on the confirmed
    order 102; Dan presses it and the order is stored as shipped. *)
Lemma dashboard_button_witness :
  card_button delivery confirmed = Some shipped
  /\ exists r db' o',
       PATCH_delivery_order_status (bearer "dan") env 102%N
         {| ds_status := "shipped"; ds_estimatedDelivery := None |} (shop_with_102 confirmed)
       = (Respond r, db') /\
       code r = 200 /\ orders db' !! 102%N = Some o' /\ order_status o' = shipped.
Proof.
  assert (Hdan : protect (bearer "dan") env (shop_with_102 confirmed)
                 = (Next (logged_in 4%N dan), after_login 4%N dan (shop_with_102 confirmed)))
    by (vm_compute; reflexivity).
  destruct (@front_end_buttons_send_accepted_targets Demo.ext) as (_ & Hsame & Hpress).
  split; [now rewrite Hsame|].
  exact (Hpress _ _ 102%N _ _ _ (order102_in confirmed) shipped
           Hdan eq_refl (lookup_insert_eq _ _ _) eq_refl eq_refl).
Defined.

(** X25, witness: two more lamps in the basket of two lamps and a pen make
    four lamps on one line and a count of five; removing the pen leaves a
    count of two. *)
Lemma cart_witness :
  cart_quantity <$> getCartItem 10%N (addToCart (10%N, lamp) (Some 2) basket) = Some 4
  /\ cartCount (addToCart (10%N, lamp) (Some 2) basket) = 5
  /\ NoDup (cart_id <$> addToCart (10%N, lamp) (Some 2) basket)
  /\ cartCount (removeFromCart 11%N basket) = 2
  /\ updateQuantity 11%N 0 basket = removeFromCart 11%N basket.
Proof.
  assert (Hnodup : NoDup (cart_id <$> basket))
    by (vm_compute; apply NoDup_cons; split;
        [intros Hin; apply list_elem_of_singleton in Hin; discriminate
        |apply NoDup_singleton]).
  destruct (cart_keeps_one_line_per_product basket Hnodup) as (Hadd & Hrem & Hupd).
  destruct (Hadd (10%N, lamp) (Some 2)) as (Hn & Hcount & Hqty & _).
  cbn [fst] in Hqty.
  destruct (Hrem 11%N) as (_ & _ & Hcount' & _).
  destruct (Hupd 11%N 0) as (_ & Hzero & _).
  split; [rewrite Hqty; reflexivity|]. split; [rewrite Hcount; reflexivity|].
  split; [exact Hn|]. split; [rewrite Hcount'; reflexivity|].
  apply Hzero. lia.
Defined.


(** X27, witness: Sam, a seller, passes the three checks for admins and
    sellers and [canManageOrders], and is refused by [requireCustomer]. *)
Lemma role_checks_witness :
  canManageProducts (logged_in 2%N sam) (after_login 2%N sam db)
  = (Next tt, after_login 2%N sam db)
  /\ canViewAnalytics (logged_in 2%N sam) (after_login 2%N sam db)
     = (Next tt, after_login 2%N sam db)
  /\ requireAdminOrSeller (bearer "sam") env (after_login 2%N sam db)
     = (Next (logged_in 2%N sam), after_login 2%N sam db)
  /\ canManageOrders (logged_in 2%N sam) (after_login 2%N sam db)
     = (Next tt, after_login 2%N sam db)
  /\ requireSeller (bearer "sam") env (after_login 2%N sam db)
     = (Next (logged_in 2%N sam), after_login 2%N sam db).
Proof.
  assert (Hsam : protect (bearer "sam") env db
                 = (Next (logged_in 2%N sam), after_login 2%N sam db))
    by (vm_compute; reflexivity).
  pose proof (role_checks_agree _ _ _ _ _ Hsam) as Hchecks. cbn zeta in Hchecks.
  destruct Hchecks as (Hp & Ha & Has & _ & Ho & _ & _ & Hs & _).
  split; [apply Hp; right; reflexivity|]. split; [apply Ha; right; reflexivity|].
  split; [apply Has; right; reflexivity|]. split; [apply Ho; discriminate|].
  apply Hs. reflexivity.
Defined.

(** X28, witness: order 100 is saved, and saved again later. *)
Lemma saving_twice_witness :
  Order_save later false (100%N, Order_pre_save env order100)
    (set_orders (insert 100%N (Order_pre_save env order100)) db)
  = (Next (100%N, Order_pre_save env order100),
     set_orders (insert 100%N (Order_pre_save env order100)) db)
  /\ orderNumber (Order_pre_save env order100) = "ORD-00000100-AAAA".
Proof.
  split; [|vm_compute; reflexivity].
  apply (saving_twice_is_saving_once env later false (100%N, order100) db). reflexivity.
Defined.

(** X29, witness: ten lamps were in stock before Cara ordered two.  She
    cancels order 100 and ten are in stock again; Sam sets the cancelled
    order back to pending and cancels it, and twelve are in stock. *)
Lemma reopened_order_witness :
  product_stock <$> products db !! 10%N = Some 8
  /\ product_stock <$> products shop_after_cancel !! 10%N = Some 10
  /\ exists db3,
       DELETE_order (bearer "sam") later 100%N
         (snd (PATCH_order_status (bearer "sam") env 100%N "pending" shop_after_cancel))
       = (Respond cancelled_reply, db3) /\
       product_stock <$> products db3 !! 10%N = Some 12 /\
       product_sales <$> products db3 !! 10%N = Some 0.
Proof.
  assert (Hsam : protect (bearer "sam") env shop_after_cancel
                 = (Next (logged_in 2%N sam), after_login 2%N sam shop_after_cancel))
    by (vm_compute; reflexivity).
  assert (Ho : orders shop_after_cancel !! 100%N = Some cancelled100)
    by (vm_compute; reflexivity).
  assert (Hacc : order_access (logged_in 2%N sam) cancelled100
                   (after_login 2%N sam shop_after_cancel) = Granted)
    by (vm_compute; reflexivity).
  assert (Hst : order_status cancelled100 = cancelled) by (vm_compute; reflexivity).
  pose proof (reopened_order_gives_its_units_back_again (bearer "sam") env later 100%N
                shop_after_cancel _ _ cancelled100 Hsam (or_intror eq_refl) Ho Hacc Hst)
    as Hagain.
  cbn zeta in Hagain. destruct Hagain as (_ & _ & _ & db3 & Hdel & _ & Hprod).
  split; [vm_compute; reflexivity|]. split; [vm_compute; reflexivity|].
  exists db3. split; [exact Hdel|]. rewrite (Hprod 10%N).
  split; vm_compute; reflexivity.
Defined.


End MoreShop.
